(** * TransparenCity: proposal lifecycle, voting and audit bookkeeping

    A shallow embedding of the three stateful pieces of the repository and
    of the client that reads the two contracts:

    - [Governance]: the [TransparenCityGovernance] Solidity contract
      (proposals, votes, status changes, in-contract audit trail);
    - [AuditTrail]: the [TransparentAuditTrail] Solidity contract
      (id-stamped audit records with per-proposal and per-actor indices);
    - [Backend]: the Express/Mongoose controllers for proposals, votes and
      official responses, over an explicit document store;
    - [BlockchainService]: the read functions of the web3 client
      (proposal details and pages, audit trails, recent audit records).

    Solidity [uint256] and [address] values are modelled as [N] with the
    checked arithmetic of Solidity 0.8 written out; a reverted call returns
    [Revert] and leaves the storage it started from. *)

From stdpp Require Import gmap strings list pretty.
From Stdlib Require Import NArith ZArith Lia.

Local Open Scope N_scope.

(** ** Solidity primitives *)

Module Solidity.

Definition address := N.
Definition uint256 := N.
Definition bytes32 := N.

Definition MAX_UINT256 : N := 2 ^ 256 - 1.

(** [require(cond, msg)] failures and arithmetic / bounds panics. *)
Inductive revert :=
| Require (msg : string)
| Panic (code : N).

Inductive result (A : Type) :=
| Ok (a : A)
| Revert (e : revert).
Arguments Ok {A} a.
Arguments Revert {A} e.

#[global] Instance result_ret : MRet result := fun A a => Ok a.
#[global] Instance result_bind : MBind result := fun A B f m =>
  match m with
  | Ok a => f a
  | Revert e => Revert e
  end.

Definition require (cond : bool) (msg : string) : result unit :=
  if cond then Ok tt else Revert (Require msg).

(** Checked [a + b]: panic 0x11 on overflow. *)
Definition checked_add (a b : uint256) : result uint256 :=
  if a + b <=? MAX_UINT256 then Ok (a + b) else Revert (Panic 17).

(** Checked [a - b]: panic 0x11 on underflow. *)
Definition checked_sub (a b : uint256) : result uint256 :=
  if b <=? a then Ok (a - b) else Revert (Panic 17).

Record Env := {
  msg_sender : address;
  block_timestamp : uint256
}.

End Solidity.

Import Solidity.

(** ** The governance contract (TransparenCityGovernance) *)

Module Governance.

Definition VOTING_PERIOD : uint256 := 7 * 24 * 60 * 60.

(** The first constructor is the value an unwritten slot reads as. *)
Inductive ProposalStatus := Active | Passed | Rejected | Implemented.

#[global] Instance ProposalStatus_eq_dec : EqDecision ProposalStatus.
Proof. solve_decision. Defined.

(** [hasVoted] is a [mapping(address => bool)] whose entries are only ever
    set to true: it is kept as the set of addresses mapped to true.  The
    same holds for [verifiedVoters] below. *)
Record Proposal := {
  id : uint256;
  title : string;
  description : string;
  ipfsDocHash : string;
  creationTime : uint256;
  votingEndTime : uint256;
  proposer : address;
  yesVotes : uint256;
  noVotes : uint256;
  status : ProposalStatus;
  implementationDetails : string;
  hasVoted : gset address
}.

Record AuditRecord := {
  user : address;
  proposalId : uint256;
  action : string;
  timestamp : uint256
}.

Inductive Event :=
| ProposalCreated (_proposalId : uint256) (_proposer : address) (_title : string)
| VoteCast (_proposalId : uint256) (_voter : address) (_support : bool)
| ProposalStatusChanged (_proposalId : uint256) (_status : ProposalStatus)
| VoterVerified (_voter : address)
| AuditRecorded (_proposalId : uint256) (_user : address) (_action : string).

(** Contract storage, plus the log of emitted events. *)
Record State := {
  admin : address;
  proposalCount : uint256;
  proposals : gmap uint256 Proposal;
  verifiedVoters : gset address;
  auditTrail : list AuditRecord;
  events : list Event
}.

(** The zero-initialised struct every unwritten mapping slot reads as. *)
Definition zero_Proposal : Proposal := {|
  id := 0; title := ""; description := ""; ipfsDocHash := "";
  creationTime := 0; votingEndTime := 0; proposer := 0;
  yesVotes := 0; noVotes := 0; status := Active;
  implementationDetails := ""; hasVoted := ∅
|}.

(** [proposals[i]] *)
Definition proposal_at (s : State) (i : uint256) : Proposal :=
  default zero_Proposal (proposals s !! i).

(** Field updates of a [Proposal] in storage. *)
Definition set_status (v : ProposalStatus) (p : Proposal) : Proposal :=
  {| id := id p; title := title p; description := description p;
     ipfsDocHash := ipfsDocHash p; creationTime := creationTime p;
     votingEndTime := votingEndTime p; proposer := proposer p;
     yesVotes := yesVotes p; noVotes := noVotes p; status := v;
     implementationDetails := implementationDetails p;
     hasVoted := hasVoted p |}.

Definition set_implementationDetails (v : string) (p : Proposal) : Proposal :=
  {| id := id p; title := title p; description := description p;
     ipfsDocHash := ipfsDocHash p; creationTime := creationTime p;
     votingEndTime := votingEndTime p; proposer := proposer p;
     yesVotes := yesVotes p; noVotes := noVotes p; status := status p;
     implementationDetails := v;
     hasVoted := hasVoted p |}.

Definition set_yesVotes (v : uint256) (p : Proposal) : Proposal :=
  {| id := id p; title := title p; description := description p;
     ipfsDocHash := ipfsDocHash p; creationTime := creationTime p;
     votingEndTime := votingEndTime p; proposer := proposer p;
     yesVotes := v; noVotes := noVotes p; status := status p;
     implementationDetails := implementationDetails p;
     hasVoted := hasVoted p |}.

Definition set_noVotes (v : uint256) (p : Proposal) : Proposal :=
  {| id := id p; title := title p; description := description p;
     ipfsDocHash := ipfsDocHash p; creationTime := creationTime p;
     votingEndTime := votingEndTime p; proposer := proposer p;
     yesVotes := yesVotes p; noVotes := v; status := status p;
     implementationDetails := implementationDetails p;
     hasVoted := hasVoted p |}.

Definition set_hasVoted (v : gset address) (p : Proposal) : Proposal :=
  {| id := id p; title := title p; description := description p;
     ipfsDocHash := ipfsDocHash p; creationTime := creationTime p;
     votingEndTime := votingEndTime p; proposer := proposer p;
     yesVotes := yesVotes p; noVotes := noVotes p; status := status p;
     implementationDetails := implementationDetails p;
     hasVoted := v |}.

(** Field updates of the contract storage. *)
Definition set_proposalCount (v : uint256) (s : State) : State :=
  {| admin := admin s; proposalCount := v; proposals := proposals s;
     verifiedVoters := verifiedVoters s; auditTrail := auditTrail s;
     events := events s |}.

Definition set_proposals (v : gmap uint256 Proposal) (s : State) : State :=
  {| admin := admin s; proposalCount := proposalCount s; proposals := v;
     verifiedVoters := verifiedVoters s; auditTrail := auditTrail s;
     events := events s |}.

Definition set_verifiedVoters (v : gset address) (s : State) : State :=
  {| admin := admin s; proposalCount := proposalCount s;
     proposals := proposals s; verifiedVoters := v;
     auditTrail := auditTrail s; events := events s |}.

Definition set_auditTrail (v : list AuditRecord) (s : State) : State :=
  {| admin := admin s; proposalCount := proposalCount s;
     proposals := proposals s; verifiedVoters := verifiedVoters s;
     auditTrail := v; events := events s |}.

Definition emit (e : Event) (s : State) : State :=
  {| admin := admin s; proposalCount := proposalCount s;
     proposals := proposals s; verifiedVoters := verifiedVoters s;
     auditTrail := auditTrail s; events := events s ++ [e] |}.

(** [proposals[i] = p] *)
Definition store_proposal (i : uint256) (p : Proposal) (s : State) : State :=
  set_proposals (<[i := p]> (proposals s)) s.

(** *** Modifiers *)

Definition onlyAdmin (env : Env) (s : State) : result unit :=
  require (msg_sender env =? admin s) "Only admin can perform this action".

Definition onlyVerifiedVoter (env : Env) (s : State) : result unit :=
  require (bool_decide (msg_sender env ∈ verifiedVoters s))
          "Only verified voters can perform this action".

(** *** Constructor *)

Definition constructor (env : Env) : State :=
  {| admin := msg_sender env; proposalCount := 0; proposals := ∅;
     verifiedVoters := ∅; auditTrail := []; events := [] |}.

(** *** Audit trail *)

Definition recordAudit (env : Env) (_user : address) (_proposalId : uint256)
    (_action : string) (s : State) : State :=
  let s := set_auditTrail
             (auditTrail s ++
                [ {| user := _user; proposalId := _proposalId;
                     action := _action;
                     timestamp := block_timestamp env |} ]) s in
  emit (AuditRecorded _proposalId _user _action) s.

Definition getAuditTrailLength (s : State) : uint256 :=
  N.of_nat (length (auditTrail s)).

(** *** Admin functions *)

Definition verifyVoter (env : Env) (_voter : address) (s : State)
    : result State :=
  _ ← onlyAdmin env s;
  let s := set_verifiedVoters ({[_voter]} ∪ verifiedVoters s) s in
  let s := emit (VoterVerified _voter) s in
  Ok (recordAudit env _voter 0 "VOTER_VERIFIED" s).

Definition updateProposalStatus (env : Env) (_proposalId : uint256)
    (_newStatus : ProposalStatus) (_implementationDetails : string)
    (s : State) : result State :=
  _ ← onlyAdmin env s;
  _ ← require ((_proposalId <=? proposalCount s) && (0 <? _proposalId))
              "Invalid proposal ID";
  let s := store_proposal _proposalId
             (set_status _newStatus (proposal_at s _proposalId)) s in
  let s :=
    if bool_decide (_newStatus = Implemented)
    then store_proposal _proposalId
           (set_implementationDetails _implementationDetails
              (proposal_at s _proposalId)) s
    else s in
  let s := emit (ProposalStatusChanged _proposalId _newStatus) s in
  Ok (recordAudit env (msg_sender env) _proposalId "STATUS_UPDATED" s).

(** *** Proposal functions *)

Definition createProposal (env : Env) (_title _description _ipfsDocHash : string)
    (s : State) : result State :=
  _ ← onlyVerifiedVoter env s;
  count ← checked_add (proposalCount s) 1;
  let s := set_proposalCount count s in
  let slot := proposal_at s count in
  votingEnd ← checked_add (block_timestamp env) VOTING_PERIOD;
  let newProposal :=
    {| id := count; title := _title; description := _description;
       ipfsDocHash := _ipfsDocHash;
       creationTime := block_timestamp env;
       votingEndTime := votingEnd;
       proposer := msg_sender env;
       yesVotes := yesVotes slot; noVotes := noVotes slot;
       status := Active;
       implementationDetails := implementationDetails slot;
       hasVoted := hasVoted slot |} in
  let s := store_proposal count newProposal s in
  let s := emit (ProposalCreated count (msg_sender env) _title) s in
  Ok (recordAudit env (msg_sender env) count "PROPOSAL_CREATED" s).

Section WithContractAddress.

(** [address(this)] *)
Variable this : address.

Definition checkProposalStatus (env : Env) (_proposalId : uint256)
    (s : State) : State :=
  let proposal := proposal_at s _proposalId in
  if bool_decide (status proposal = Active)
     && (votingEndTime proposal <=? block_timestamp env)
  then
    let proposal :=
      if noVotes proposal <? yesVotes proposal
      then set_status Passed proposal
      else set_status Rejected proposal in
    let s := store_proposal _proposalId proposal s in
    let s := emit (ProposalStatusChanged _proposalId (status proposal)) s in
    recordAudit env this _proposalId "STATUS_UPDATED_AUTO" s
  else s.

(** The storage writes and audit record of [castVote], up to (not
    including) the closing call of [checkProposalStatus]. *)
Definition recordVote (env : Env) (_proposalId : uint256) (_support : bool)
    (s : State) : result State :=
  let proposal := proposal_at s _proposalId in
  let proposal :=
    set_hasVoted ({[msg_sender env]} ∪ hasVoted proposal) proposal in
  proposal ←
    (if _support
     then y ← checked_add (yesVotes proposal) 1;
          Ok (set_yesVotes y proposal)
     else n ← checked_add (noVotes proposal) 1;
          Ok (set_noVotes n proposal));
  let s := store_proposal _proposalId proposal s in
  let s := emit (VoteCast _proposalId (msg_sender env) _support) s in
  Ok (recordAudit env (msg_sender env) _proposalId
        (if _support then "VOTE_YES" else "VOTE_NO") s).

Definition castVote (env : Env) (_proposalId : uint256) (_support : bool)
    (s : State) : result State :=
  _ ← onlyVerifiedVoter env s;
  _ ← require ((_proposalId <=? proposalCount s) && (0 <? _proposalId))
              "Invalid proposal ID";
  let proposal := proposal_at s _proposalId in
  _ ← require (block_timestamp env <? votingEndTime proposal)
              "Voting period has ended";
  _ ← require (bool_decide (status proposal = Active))
              "Proposal is not active";
  _ ← require (negb (bool_decide (msg_sender env ∈ hasVoted proposal)))
              "Already voted on this proposal";
  s ← recordVote env _proposalId _support s;
  Ok (checkProposalStatus env _proposalId s).

(** *** Transactions *)

Inductive Call :=
| VerifyVoter (_voter : address)
| UpdateProposalStatus (_proposalId : uint256) (_newStatus : ProposalStatus)
    (_implementationDetails : string)
| CreateProposal (_title _description _ipfsDocHash : string)
| CastVote (_proposalId : uint256) (_support : bool)
| CheckProposalStatus (_proposalId : uint256).

Definition call (env : Env) (c : Call) (s : State) : result State :=
  match c with
  | VerifyVoter v => verifyVoter env v s
  | UpdateProposalStatus i st d => updateProposalStatus env i st d s
  | CreateProposal t d h => createProposal env t d h s
  | CastVote i b => castVote env i b s
  | CheckProposalStatus i => Ok (checkProposalStatus env i s)
  end.

(** The one transaction that writes a status chosen by its caller. *)
Definition is_updateProposalStatus (c : Call) : bool :=
  match c with
  | UpdateProposalStatus _ _ _ => true
  | _ => false
  end.

(** A transaction either commits its writes or reverts to the state it
    started from. *)
Definition exec (env : Env) (c : Call) (s : State) : State :=
  match call env c s with
  | Ok s' => s'
  | Revert _ => s
  end.

(** States reachable from deployment by transactions with
    non-decreasing block timestamps; the index is the timestamp of the
    last block. *)
Inductive reachable : uint256 -> State -> Prop :=
| reachable_deploy env :
    reachable (block_timestamp env) (constructor env)
| reachable_exec t s env c :
    reachable t s ->
    t <= block_timestamp env ->
    reachable (block_timestamp env) (exec env c s).

End WithContractAddress.

(** *** View functions *)

Definition hasVoted_view (_proposalId : uint256) (_voter : address) (s : State)
    : result bool :=
  _ ← require ((_proposalId <=? proposalCount s) && (0 <? _proposalId))
              "Invalid proposal ID";
  Ok (bool_decide (_voter ∈ hasVoted (proposal_at s _proposalId))).

(** A proposal exists once [createProposal] has allocated its id. *)
Definition exists_proposal (s : State) (i : uint256) : Prop :=
  0 < i <= proposalCount s.

(** Position of a status in the lifecycle
    Active -> {Passed | Rejected} -> Implemented. *)
Definition stage (st : ProposalStatus) : nat :=
  match st with
  | Active => 0
  | Passed => 1
  | Rejected => 1
  | Implemented => 2
  end.

(** A change of status from [a] to [b] that goes back in the lifecycle. *)
Definition regresses (a b : ProposalStatus) : Prop :=
  (stage b < stage a)%nat.

(** The status stays, or an Active proposal is closed. *)
Definition advances (old new : ProposalStatus) : Prop :=
  new = old \/ (old = Active /\ (new = Passed \/ new = Rejected)).

(** *** Proposal details *)

(** The nine values returned by [getProposalBasicInfo]. *)
Module BasicInfo.

Record t := {
  title : string;
  description : string;
  ipfsDocHash : string;
  creationTime : uint256;
  votingEndTime : uint256;
  proposer : address;
  yesVotes : uint256;
  noVotes : uint256;
  status : ProposalStatus
}.

End BasicInfo.

Definition getProposalBasicInfo (_proposalId : uint256) (s : State)
    : result BasicInfo.t :=
  _ ← require ((_proposalId <=? proposalCount s) && (0 <? _proposalId))
              "Invalid proposal ID";
  let proposal := proposal_at s _proposalId in
  Ok {| BasicInfo.title := title proposal;
        BasicInfo.description := description proposal;
        BasicInfo.ipfsDocHash := ipfsDocHash proposal;
        BasicInfo.creationTime := creationTime proposal;
        BasicInfo.votingEndTime := votingEndTime proposal;
        BasicInfo.proposer := proposer proposal;
        BasicInfo.yesVotes := yesVotes proposal;
        BasicInfo.noVotes := noVotes proposal;
        BasicInfo.status := status proposal |}.

(** The ABI value of an enum member: its position in the declaration. *)
Definition status_code (st : ProposalStatus) : uint256 :=
  match st with
  | Active => 0
  | Passed => 1
  | Rejected => 2
  | Implemented => 3
  end.

(** *** Bookkeeping of a run *)

(** The record [recordAudit] pushes in the block of [env]. *)
Definition audit (_user : address) (_proposalId : uint256) (_action : string)
    (env : Env) : AuditRecord :=
  {| user := _user; proposalId := _proposalId; action := _action;
     timestamp := block_timestamp env |}.

(** The audit records about proposal [i] whose action is [a]. *)
Definition audits_of (i : uint256) (a : string) (s : State)
    : list AuditRecord :=
  filter (fun r => proposalId r = i /\ action r = a) (auditTrail s).

(** The audit records whose action is [a]. *)
Definition audits_named (a : string) (s : State) : list AuditRecord :=
  filter (fun r => action r = a) (auditTrail s).

(** Records in the order of their block timestamps. *)
Definition chronological (l : list AuditRecord) : Prop :=
  forall i j a b,
    (i <= j)%nat -> l !! i = Some a -> l !! j = Some b ->
    timestamp a <= timestamp b.

(** The identity of a proposal: what [createProposal] writes and nothing
    else does. *)
Definition same_identity (p q : Proposal) : Prop :=
  id q = id p /\ title q = title p /\ description q = description p
  /\ ipfsDocHash q = ipfsDocHash p /\ creationTime q = creationTime p
  /\ votingEndTime q = votingEndTime p /\ proposer q = proposer p.

(** The ballot box of a proposal: its two counters and who has voted. *)
Definition ballots (p : Proposal) : uint256 * uint256 * gset address :=
  (yesVotes p, noVotes p, hasVoted p).

(** What holds of the storage at block time [t] along every run. *)
Record ledger (t : uint256) (s : State) : Prop := {
  slots_blank : forall i,
    ~ exists_proposal s i -> set_status Active (proposal_at s i) = zero_Proposal;
  proposals_stamped : forall i,
    exists_proposal s i ->
    id (proposal_at s i) = i
    /\ votingEndTime (proposal_at s i)
       = creationTime (proposal_at s i) + VOTING_PERIOD
    /\ creationTime (proposal_at s i) <= t
    /\ proposer (proposal_at s i) ∈ verifiedVoters s;
  ballots_counted : forall i,
    yesVotes (proposal_at s i) + noVotes (proposal_at s i)
    = N.of_nat (size (hasVoted (proposal_at s i)));
  ballots_verified : forall i,
    hasVoted (proposal_at s i) ⊆ verifiedVoters s;
  ballots_logged : forall i,
    yesVotes (proposal_at s i)
    = N.of_nat (length (audits_of i "VOTE_YES" s))
    /\ noVotes (proposal_at s i)
       = N.of_nat (length (audits_of i "VOTE_NO" s));
  proposals_logged :
    proposalCount s = N.of_nat (length (audits_named "PROPOSAL_CREATED" s));
  trail_dated : forall r, r ∈ auditTrail s -> timestamp r <= t;
  trail_ordered : chronological (auditTrail s)
}.

End Governance.

(** ** The audit-trail contract (TransparentAuditTrail) *)

Module AuditTrail.

Record AuditRecord := {
  id : uint256;
  timestamp : uint256;
  actor : address;
  actionType : bytes32;
  proposalId : uint256;
  ipfsDataHash : bytes32;
  metadataHash : bytes32
}.

Inductive Event :=
| AuditRecorded (_recordId : uint256) (_actor : address) (_actionType : bytes32)
| GovernanceContractUpdated (_newContract : address).

(** Contract storage, plus the log of emitted events. *)
Record State := {
  admin : address;
  governanceContract : address;
  auditRecords : list AuditRecord;
  proposalAuditRecords : gmap uint256 (list uint256);
  userAuditRecords : gmap address (list uint256);
  events : list Event
}.

(** [auditRecords.length] *)
Definition auditRecords_length (s : State) : uint256 :=
  N.of_nat (length (auditRecords s)).

(** [m[k]] for a mapping to dynamic arrays: unwritten keys read as the
    empty array. *)
Definition index_at (m : gmap N (list uint256)) (k : N) : list uint256 :=
  default [] (m !! k).

(** [m[k].push(v)] *)
Definition index_push (k : N) (v : uint256) (m : gmap N (list uint256))
    : gmap N (list uint256) :=
  <[k := index_at m k ++ [v]]> m.

Definition onlyAdmin (env : Env) (s : State) : result unit :=
  require (msg_sender env =? admin s) "Only admin can perform this action".

Definition onlyGovernance (env : Env) (s : State) : result unit :=
  require (msg_sender env =? governanceContract s)
          "Only governance contract can call".

Definition constructor (env : Env) : State :=
  {| admin := msg_sender env; governanceContract := 0;
     auditRecords := []; proposalAuditRecords := ∅;
     userAuditRecords := ∅; events := [] |}.

Definition setGovernanceContract (env : Env) (_governanceContract : address)
    (s : State) : result State :=
  _ ← onlyAdmin env s;
  _ ← require (negb (_governanceContract =? 0)) "Invalid address";
  Ok {| admin := admin s; governanceContract := _governanceContract;
        auditRecords := auditRecords s;
        proposalAuditRecords := proposalAuditRecords s;
        userAuditRecords := userAuditRecords s;
        events := events s ++ [GovernanceContractUpdated _governanceContract] |}.

Definition recordAudit (env : Env) (_actor : address) (_actionType : bytes32)
    (_proposalId : uint256) (_ipfsDataHash _metadataHash : bytes32)
    (s : State) : result (State * uint256) :=
  _ ← onlyGovernance env s;
  let recordId := auditRecords_length s in
  let records :=
    auditRecords s ++
      [ {| id := recordId; timestamp := block_timestamp env;
           actor := _actor; actionType := _actionType;
           proposalId := _proposalId; ipfsDataHash := _ipfsDataHash;
           metadataHash := _metadataHash |} ] in
  let byProposal :=
    if 0 <? _proposalId
    then index_push _proposalId recordId (proposalAuditRecords s)
    else proposalAuditRecords s in
  let byUser := index_push _actor recordId (userAuditRecords s) in
  Ok ({| admin := admin s; governanceContract := governanceContract s;
         auditRecords := records;
         proposalAuditRecords := byProposal;
         userAuditRecords := byUser;
         events := events s ++ [AuditRecorded recordId _actor _actionType] |},
      recordId).

(** *** View functions *)

Definition getAuditCount (s : State) : uint256 := auditRecords_length s.

Definition getProposalAudits (_proposalId : uint256) (s : State)
    : list uint256 :=
  index_at (proposalAuditRecords s) _proposalId.

Definition getUserAudits (_user : address) (s : State) : list uint256 :=
  index_at (userAuditRecords s) _user.

(** The six values returned by [getAuditDetails]. *)
Module Details.

Record t := {
  timestamp : uint256;
  actor : address;
  actionType : bytes32;
  proposalId : uint256;
  ipfsDataHash : bytes32;
  metadataHash : bytes32
}.

End Details.

Definition details (record : AuditRecord) : Details.t :=
  {| Details.timestamp := timestamp record;
     Details.actor := actor record;
     Details.actionType := actionType record;
     Details.proposalId := proposalId record;
     Details.ipfsDataHash := ipfsDataHash record;
     Details.metadataHash := metadataHash record |}.

Definition getAuditDetails (_recordId : uint256) (s : State)
    : result Details.t :=
  _ ← require (_recordId <? auditRecords_length s) "Invalid record ID";
  match auditRecords s !! N.to_nat _recordId with
  | Some record => Ok (details record)
  | None => Revert (Panic 50)
  end.

(** The five parallel memory arrays returned by [getAuditBatch]. *)
Record Batch := {
  ids : list uint256;
  timestamps : list uint256;
  actors : list address;
  actionTypes : list bytes32;
  proposalIds : list uint256
}.

(** [a[i] = v] on a memory array: panic 0x32 when out of bounds. *)
Definition array_set {A} (i : uint256) (v : A) (a : list A) : result (list A) :=
  if i <? N.of_nat (length a)
  then Ok (<[N.to_nat i := v]> a)
  else Revert (Panic 50).

(** The body of [for (i = 0; i < _count; i++)], entered at index [i] with
    [n = _count - i] iterations left. *)
Fixpoint getAuditBatch_loop (n : nat) (i : uint256) (_startIndex : uint256)
    (s : State) (b : Batch) : result Batch :=
  match n with
  | O => Ok b
  | S n' =>
      pos ← checked_add _startIndex i;
      match auditRecords s !! N.to_nat pos with
      | None => Revert (Panic 50)
      | Some record =>
          ids' ← array_set i (id record) (ids b);
          timestamps' ← array_set i (timestamp record) (timestamps b);
          actors' ← array_set i (actor record) (actors b);
          actionTypes' ← array_set i (actionType record) (actionTypes b);
          proposalIds' ← array_set i (proposalId record) (proposalIds b);
          i' ← checked_add i 1;
          getAuditBatch_loop n' i' _startIndex s
            {| ids := ids'; timestamps := timestamps'; actors := actors';
               actionTypes := actionTypes'; proposalIds := proposalIds' |}
      end
  end.

Definition getAuditBatch (_startIndex _count : uint256) (s : State)
    : result Batch :=
  _ ← require (_startIndex <? auditRecords_length s)
              "Start index out of bounds";
  last ← checked_add _startIndex _count;
  _count ← (if auditRecords_length s <? last
            then checked_sub (auditRecords_length s) _startIndex
            else Ok _count);
  let zeros := replicate (N.to_nat _count) 0 in
  getAuditBatch_loop (N.to_nat _count) 0 _startIndex s
    {| ids := zeros; timestamps := zeros; actors := zeros;
       actionTypes := zeros; proposalIds := zeros |}.

(** *** Transactions *)

Inductive Call :=
| SetGovernanceContract (_governanceContract : address)
| RecordAudit (_actor : address) (_actionType : bytes32)
    (_proposalId : uint256) (_ipfsDataHash _metadataHash : bytes32).

Definition call (env : Env) (c : Call) (s : State) : result State :=
  match c with
  | SetGovernanceContract g => setGovernanceContract env g s
  | RecordAudit a t p h m => r ← recordAudit env a t p h m s; Ok (fst r)
  end.

Definition exec (env : Env) (c : Call) (s : State) : State :=
  match call env c s with
  | Ok s' => s'
  | Revert _ => s
  end.

Inductive reachable : State -> Prop :=
| reachable_deploy env : reachable (constructor env)
| reachable_exec s env c : reachable s -> reachable (exec env c s).

(** The stored records [rs], laid out as the five parallel arrays. *)
Definition columns (rs : list AuditRecord) : Batch :=
  {| ids := map id rs; timestamps := map timestamp rs;
     actors := map actor rs; actionTypes := map actionType rs;
     proposalIds := map proposalId rs |}.

(** [n] stored records from position [start] on, in stored order. *)
Definition slice (start n : nat) (s : State) : list AuditRecord :=
  take n (drop start (auditRecords s)).

(** A column [col] of the batch once its positions [i .. i+n-1] hold
    field [f] of the records stored from [start + i] on. *)
Definition filled {A} (s : State) (start : uint256) (f : AuditRecord -> A)
    (i n : nat) (col : list A) : list A :=
  take i col ++ map f (slice (N.to_nat start + i) n s).

End AuditTrail.

(** ** The REST backend (Express controllers over Mongoose models)

    The document store is explicit: a controller maps the store before the
    request to the store after it and the response sent.  [ObjectId]s are
    opaque keys, modelled as numbers handed out by a counter; [Date]s are
    milliseconds.  A request body carries the schema paths the controllers
    or the stored counters depend on; [rest_valid] tells whether its
    remaining paths (titles, texts, attachments) pass schema validation. *)

Module Backend.

Definition ObjectId := N.
Definition Date := Z.

(** The [enum: [...]] validator of a String path. *)
Definition in_enum (allowed : list string) (v : string) : bool :=
  existsb (String.eqb v) allowed.

(** JavaScript truthiness of an optional string / boolean property. *)
Definition truthy_string (v : option string) : bool :=
  match v with
  | Some s => negb (String.eqb s "")
  | None => false
  end.

Definition truthy_bool (v : option bool) : bool :=
  match v with
  | Some b => b
  | None => false
  end.

(** *** server/models/Proposal.js *)
Module Proposal.

Record VoteCount := { yes : Z; no : Z; abstain : Z }.

(** The document, with the paths the controllers read or write and its time
    stamps; titles, texts, location and attachments are left out. *)
Record t := {
  _id : ObjectId;
  category : string;
  author : ObjectId;
  status : string;
  voteCount : VoteCount;
  createdAt : Date;
  updatedAt : Date;
  votingDeadline : option Date
}.

Definition category_enum : list string :=
  ["Environment"; "Infrastructure"; "Education"; "Healthcare";
   "Public Safety"; "Economy"; "Housing"; "Transportation"; "Culture";
   "Other"].

Definition status_enum : list string :=
  ["draft"; "submitted"; "under_review"; "voting"; "approved";
   "rejected"; "implemented"].

Definition set_status (v : string) (p : t) : t :=
  {| _id := _id p; category := category p; author := author p;
     status := v; voteCount := voteCount p; createdAt := createdAt p;
     updatedAt := updatedAt p; votingDeadline := votingDeadline p |}.

Definition set_voteCount (v : VoteCount) (p : t) : t :=
  {| _id := _id p; category := category p; author := author p;
     status := status p; voteCount := v; createdAt := createdAt p;
     updatedAt := updatedAt p; votingDeadline := votingDeadline p |}.

Definition set_updatedAt (v : Date) (p : t) : t :=
  {| _id := _id p; category := category p; author := author p;
     status := status p; voteCount := voteCount p;
     createdAt := createdAt p; updatedAt := v;
     votingDeadline := votingDeadline p |}.

(** [voteCount[key] += d].  A [key] that is not one of the three schema
    paths lands on a plain property of the sub-document, which is not
    persisted: the stored counters stay as they are. *)
Definition voteCount_add (key : string) (d : Z) (c : VoteCount) : VoteCount :=
  if String.eqb key "yes"
  then {| yes := yes c + d; no := no c; abstain := abstain c |}
  else if String.eqb key "no"
  then {| yes := yes c; no := no c + d; abstain := abstain c |}
  else if String.eqb key "abstain"
  then {| yes := yes c; no := no c; abstain := abstain c + d |}
  else c.

(** The part of a request body that [Proposal.create] reads. *)
Record body := {
  body_category : option string;
  body_status : option string;
  body_voteCount_yes : option Z;
  body_voteCount_no : option Z;
  body_voteCount_abstain : option Z;
  body_votingDeadline : option Date;
  rest_valid : bool
}.

End Proposal.

(** *** server/models/Vote.js *)
Module Vote.

Record t := {
  _id : ObjectId;
  proposal : ObjectId;
  user : ObjectId;
  vote : string;
  createdAt : Date
}.

Definition vote_enum : list string := ["yes"; "no"; "abstain"].

(** The request body: the schema paths it carries, and whether the
    remaining one ([reason]) passes validation. *)
Record body := {
  body_proposal : option ObjectId;
  body_user : option ObjectId;
  body_vote : option string;
  body_createdAt : option Date;
  rest_valid : bool
}.

Definition set_body_proposal (v : option ObjectId) (b : body) : body :=
  {| body_proposal := v; body_user := body_user b;
     body_vote := body_vote b; body_createdAt := body_createdAt b;
     rest_valid := rest_valid b |}.

Definition set_body_user (v : option ObjectId) (b : body) : body :=
  {| body_proposal := body_proposal b; body_user := v;
     body_vote := body_vote b; body_createdAt := body_createdAt b;
     rest_valid := rest_valid b |}.

(** The property key [req.body.vote] evaluates to when used as an
    index: an absent property reads as [undefined]. *)
Definition key (v : option string) : string :=
  match v with
  | Some k => k
  | None => "undefined"
  end.

End Vote.

(** *** server/models/OfficialResponse.js *)
Module OfficialResponse.

Record t := {
  _id : ObjectId;
  proposal : ObjectId;
  respondent : ObjectId;
  status : string;
  isVerified : bool;
  verificationProof : option string;
  createdAt : Date;
  updatedAt : Date
}.

Definition status_enum : list string :=
  ["under_review"; "approved"; "rejected"; "partially_approved";
   "deferred"].

Record body := {
  body_proposal : option ObjectId;
  body_respondent : option ObjectId;
  body_status : option string;
  body_isVerified : option bool;
  body_verificationProof : option string;
  rest_valid : bool
}.

Definition set_body_proposal (v : option ObjectId) (b : body) : body :=
  {| body_proposal := v; body_respondent := body_respondent b;
     body_status := body_status b; body_isVerified := body_isVerified b;
     body_verificationProof := body_verificationProof b;
     rest_valid := rest_valid b |}.

Definition set_body_respondent (v : option ObjectId) (b : body) : body :=
  {| body_proposal := body_proposal b; body_respondent := v;
     body_status := body_status b; body_isVerified := body_isVerified b;
     body_verificationProof := body_verificationProof b;
     rest_valid := rest_valid b |}.

Definition set_body_verificationProof (v : option string) (b : body) : body :=
  {| body_proposal := body_proposal b;
     body_respondent := body_respondent b;
     body_status := body_status b; body_isVerified := body_isVerified b;
     body_verificationProof := v;
     rest_valid := rest_valid b |}.

End OfficialResponse.

(** [req.user] *)
Record User := {
  id : ObjectId;
  isGovernmentOfficial : bool;
  isAdmin : bool
}.

(** The three collections and the ObjectId generator. *)
Record Db := {
  proposals : gmap ObjectId Proposal.t;
  votes : list Vote.t;
  officialResponses : list OfficialResponse.t;
  nextId : ObjectId
}.

Definition empty_db : Db :=
  {| proposals := ∅; votes := []; officialResponses := []; nextId := 0 |}.

(** What a controller hands to [next]: an [ErrorResponse] it built, or an
    exception caught by [asyncHandler]. *)
Inductive Failure :=
| ErrorResponse (message : string) (statusCode : N)
| ValidationError
| DuplicateKeyError
| TypeError.

Inductive Outcome (A : Type) :=
| Json (statusCode : N) (data : A)
| Next (err : Failure).
Arguments Json {A} statusCode data.
Arguments Next {A} err.

(** *** Mongoose operations *)

Definition Proposal_findById (i : ObjectId) (db : Db) : option Proposal.t :=
  proposals db !! i.

Definition Proposal_validate (b : Proposal.body) : bool :=
  Proposal.rest_valid b
  && match Proposal.body_category b with
     | Some c => in_enum Proposal.category_enum c
     | None => false
     end
  && match Proposal.body_status b with
     | Some st => in_enum Proposal.status_enum st
     | None => true
     end.

(** [Proposal.create(body)]: schema defaults, validation, insertion. *)
Definition Proposal_create (author : ObjectId) (b : Proposal.body)
    (now : Date) (db : Db) : Failure + Db * Proposal.t :=
  if Proposal_validate b then
    let doc :=
      {| Proposal._id := nextId db;
         Proposal.category := default "" (Proposal.body_category b);
         Proposal.author := author;
         Proposal.status := default "submitted" (Proposal.body_status b);
         Proposal.voteCount :=
           {| Proposal.yes := default 0%Z (Proposal.body_voteCount_yes b);
              Proposal.no := default 0%Z (Proposal.body_voteCount_no b);
              Proposal.abstain :=
                default 0%Z (Proposal.body_voteCount_abstain b) |};
         Proposal.createdAt := now;
         Proposal.updatedAt := now;
         Proposal.votingDeadline := Proposal.body_votingDeadline b |} in
    inr ({| proposals := <[nextId db := doc]> (proposals db);
            votes := votes db;
            officialResponses := officialResponses db;
            nextId := nextId db + 1 |}, doc)
  else inl ValidationError.

(** [proposal.save()]: the [pre('save')] hook stamps [updatedAt]. *)
Definition Proposal_save (p : Proposal.t) (now : Date) (db : Db) : Db :=
  {| proposals :=
       <[Proposal._id p := Proposal.set_updatedAt now p]> (proposals db);
     votes := votes db;
     officialResponses := officialResponses db;
     nextId := nextId db |}.

(** [Proposal.findByIdAndUpdate(id, { status })]: no validators, no save
    hook. *)
Definition Proposal_findByIdAndUpdate_status (i : ObjectId) (st : string)
    (db : Db) : Db :=
  {| proposals := alter (Proposal.set_status st) i (proposals db);
     votes := votes db;
     officialResponses := officialResponses db;
     nextId := nextId db |}.

Definition Vote_findById (i : ObjectId) (db : Db) : option Vote.t :=
  List.find (fun v => Vote._id v =? i) (votes db).

(** [Vote.findOne({ user, proposal })] *)
Definition Vote_findOne (u p : ObjectId) (db : Db) : option Vote.t :=
  List.find (fun v => (Vote.user v =? u) && (Vote.proposal v =? p)) (votes db).

(** The unique index on [{ proposal, user }], checked against every
    document other than [self]. *)
Definition Vote_index_free (self : ObjectId) (p u : ObjectId) (db : Db) : bool :=
  forallb (fun v => (Vote._id v =? self)
                    || negb ((Vote.proposal v =? p) && (Vote.user v =? u)))
          (votes db).

(** [Vote.create(body)]: [createdAt] defaults to the time of the call. *)
Definition Vote_create (b : Vote.body) (now : Date) (db : Db)
    : Failure + Db * Vote.t :=
  match Vote.body_proposal b, Vote.body_user b, Vote.body_vote b with
  | Some p, Some u, Some c =>
      if Vote.rest_valid b && in_enum Vote.vote_enum c then
        if Vote_index_free (nextId db) p u db then
          let doc :=
            {| Vote._id := nextId db; Vote.proposal := p; Vote.user := u;
               Vote.vote := c;
               Vote.createdAt := default now (Vote.body_createdAt b) |} in
          inr ({| proposals := proposals db;
                  votes := votes db ++ [doc];
                  officialResponses := officialResponses db;
                  nextId := nextId db + 1 |}, doc)
        else inl DuplicateKeyError
      else inl ValidationError
  | _, _, _ => inl ValidationError
  end.

(** The document [v] after [$set]ting the paths present in [b]. *)
Definition Vote_apply (b : Vote.body) (v : Vote.t) : Vote.t :=
  {| Vote._id := Vote._id v;
     Vote.proposal := default (Vote.proposal v) (Vote.body_proposal b);
     Vote.user := default (Vote.user v) (Vote.body_user b);
     Vote.vote := default (Vote.vote v) (Vote.body_vote b);
     Vote.createdAt := default (Vote.createdAt v) (Vote.body_createdAt b) |}.

(** [Vote.findByIdAndUpdate(id, body, { new: true, runValidators: true })] *)
Definition Vote_findByIdAndUpdate (i : ObjectId) (b : Vote.body) (db : Db)
    : Failure + Db * option Vote.t :=
  if Vote.rest_valid b
     && match Vote.body_vote b with
        | Some c => in_enum Vote.vote_enum c
        | None => true
        end
  then
    match Vote_findById i db with
    | None => inr (db, None)
    | Some v =>
        let v' := Vote_apply b v in
        if Vote_index_free i (Vote.proposal v') (Vote.user v') db then
          inr ({| proposals := proposals db;
                  votes :=
                    (fun w => if Vote._id w =? i then v' else w) <$> votes db;
                  officialResponses := officialResponses db;
                  nextId := nextId db |}, Some v')
        else inl DuplicateKeyError
    end
  else inl ValidationError.

Definition OfficialResponse_findById (i : ObjectId) (db : Db)
    : option OfficialResponse.t :=
  List.find (fun r => OfficialResponse._id r =? i) (officialResponses db).

(** [OfficialResponse.findOne({ proposal })] *)
Definition OfficialResponse_findOne (p : ObjectId) (db : Db)
    : option OfficialResponse.t :=
  List.find (fun r => OfficialResponse.proposal r =? p) (officialResponses db).

(** The unique index on [{ proposal }]. *)
Definition OfficialResponse_index_free (self : ObjectId) (p : ObjectId)
    (db : Db) : bool :=
  forallb (fun r => (OfficialResponse._id r =? self)
                    || negb (OfficialResponse.proposal r =? p))
          (officialResponses db).

(** [OfficialResponse.create(responseData)] *)
Definition OfficialResponse_create (b : OfficialResponse.body) (now : Date)
    (db : Db) : Failure + Db * OfficialResponse.t :=
  match OfficialResponse.body_proposal b,
        OfficialResponse.body_respondent b,
        OfficialResponse.body_status b with
  | Some p, Some r, Some st =>
      if OfficialResponse.rest_valid b
         && in_enum OfficialResponse.status_enum st then
        if OfficialResponse_index_free (nextId db) p db then
          let doc :=
            {| OfficialResponse._id := nextId db;
               OfficialResponse.proposal := p;
               OfficialResponse.respondent := r;
               OfficialResponse.status := st;
               OfficialResponse.isVerified :=
                 default false (OfficialResponse.body_isVerified b);
               OfficialResponse.verificationProof :=
                 OfficialResponse.body_verificationProof b;
               OfficialResponse.createdAt := now;
               OfficialResponse.updatedAt := now |} in
          inr ({| proposals := proposals db;
                  votes := votes db;
                  officialResponses := officialResponses db ++ [doc];
                  nextId := nextId db + 1 |}, doc)
        else inl DuplicateKeyError
      else inl ValidationError
  | _, _, _ => inl ValidationError
  end.

Definition OfficialResponse_apply (b : OfficialResponse.body)
    (r : OfficialResponse.t) : OfficialResponse.t :=
  {| OfficialResponse._id := OfficialResponse._id r;
     OfficialResponse.proposal :=
       default (OfficialResponse.proposal r) (OfficialResponse.body_proposal b);
     OfficialResponse.respondent :=
       default (OfficialResponse.respondent r)
               (OfficialResponse.body_respondent b);
     OfficialResponse.status :=
       default (OfficialResponse.status r) (OfficialResponse.body_status b);
     OfficialResponse.isVerified :=
       default (OfficialResponse.isVerified r)
               (OfficialResponse.body_isVerified b);
     OfficialResponse.verificationProof :=
       match OfficialResponse.body_verificationProof b with
       | Some h => Some h
       | None => OfficialResponse.verificationProof r
       end;
     OfficialResponse.createdAt := OfficialResponse.createdAt r;
     OfficialResponse.updatedAt := OfficialResponse.updatedAt r |}.

(** [OfficialResponse.findByIdAndUpdate(id, body,
      { new: true, runValidators: true })] *)
Definition OfficialResponse_findByIdAndUpdate (i : ObjectId)
    (b : OfficialResponse.body) (db : Db)
    : Failure + Db * option OfficialResponse.t :=
  if OfficialResponse.rest_valid b
     && match OfficialResponse.body_status b with
        | Some st => in_enum OfficialResponse.status_enum st
        | None => true
        end
  then
    match OfficialResponse_findById i db with
    | None => inr (db, None)
    | Some r =>
        let r' := OfficialResponse_apply b r in
        if OfficialResponse_index_free i (OfficialResponse.proposal r') db then
          inr ({| proposals := proposals db;
                  votes := votes db;
                  officialResponses :=
                    (fun w => if OfficialResponse._id w =? i then r' else w)
                      <$> officialResponses db;
                  nextId := nextId db |}, Some r')
        else inl DuplicateKeyError
    end
  else inl ValidationError.

(** *** server/controllers/proposals.js *)

Definition createProposal (user : User) (body : Proposal.body) (now : Date)
    (db : Db) : Db * Outcome Proposal.t :=
  match Proposal_create (id user) body now db with
  | inl err => (db, Next err)
  | inr (db, proposal) => (db, Json 201 proposal)
  end.

(** *** server/controllers/votes.js *)

Definition addVote (user : User) (proposalId : ObjectId) (body : Vote.body)
    (now : Date) (db : Db) : Db * Outcome Vote.t :=
  let body :=
    Vote.set_body_user (Some (id user))
      (Vote.set_body_proposal (Some proposalId) body) in
  match Proposal_findById proposalId db with
  | None =>
      (db, Next (ErrorResponse
                   ("No proposal with the id of " +:+ pretty proposalId) 404))
  | Some proposal =>
      if negb (String.eqb (Proposal.status proposal) "voting") then
        (db, Next (ErrorResponse
                     "Proposal is not currently open for voting" 400))
      else
        match Vote_findOne (id user) proposalId db with
        | Some existingVote =>
            (db, Next (ErrorResponse
                         "You have already voted on this proposal" 400))
        | None =>
            match Vote_create body now db with
            | inl err => (db, Next err)
            | inr (db, vote) =>
                let proposal :=
                  Proposal.set_voteCount
                    (Proposal.voteCount_add (Vote.key (Vote.body_vote body)) 1
                       (Proposal.voteCount proposal)) proposal in
                let db := Proposal_save proposal now db in
                (db, Json 201 vote)
            end
        end
  end.

Record VoteSummary := {
  yes : Z;
  no : Z;
  abstain : Z;
  total : Z
}.

Definition getVotes (proposalId : ObjectId) (db : Db) : Outcome VoteSummary :=
  match Proposal_findById proposalId db with
  | None =>
      Next (ErrorResponse
              ("No proposal with the id of " +:+ pretty proposalId) 404)
  | Some proposal =>
      let c := Proposal.voteCount proposal in
      Json 200
        {| yes := Proposal.yes c; no := Proposal.no c;
           abstain := Proposal.abstain c;
           total := (Proposal.yes c + Proposal.no c + Proposal.abstain c)%Z |}
  end.

Definition getUserVote (user : User) (proposalId : ObjectId) (db : Db)
    : Outcome (option Vote.t) :=
  Json 200 (Vote_findOne (id user) proposalId db).

Definition updateVote (user : User) (voteId : ObjectId) (body : Vote.body)
    (now : Date) (db : Db) : Db * Outcome (option Vote.t) :=
  match Vote_findById voteId db with
  | None =>
      (db, Next (ErrorResponse
                   ("No vote with the id of " +:+ pretty voteId) 404))
  | Some vote =>
      if negb (Vote.user vote =? id user) then
        (db, Next (ErrorResponse "Not authorized to update this vote" 401))
      else
        match Proposal_findById (Vote.proposal vote) db with
        | None => (db, Next TypeError)
        | Some proposal =>
            if negb (String.eqb (Proposal.status proposal) "voting") then
              (db, Next (ErrorResponse
                           "Voting period has ended for this proposal" 400))
            else
              let proposal :=
                Proposal.set_voteCount
                  (Proposal.voteCount_add (Vote.vote vote) (-1)
                     (Proposal.voteCount proposal)) proposal in
              let proposal :=
                Proposal.set_voteCount
                  (Proposal.voteCount_add (Vote.key (Vote.body_vote body)) 1
                     (Proposal.voteCount proposal)) proposal in
              let db := Proposal_save proposal now db in
              match Vote_findByIdAndUpdate voteId body db with
              | inl err => (db, Next err)
              | inr (db, vote) => (db, Json 200 vote)
              end
        end
  end.

(** *** server/controllers/officialResponses.js *)

(** The status written to the proposal next to a response status. *)
Definition proposal_status_of (st : option string) : string :=
  match st with
  | Some s =>
      if String.eqb s "approved" then "approved"
      else if String.eqb s "rejected" then "rejected"
      else if String.eqb s "partially_approved" then "partially_approved"
      else "under_review"
  | None => "under_review"
  end.

(** [createVerificationProof] belongs to the blockchain service, outside
    the controllers: [proof] is what the call yields when it is made,
    [Some transactionHash], or [None] when it throws. *)
Definition createOfficialResponse (user : User) (proposalId : ObjectId)
    (body : OfficialResponse.body) (proof : option string) (now : Date)
    (db : Db) : Db * Outcome OfficialResponse.t :=
  match Proposal_findById proposalId db with
  | None =>
      (db, Next (ErrorResponse
                   ("No proposal found with id " +:+ pretty proposalId) 404))
  | Some proposal =>
      if negb (isGovernmentOfficial user) then
        (db, Next (ErrorResponse
                     "Not authorized to provide official responses" 403))
      else
        match OfficialResponse_findOne proposalId db with
        | Some existingResponse =>
            (db, Next (ErrorResponse
               "An official response already exists for this proposal" 400))
        | None =>
            let responseData :=
              OfficialResponse.set_body_respondent (Some (id user))
                (OfficialResponse.set_body_proposal (Some proposalId) body) in
            match
              (if truthy_bool (OfficialResponse.body_isVerified body) then
                 match proof with
                 | Some transactionHash =>
                     inr (OfficialResponse.set_body_verificationProof
                            (Some transactionHash) responseData)
                 | None =>
                     inl (ErrorResponse "Blockchain verification failed" 500)
                 end
               else inr responseData)
            with
            | inl err => (db, Next err)
            | inr responseData =>
                match OfficialResponse_create responseData now db with
                | inl err => (db, Next err)
                | inr (db, officialResponse) =>
                    let db :=
                      Proposal_findByIdAndUpdate_status proposalId
                        (proposal_status_of
                           (OfficialResponse.body_status body)) db in
                    (db, Json 201 officialResponse)
                end
            end
        end
  end.

Definition getOfficialResponse (proposalId : ObjectId) (db : Db)
    : Outcome OfficialResponse.t :=
  match OfficialResponse_findOne proposalId db with
  | None =>
      Next (ErrorResponse
              "No official response found for this proposal" 404)
  | Some response => Json 200 response
  end.

(** [req.body.status && req.body.status !== response.status] *)
Definition status_differs (body : OfficialResponse.body)
    (response : OfficialResponse.t) : bool :=
  truthy_string (OfficialResponse.body_status body)
  && negb (String.eqb (default "" (OfficialResponse.body_status body))
                      (OfficialResponse.status response)).

Definition updateOfficialResponse (user : User) (responseId : ObjectId)
    (body : OfficialResponse.body) (proof : option string) (db : Db)
    : Db * Outcome (option OfficialResponse.t) :=
  match OfficialResponse_findById responseId db with
  | None =>
      (db, Next (ErrorResponse
                   ("No response found with id " +:+ pretty responseId) 404))
  | Some response =>
      if negb (OfficialResponse.respondent response =? id user)
         && negb (isAdmin user) then
        (db, Next (ErrorResponse
                     "Not authorized to update this response" 403))
      else
        match
          (if status_differs body response
              && truthy_bool (OfficialResponse.body_isVerified body) then
             match proof with
             | Some transactionHash =>
                 inr (OfficialResponse.set_body_verificationProof
                        (Some transactionHash) body)
             | None =>
                 inl (ErrorResponse "Blockchain verification failed" 500)
             end
           else inr body)
        with
        | inl err => (db, Next err)
        | inr body =>
            match OfficialResponse_findByIdAndUpdate responseId body db with
            | inl err => (db, Next err)
            | inr (db, None) =>
                if truthy_string (OfficialResponse.body_status body)
                then (db, Next TypeError)
                else (db, Json 200 None)
            | inr (db, Some response) =>
                let db :=
                  if status_differs body response then
                    Proposal_findByIdAndUpdate_status
                      (OfficialResponse.proposal response)
                      (proposal_status_of
                         (OfficialResponse.body_status body)) db
                  else db in
                (db, Json 200 (Some response))
            end
        end
  end.

(** *** Requests *)

Inductive Request :=
| CreateProposal (user : User) (body : Proposal.body)
| AddVote (user : User) (proposalId : ObjectId) (body : Vote.body)
| UpdateVote (user : User) (voteId : ObjectId) (body : Vote.body)
| CreateOfficialResponse (user : User) (proposalId : ObjectId)
    (body : OfficialResponse.body) (proof : option string)
| UpdateOfficialResponse (user : User) (responseId : ObjectId)
    (body : OfficialResponse.body) (proof : option string).

(** The store after a request served at time [now]. *)
Definition handle (now : Date) (r : Request) (db : Db) : Db :=
  match r with
  | CreateProposal u b => fst (createProposal u b now db)
  | AddVote u p b => fst (addVote u p b now db)
  | UpdateVote u v b => fst (updateVote u v b now db)
  | CreateOfficialResponse u p b pr =>
      fst (createOfficialResponse u p b pr now db)
  | UpdateOfficialResponse u r b pr =>
      fst (updateOfficialResponse u r b pr db)
  end.

(** Stores reachable from the empty one by requests that are [admitted]
    in the store they meet. *)
Inductive reachable (admitted : Db -> Request -> Prop) : Db -> Prop :=
| reachable_empty : reachable admitted empty_db
| reachable_handle db now r :
    reachable admitted db ->
    admitted db r ->
    reachable admitted (handle now r db).

(** The vote records of a proposal. *)
Definition votes_of (p : ObjectId) (db : Db) : list Vote.t :=
  filter (fun v => Vote.proposal v = p) (votes db).

(** [yes + no + abstain] as stored on the proposal. *)
Definition tally (p : Proposal.t) : Z :=
  (Proposal.yes (Proposal.voteCount p)
   + Proposal.no (Proposal.voteCount p)
   + Proposal.abstain (Proposal.voteCount p))%Z.

(** The (proposal, voter) pair a vote record stands for. *)
Definition pair_of (v : Vote.t) : ObjectId * ObjectId :=
  (Vote.proposal v, Vote.user v).

(** Requests that leave the counters to the controllers: a new proposal
    does not bring its own [voteCount], and an update of a vote names one
    of the three choices and does not move the vote to another proposal
    (its body names no proposal, or the one the vote is on). *)
Definition counts_untouched (db : Db) (r : Request) : Prop :=
  match r with
  | CreateProposal _ b =>
      Proposal.body_voteCount_yes b = None
      /\ Proposal.body_voteCount_no b = None
      /\ Proposal.body_voteCount_abstain b = None
  | UpdateVote _ voteId b =>
      (forall p v,
          Vote.body_proposal b = Some p ->
          Vote_findById voteId db = Some v ->
          p = Vote.proposal v)
      /\ exists c, Vote.body_vote b = Some c
                   /\ in_enum Vote.vote_enum c = true
  | _ => True
  end.

Definition any_request (db : Db) (r : Request) : Prop := True.

(** A request body that carries a choice and nothing else. *)
Definition ballot (c : string) : Vote.body :=
  {| Vote.body_proposal := None; Vote.body_user := None;
     Vote.body_vote := Some c; Vote.body_createdAt := None;
     Vote.rest_valid := true |}.

(** The store and the vote record that [addVote] leaves behind when, at
    time [now], it accepts choice [c] on the proposal document [p]; the
    vote is dated [created]. *)
Definition voted (user : User) (proposalId : ObjectId) (c : string)
    (created now : Date) (p : Proposal.t) (db : Db) : Db * Vote.t :=
  let vote :=
    {| Vote._id := nextId db; Vote.proposal := proposalId;
       Vote.user := id user; Vote.vote := c; Vote.createdAt := created |} in
  ({| proposals :=
        <[Proposal._id p :=
            Proposal.set_updatedAt now
              (Proposal.set_voteCount
                 (Proposal.voteCount_add c 1 (Proposal.voteCount p)) p)]>
          (proposals db);
      votes := votes db ++ [vote];
      officialResponses := officialResponses db;
      nextId := nextId db + 1 |}, vote).

(** Well-formedness of a store: documents sit under their own fresh
    keys, vote records are valid and unique per (proposal, voter), and
    every proposal's counters add up to the number of its vote
    records. *)
Record consistent (db : Db) : Prop := {
  proposals_keyed : forall i p,
    proposals db !! i = Some p -> Proposal._id p = i /\ i < nextId db;
  votes_known : forall v,
    v ∈ votes db ->
    Vote._id v < nextId db
    /\ in_enum Vote.vote_enum (Vote.vote v) = true
    /\ is_Some (proposals db !! Vote.proposal v);
  votes_ids : NoDup (Vote._id <$> votes db);
  votes_pairs : NoDup (pair_of <$> votes db);
  tallies : forall i p,
    proposals db !! i = Some p ->
    tally p = Z.of_nat (length (votes_of i db))
}.

(** The statuses a stored proposal can carry: the schema's, and the one
    [createOfficialResponse] writes past the schema. *)
Definition stored_statuses : list string :=
  Proposal.status_enum ++ ["partially_approved"].

(** What holds of a store whatever the requests were: documents sit under
    their own keys, below the id generator; ids are unique within a
    collection; the two unique indexes hold. *)
Record keyed (db : Db) : Prop := {
  keyed_proposals : forall i p,
    proposals db !! i = Some p -> Proposal._id p = i /\ i < nextId db;
  keyed_statuses : forall i p,
    proposals db !! i = Some p ->
    in_enum stored_statuses (Proposal.status p) = true;
  keyed_votes : forall v, v ∈ votes db -> Vote._id v < nextId db;
  keyed_votes_ids : NoDup (Vote._id <$> votes db);
  keyed_votes_pairs : NoDup (pair_of <$> votes db);
  keyed_responses : forall r,
    r ∈ officialResponses db -> OfficialResponse._id r < nextId db;
  keyed_responses_ids :
    NoDup (OfficialResponse._id <$> officialResponses db);
  keyed_responses_proposals :
    NoDup (OfficialResponse.proposal <$> officialResponses db)
}.

(** What a proposal document keeps for life. *)
Definition same_origin (p q : Proposal.t) : Prop :=
  Proposal._id q = Proposal._id p
  /\ Proposal.category q = Proposal.category p
  /\ Proposal.author q = Proposal.author p
  /\ Proposal.createdAt q = Proposal.createdAt p
  /\ Proposal.votingDeadline q = Proposal.votingDeadline p.

End Backend.

(** ** The web3 client (blockchain.service.js)

    The read functions of the client, over the storage of the contract
    they call.  A [call()] that reverts is a rejected promise: [Revert].

    JavaScript numbers: [proposalCount], the vote counters, the status
    code and the number of audit records are raised by one per
    transaction and stay below 2^53, where [parseInt] is exact; they are
    read as the integers they are ([Z]).  The numbers of an audit record
    (its id and its proposal id, which the caller of the contracts
    chooses) go through [parseInt], the function of the JavaScript
    engine, exact below 2^53 and rounded above.  A [Date] is its time
    value in milliseconds, or [None] for Invalid Date. *)

Module BlockchainService.

Definition getStatusText (statusCode : Z) : string :=
  let statuses := ["Active"; "Passed"; "Rejected"; "Implemented"] in
  if (statusCode <? 0)%Z then "Unknown"
  else default "Unknown" (statuses !! Z.to_nat statusCode).

(** The largest time value of a [Date], in milliseconds. *)
Definition MAX_TIME_VALUE : Z := 8640000000000000.

(** [new Date(parseInt(seconds) * 1000)].  Up to [MAX_TIME_VALUE], which
    is below 2^53, [parseInt] and the product are exact; beyond it the
    product, exact or rounded, is out of the range of time values and
    the date is Invalid Date. *)
Definition newDate (seconds : uint256) : option Z :=
  let ms := (Z.of_N seconds * 1000)%Z in
  if (ms <=? MAX_TIME_VALUE)%Z then Some ms else None.

Record ProposalDetails := {
  id : uint256;
  title : string;
  description : string;
  createdAt : option Z;
  endTime : option Z;
  proposer : address;
  yesVotes : Z;
  noVotes : Z;
  status : string;
  documents : option string;
  hasVoted : bool;
  isActive : bool
}.

(** The objects pushed by [getProposalAuditTrail] and
    [getUserAuditTrail]. *)
Module AuditEntry.

Record t := {
  id : Z;
  timestamp : option Z;
  actor : address;
  actionType : string;
  proposalId : Z;
  ipfsDataHash : bytes32;
  metadataHash : bytes32
}.

End AuditEntry.

(** The objects pushed by [getRecentAuditRecords], built from position
    [i] of the five arrays of the batch: a position that an array does not
    have reads as [undefined], which gives [NaN] for a number, Invalid
    Date for a date, and is kept for the actor; all three are [None]. *)
Module RecentEntry.

Record t := {
  id : option Z;
  timestamp : option Z;
  actor : option address;
  actionType : string;
  proposalId : option Z
}.

End RecentEntry.

(** Why a read was rejected: the contract call reverted, or
    [web3.utils.hexToUtf8] threw on bytes that are not UTF-8. *)
Inductive rejection :=
| Reverted (e : revert)
| Utf8Error.

(** The outcome of decoding: the decoded value, or the UTF-8 error. *)
Definition decoded {A} (o : option A) : rejection + A :=
  match o with
  | Some a => inr a
  | None => inl Utf8Error
  end.

Section WithClient.

(** [ipfs.getContent], [None] when it throws; and [this.account]. *)
Variable ipfs_getContent : string -> option string.
Variable account : address.

(** [web3.utils.hexToUtf8] on a [bytes32], [None] when it throws; and
    [parseInt] on the decimal string web3 returns for a [uint256]. *)
Variable hexToUtf8 : bytes32 -> option string.
Variable parseInt : uint256 -> Z.

Definition getProposalDetails (proposalId : uint256) (s : Governance.State)
    : result ProposalDetails :=
  proposal ← Governance.getProposalBasicInfo proposalId s;
  hasVoted ← Governance.hasVoted_view proposalId account s;
  let documents :=
    if negb (String.eqb (Governance.BasicInfo.ipfsDocHash proposal) "")
    then ipfs_getContent (Governance.BasicInfo.ipfsDocHash proposal)
    else None in
  let statusCode :=
    Z.of_N (Governance.status_code (Governance.BasicInfo.status proposal)) in
  Ok {| id := proposalId;
        title := Governance.BasicInfo.title proposal;
        description := Governance.BasicInfo.description proposal;
        createdAt := newDate (Governance.BasicInfo.creationTime proposal);
        endTime := newDate (Governance.BasicInfo.votingEndTime proposal);
        proposer := Governance.BasicInfo.proposer proposal;
        yesVotes := Z.of_N (Governance.BasicInfo.yesVotes proposal);
        noVotes := Z.of_N (Governance.BasicInfo.noVotes proposal);
        status := getStatusText statusCode;
        documents := documents;
        hasVoted := hasVoted;
        isActive := (statusCode =? 0)%Z |}.

(** [for (let i = start; i >= end; i--)] with [n] iterations left: a
    proposal whose details cannot be fetched is skipped. *)
Fixpoint getProposals_loop (n : nat) (i : Z) (s : Governance.State)
    : list ProposalDetails :=
  match n with
  | O => []
  | S n' =>
      match getProposalDetails (Z.to_N i) s with
      | Ok proposal => [proposal]
      | Revert _ => []
      end ++ getProposals_loop n' (i - 1)%Z s
  end.

(** Returns [proposals] and [totalCount]. *)
Definition getProposals (limit offset : Z) (s : Governance.State)
    : list ProposalDetails * Z :=
  let totalProposals := Z.of_N (Governance.proposalCount s) in
  let start := Z.max 1 (totalProposals - offset) in
  let end_ := Z.max 1 (start - limit) in
  (getProposals_loop (Z.to_nat (start - end_ + 1)) start s, totalProposals).

(** The object pushed for record [id]: the id from the index and the six
    values [getAuditDetails] returned; [None] when [hexToUtf8] throws. *)
Definition audit_entry (id : uint256) (record : AuditTrail.Details.t)
    : option AuditEntry.t :=
  actionType ← hexToUtf8 (AuditTrail.Details.actionType record);
  Some {| AuditEntry.id := parseInt id;
          AuditEntry.timestamp :=
            newDate (AuditTrail.Details.timestamp record);
          AuditEntry.actor := AuditTrail.Details.actor record;
          AuditEntry.actionType := actionType;
          AuditEntry.proposalId :=
            parseInt (AuditTrail.Details.proposalId record);
          AuditEntry.ipfsDataHash :=
            AuditTrail.Details.ipfsDataHash record;
          AuditEntry.metadataHash :=
            AuditTrail.Details.metadataHash record |}.

(** [for (const id of auditIds)]: the first call that reverts, or the
    first action type that does not decode, rejects the whole read. *)
Fixpoint getAuditDetails_each (auditIds : list uint256)
    (s : AuditTrail.State) : rejection + list AuditEntry.t :=
  match auditIds with
  | [] => inr []
  | id :: auditIds =>
      match AuditTrail.getAuditDetails id s with
      | Revert e => inl (Reverted e)
      | Ok record =>
          match audit_entry id record with
          | None => inl Utf8Error
          | Some entry =>
              match getAuditDetails_each auditIds s with
              | inl e => inl e
              | inr auditRecords => inr (entry :: auditRecords)
              end
          end
      end
  end.

Definition getProposalAuditTrail (proposalId : uint256)
    (s : AuditTrail.State) : rejection + list AuditEntry.t :=
  getAuditDetails_each (AuditTrail.getProposalAudits proposalId s) s.

Definition getUserAuditTrail (s : AuditTrail.State)
    : rejection + list AuditEntry.t :=
  getAuditDetails_each (AuditTrail.getUserAudits account s) s.

(** The object built from position [i] of the batch; [None] when
    [hexToUtf8] throws, as it also does on [undefined]. *)
Definition recent_entry (batch : AuditTrail.Batch) (i : nat)
    : option RecentEntry.t :=
  actionType ← (hex ← AuditTrail.actionTypes batch !! i; hexToUtf8 hex);
  Some {| RecentEntry.id := parseInt <$> AuditTrail.ids batch !! i;
          RecentEntry.timestamp :=
            seconds ← AuditTrail.timestamps batch !! i; newDate seconds;
          RecentEntry.actor := AuditTrail.actors batch !! i;
          RecentEntry.actionType := actionType;
          RecentEntry.proposalId :=
            parseInt <$> AuditTrail.proposalIds batch !! i |}.

(** [for (let i = 0; i < batch.ids.length; i++)], entered at index [i]
    with [n] iterations left. *)
Fixpoint getRecentAuditRecords_loop (n : nat) (i : nat)
    (batch : AuditTrail.Batch) : rejection + list RecentEntry.t :=
  match n with
  | O => inr []
  | S n' =>
      match recent_entry batch i with
      | None => inl Utf8Error
      | Some entry =>
          match getRecentAuditRecords_loop n' (S i) batch with
          | inl e => inl e
          | inr auditRecords => inr (entry :: auditRecords)
          end
      end
  end.

(** [count] is passed to the contract as a [uint256]. *)
Definition getRecentAuditRecords (count : uint256) (s : AuditTrail.State)
    : rejection + list RecentEntry.t :=
  let totalCount := AuditTrail.getAuditCount s in
  let startIndex := Z.to_N (Z.max 0 (Z.of_N totalCount - Z.of_N count)) in
  match AuditTrail.getAuditBatch startIndex count s with
  | Revert e => inl (Reverted e)
  | Ok batch =>
      getRecentAuditRecords_loop (length (AuditTrail.ids batch)) 0 batch
  end.

(** The objects the client builds for a stored record. *)
Definition audit_entry_of (r : AuditTrail.AuditRecord)
    : option AuditEntry.t :=
  audit_entry (AuditTrail.id r) (AuditTrail.details r).

Definition recent_entry_of (r : AuditTrail.AuditRecord)
    : option RecentEntry.t :=
  actionType ← hexToUtf8 (AuditTrail.actionType r);
  Some {| RecentEntry.id := Some (parseInt (AuditTrail.id r));
          RecentEntry.timestamp := newDate (AuditTrail.timestamp r);
          RecentEntry.actor := Some (AuditTrail.actor r);
          RecentEntry.actionType := actionType;
          RecentEntry.proposalId :=
            Some (parseInt (AuditTrail.proposalId r)) |}.

End WithClient.

End BlockchainService.

(** ** Concrete histories

    Short runs of the two contracts and of the backend, used to exercise
    the statements below on actual inputs. *)

Module Scenario.

Definition sent (sender : address) (now : uint256) : Env :=
  {| msg_sender := sender; block_timestamp := now |}.

Definition contract : address := 4096.
Definition city : address := 1.
Definition alice : address := 2.
Definition bob : address := 3.

(** *** Governance: one proposal, created at time 10 *)

Definition deployed : Governance.State :=
  Governance.constructor (sent city 0).

Definition verified : Governance.State :=
  Governance.exec contract (sent city 0) (Governance.VerifyVoter alice)
    deployed.

Definition proposed : Governance.State :=
  Governance.exec contract (sent alice 10)
    (Governance.CreateProposal "Bike lanes" "Protected lanes on Main St"
       "QmDoc") verified.

Definition deadline : uint256 := 10 + Governance.VOTING_PERIOD.

(** Alice votes yes one second after the proposal was created. *)
Definition voted_yes : Governance.State :=
  Governance.exec contract (sent alice 11) (Governance.CastVote 1 true)
    proposed.

(** Anyone closes the vote at the deadline: no votes, hence Rejected. *)
Definition closed : Governance.State :=
  Governance.exec contract (sent bob deadline)
    (Governance.CheckProposalStatus 1) proposed.

(** The admin then sets the status back to Active. *)
Definition reopen : Governance.Call :=
  Governance.UpdateProposalStatus 1 Governance.Active "".

(** *** Audit trail: three records, the first without a proposal *)

Definition log0 : AuditTrail.State := AuditTrail.constructor (sent city 0).

Definition log1 : AuditTrail.State :=
  AuditTrail.exec (sent city 0) (AuditTrail.SetGovernanceContract contract)
    log0.

Definition log2 : AuditTrail.State :=
  AuditTrail.exec (sent contract 10) (AuditTrail.RecordAudit alice 100 0 7 8)
    log1.

Definition log3 : AuditTrail.State :=
  AuditTrail.exec (sent contract 11) (AuditTrail.RecordAudit alice 101 1 7 8)
    log2.

Definition log4 : AuditTrail.State :=
  AuditTrail.exec (sent contract 12) (AuditTrail.RecordAudit city 102 1 7 8)
    log3.

(** A fourth record whose action type is not UTF-8, and a decoder that
    reads the action types 100, 101 and 102 and throws on any other
    word. *)
Definition log5 : AuditTrail.State :=
  AuditTrail.exec (sent contract 13) (AuditTrail.RecordAudit bob 255 2 7 8)
    log4.

Definition utf8 (hex : Solidity.bytes32) : option string :=
  if (hex =? 100)%N then Some "VOTER_VERIFIED"
  else if (hex =? 101)%N then Some "PROPOSAL_CREATED"
  else if (hex =? 102)%N then Some "VOTE_YES"
  else None.

(** *** Backend: one proposal in the category Environment *)

Definition citizen (i : Backend.ObjectId) : Backend.User :=
  {| Backend.id := i; Backend.isGovernmentOfficial := false;
     Backend.isAdmin := false |}.

Definition official (i : Backend.ObjectId) : Backend.User :=
  {| Backend.id := i; Backend.isGovernmentOfficial := true;
     Backend.isAdmin := false |}.

(** A valid proposal body with voting deadline 100, an optional status
    and an optional [voteCount.yes]. *)
Definition environment (status : option string) (yes : option Z)
    : Backend.Proposal.body :=
  {| Backend.Proposal.body_category := Some "Environment";
     Backend.Proposal.body_status := status;
     Backend.Proposal.body_voteCount_yes := yes;
     Backend.Proposal.body_voteCount_no := None;
     Backend.Proposal.body_voteCount_abstain := None;
     Backend.Proposal.body_votingDeadline := Some 100%Z;
     Backend.Proposal.rest_valid := true |}.

(** Created with the schema defaults: status "submitted". *)
Definition submitted_db : Backend.Db :=
  Backend.handle 10%Z
    (Backend.CreateProposal (citizen 1) (environment None None))
    Backend.empty_db.

(** Created in the voting stage. *)
Definition voting_db : Backend.Db :=
  Backend.handle 10%Z
    (Backend.CreateProposal (citizen 1) (environment (Some "voting") None))
    Backend.empty_db.

(** Created in the voting stage with [voteCount.yes = 5] in the body. *)
Definition padded_db : Backend.Db :=
  Backend.handle 10%Z
    (Backend.CreateProposal (citizen 1)
       (environment (Some "voting") (Some 5%Z)))
    Backend.empty_db.

(** Three citizens try to vote yes, yes, no on proposal 0. *)
Definition three_ballots (db : Backend.Db) : Backend.Db :=
  Backend.handle 23%Z (Backend.AddVote (citizen 4) 0 (Backend.ballot "no"))
    (Backend.handle 22%Z
       (Backend.AddVote (citizen 3) 0 (Backend.ballot "yes"))
       (Backend.handle 21%Z
          (Backend.AddVote (citizen 2) 0 (Backend.ballot "yes")) db)).

(** Two proposals in the voting stage; citizen 2 votes yes on the first
    (vote document 2) and then moves that vote to the second. *)
Definition two_proposals_db : Backend.Db :=
  Backend.handle 21%Z (Backend.AddVote (citizen 2) 0 (Backend.ballot "yes"))
    (Backend.handle 11%Z
       (Backend.CreateProposal (citizen 1) (environment (Some "voting") None))
       voting_db).

Definition move_to_second : Backend.Vote.body :=
  {| Backend.Vote.body_proposal := Some 1; Backend.Vote.body_user := None;
     Backend.Vote.body_vote := Some "yes";
     Backend.Vote.body_createdAt := None; Backend.Vote.rest_valid := true |}.

Definition moved_db : Backend.Db :=
  Backend.handle 30%Z (Backend.UpdateVote (citizen 2) 2 move_to_second)
    two_proposals_db.

(** A change of mind that names the proposal the vote is on: citizen 4
    turns the no on proposal 0 (vote document 3) into a yes. *)
Definition restated : Backend.Vote.body :=
  {| Backend.Vote.body_proposal := Some 0; Backend.Vote.body_user := None;
     Backend.Vote.body_vote := Some "yes";
     Backend.Vote.body_createdAt := None; Backend.Vote.rest_valid := true |}.

Definition restated_db : Backend.Db :=
  Backend.handle 30%Z (Backend.UpdateVote (citizen 4) 3 restated)
    (three_ballots voting_db).

(** An update of a vote that only rewrites its reason. *)
Definition reason_only : Backend.Vote.body :=
  {| Backend.Vote.body_proposal := None; Backend.Vote.body_user := None;
     Backend.Vote.body_vote := None; Backend.Vote.body_createdAt := None;
     Backend.Vote.rest_valid := true |}.

Definition answer (status : string) : Backend.OfficialResponse.body :=
  {| Backend.OfficialResponse.body_proposal := None;
     Backend.OfficialResponse.body_respondent := None;
     Backend.OfficialResponse.body_status := Some status;
     Backend.OfficialResponse.body_isVerified := None;
     Backend.OfficialResponse.body_verificationProof := None;
     Backend.OfficialResponse.rest_valid := true |}.

(** The proposal after its vote, answered by official 9. *)
Definition answered_db : Backend.Db :=
  Backend.handle 300%Z
    (Backend.CreateOfficialResponse (official 9) 0 (answer "approved") None)
    (three_ballots voting_db).

(** *** Governance: three proposals *)

(** After her vote, Alice creates two more proposals. *)
Definition busy : Governance.State :=
  Governance.exec contract (sent alice 13)
    (Governance.CreateProposal "Playground" "Rebuild the playground" "")
    (Governance.exec contract (sent alice 12)
       (Governance.CreateProposal "Library hours" "Open on Sundays" "QmLib")
       voted_yes).

(** A proposal created in the last second that a [Date] can show. *)
Definition late : Governance.State :=
  Governance.exec contract (sent alice 8640000000000)
    (Governance.CreateProposal "Archive" "Keep the records" "") voted_yes.

(** *** Backend: more requests *)

(** Official 9 approves the new proposal in part. *)
Definition partly_db : Backend.Db :=
  Backend.handle 300%Z
    (Backend.CreateOfficialResponse (official 9) 0
       (answer "partially_approved") None)
    voting_db.

(** A ballot that names another voter and another proposal. *)
Definition forged : Backend.Vote.body :=
  {| Backend.Vote.body_proposal := Some 7; Backend.Vote.body_user := Some 99;
     Backend.Vote.body_vote := Some "yes";
     Backend.Vote.body_createdAt := None; Backend.Vote.rest_valid := true |}.


(** An answer that asks for a verification proof. *)
Definition sealed (status : string) : Backend.OfficialResponse.body :=
  {| Backend.OfficialResponse.body_proposal := None;
     Backend.OfficialResponse.body_respondent := None;
     Backend.OfficialResponse.body_status := Some status;
     Backend.OfficialResponse.body_isVerified := Some true;
     Backend.OfficialResponse.body_verificationProof := None;
     Backend.OfficialResponse.rest_valid := true |}.

End Scenario.

(** * Properties *)

(** Steps through [x ← m; k] in a hypothesis [m ≫= k = Ok _]: the head
    [m] succeeded. *)
Ltac step H :=
  match type of H with
  | mbind _ ?m = Ok _ =>
      let E := fresh "E" in
      destruct m eqn:E; simpl in H; [|discriminate H]
  end.

Lemma require_Ok c m u : require c m = Ok u -> c = true.
Proof. unfold require. by destruct c. Qed.

(** Membership in a concrete set, by evaluation. *)
Lemma elem_of_by_compute (x : N) (X : gset N) :
  bool_decide (x ∈ X) = true -> x ∈ X.
Proof. apply bool_decide_eq_true. Qed.

Lemma checked_add_Ok a b :
  a + b <= MAX_UINT256 -> checked_add a b = Ok (a + b).
Proof. intros H. unfold checked_add. apply N.leb_le in H. by rewrite H. Qed.

(** ** The governance contract *)

Section GovernanceFacts.
Import Governance.
Variable this : address.

Lemma proposal_at_store_eq i p s : proposal_at (store_proposal i p s) i = p.
Proof.
  unfold proposal_at, store_proposal; simpl. by rewrite lookup_insert_eq.
Qed.

Lemma proposal_at_store_ne i j p s :
  i ≠ j -> proposal_at (store_proposal i p s) j = proposal_at s j.
Proof.
  intros H. unfold proposal_at, store_proposal; simpl.
  by rewrite lookup_insert_ne.
Qed.

Lemma proposal_at_recordAudit env u i a s j :
  proposal_at (recordAudit env u i a s) j = proposal_at s j.
Proof. reflexivity. Qed.

Lemma proposal_at_emit e s j : proposal_at (emit e s) j = proposal_at s j.
Proof. reflexivity. Qed.

Lemma advances_not_regresses a b : advances a b -> ~ regresses a b.
Proof.
  unfold advances, regresses. intros [->|[-> [->| ->]]]; simpl; lia.
Qed.

Lemma valid_id_true i s :
  exists_proposal s i -> (i <=? proposalCount s) && (0 <? i) = true.
Proof.
  intros [Hi Hj]. apply andb_true_iff.
  split; [by apply N.leb_le | by apply N.ltb_lt].
Qed.

Lemma verified_true env s :
  msg_sender env ∈ verifiedVoters s -> onlyVerifiedVoter env s = Ok tt.
Proof.
  intros H. unfold onlyVerifiedVoter. by rewrite bool_decide_eq_true_2.
Qed.

(** **** checkProposalStatus *)

Lemma checkProposalStatus_status env i s j :
  advances (status (proposal_at s j))
           (status (proposal_at (checkProposalStatus this env i s) j)).
Proof.
  unfold checkProposalStatus, advances.
  destruct (bool_decide (status (proposal_at s i) = Active)
            && (votingEndTime (proposal_at s i) <=? block_timestamp env))
    eqn:E; [|by left].
  apply andb_true_iff in E as [Ha _]. apply bool_decide_eq_true in Ha.
  rewrite proposal_at_recordAudit, proposal_at_emit.
  destruct (decide (i = j)) as [->|Hne].
  - rewrite proposal_at_store_eq. right. split; [done|].
    destruct (noVotes (proposal_at s j) <? yesVotes (proposal_at s j));
      simpl; auto.
  - rewrite proposal_at_store_ne by done. by left.
Qed.

Lemma checkProposalStatus_open env i s :
  block_timestamp env < votingEndTime (proposal_at s i) ->
  checkProposalStatus this env i s = s.
Proof.
  intros Ht. unfold checkProposalStatus.
  apply N.leb_gt in Ht. by rewrite Ht, andb_false_r.
Qed.

Lemma checkProposalStatus_appends env i s :
  exists new,
    auditTrail (checkProposalStatus this env i s) = auditTrail s ++ new.
Proof.
  unfold checkProposalStatus.
  destruct (_ && _); [|exists []; by rewrite app_nil_r].
  simpl. eauto.
Qed.

(** **** castVote *)

Lemma recordVote_status env i b s s' j :
  recordVote env i b s = Ok s' ->
  status (proposal_at s' j) = status (proposal_at s j).
Proof.
  unfold recordVote. intros H. cbv zeta in H.
  destruct b; step H; step E; injection E as <-; injection H as <-;
    rewrite proposal_at_recordAudit, proposal_at_emit;
    (destruct (decide (i = j)) as [->|Hne];
      [by rewrite proposal_at_store_eq | by rewrite proposal_at_store_ne]).
Qed.

Lemma recordVote_counts env i b s s1 :
  recordVote env i b s = Ok s1 ->
  yesVotes (proposal_at s1 i)
    = yesVotes (proposal_at s i) + (if b then 1 else 0)
  /\ noVotes (proposal_at s1 i)
     = noVotes (proposal_at s i) + (if b then 0 else 1)
  /\ votingEndTime (proposal_at s1 i) = votingEndTime (proposal_at s i).
Proof.
  unfold recordVote. intros H. cbv zeta in H.
  destruct b; step H; step E; injection E as <-; injection H as <-;
    rewrite proposal_at_recordAudit, proposal_at_emit, proposal_at_store_eq;
    unfold checked_add in E0; destruct (_ <=? _) in E0; try discriminate E0;
    injection E0 as <-; simpl; repeat split; lia.
Qed.

Lemma castVote_status env i b s s' j :
  castVote this env i b s = Ok s' ->
  advances (status (proposal_at s j)) (status (proposal_at s' j)).
Proof.
  unfold castVote. intros H. cbv zeta in H. do 6 step H.
  injection H as <-.
  rewrite <- (recordVote_status _ _ _ _ _ j E4).
  apply checkProposalStatus_status.
Qed.

Lemma castVote_closed env i b s :
  msg_sender env ∈ verifiedVoters s ->
  exists_proposal s i ->
  let p := proposal_at s i in
  (votingEndTime p <= block_timestamp env ->
     castVote this env i b s = Revert (Require "Voting period has ended"))
  /\ (block_timestamp env < votingEndTime p -> status p <> Active ->
      castVote this env i b s = Revert (Require "Proposal is not active")).
Proof.
  intros Hv Hi p. unfold castVote. fold p.
  rewrite (verified_true _ _ Hv), (valid_id_true _ _ Hi). simpl. split.
  - intros Ht. apply N.ltb_ge in Ht. by rewrite Ht.
  - intros Ht Hs. apply N.ltb_lt in Ht. rewrite Ht. simpl.
    rewrite (bool_decide_eq_false_2 _ Hs). reflexivity.
Qed.

Lemma castVote_success env i b s s' :
  castVote this env i b s = Ok s' ->
  exists s1,
    recordVote env i b s = Ok s1
    /\ s' = checkProposalStatus this env i s1
    /\ yesVotes (proposal_at s' i)
       = yesVotes (proposal_at s i) + (if b then 1 else 0)
    /\ noVotes (proposal_at s' i)
       = noVotes (proposal_at s i) + (if b then 0 else 1).
Proof.
  unfold castVote. intros H. cbv zeta in H. do 6 step H.
  injection H as <-. exists a4. split; [done|]. split; [done|].
  destruct (recordVote_counts _ _ _ _ _ E4) as (Hy & Hn & Ht).
  apply require_Ok in E1. apply N.ltb_lt in E1.
  rewrite checkProposalStatus_open by (rewrite Ht; exact E1). auto.
Qed.

Lemma castVote_again env i b s :
  msg_sender env ∈ hasVoted (proposal_at s i) ->
  exists e,
    castVote this env i b s = Revert e
    /\ (msg_sender env ∈ verifiedVoters s ->
        exists_proposal s i ->
        block_timestamp env < votingEndTime (proposal_at s i) ->
        status (proposal_at s i) = Active ->
        e = Require "Already voted on this proposal").
Proof.
  intros Hv. unfold castVote. cbv zeta.
  rewrite (bool_decide_eq_true_2 _ Hv). simpl.
  destruct (onlyVerifiedVoter env s) as [[]|e1] eqn:E1; simpl;
    [|exists e1; split; [done|]; intros Hver; by rewrite verified_true in E1].
  destruct (require ((i <=? proposalCount s) && (0 <? i)) _)
    as [[]|e2] eqn:E2; simpl;
    [|exists e2; split; [done|]; intros _ Hi; unfold require in E2;
      by rewrite valid_id_true in E2].
  destruct (require (block_timestamp env <? _) _) as [[]|e3] eqn:E3; simpl;
    [|exists e3; split; [done|]; intros _ _ Ht; apply N.ltb_lt in Ht;
      unfold require in E3; by rewrite Ht in E3].
  destruct (require (bool_decide _) _) as [[]|e4] eqn:E4; simpl;
    [|exists e4; split; [done|]; intros _ _ _ Hs; unfold require in E4;
      by rewrite bool_decide_eq_true_2 in E4].
  eexists. split; [reflexivity|]. done.
Qed.

(** **** The other transactions *)

Lemma verifyVoter_proposals env v s s' :
  verifyVoter env v s = Ok s' -> proposals s' = proposals s.
Proof. unfold verifyVoter. intros H. step H. by injection H as <-. Qed.

Lemma createProposal_existing env t d h s s' j :
  createProposal env t d h s = Ok s' ->
  exists_proposal s j ->
  proposal_at s' j = proposal_at s j.
Proof.
  unfold createProposal, exists_proposal. intros H [_ Hj].
  cbv zeta in H. do 3 step H. injection H as <-.
  rewrite proposal_at_recordAudit, proposal_at_emit.
  unfold checked_add in E0. destruct (_ <=? _) in E0; [|done].
  injection E0 as <-.
  rewrite proposal_at_store_ne by lia. reflexivity.
Qed.

Lemma updateProposalStatus_status env i st d s :
  msg_sender env = admin s ->
  exists_proposal s i ->
  exists s', updateProposalStatus env i st d s = Ok s'
             /\ status (proposal_at s' i) = st.
Proof.
  unfold updateProposalStatus, onlyAdmin. intros Ha Hi.
  rewrite Ha, N.eqb_refl. simpl.
  rewrite (valid_id_true _ _ Hi). simpl.
  eexists. split; [reflexivity|].
  rewrite proposal_at_recordAudit, proposal_at_emit.
  case_bool_decide; rewrite !proposal_at_store_eq; reflexivity.
Qed.

Lemma exec_status env c s i :
  exists_proposal s i ->
  is_updateProposalStatus c = false ->
  advances (status (proposal_at s i))
           (status (proposal_at (exec this env c s) i)).
Proof.
  intros Hi Hc. unfold exec.
  destruct (call this env c s) as [s'|e] eqn:E; [|by left].
  destruct c; simpl in E; try discriminate Hc.
  - unfold proposal_at. rewrite (verifyVoter_proposals _ _ _ _ E). by left.
  - rewrite (createProposal_existing _ _ _ _ _ _ _ E Hi). by left.
  - by apply (castVote_status env _proposalId _support).
  - injection E as <-. apply checkProposalStatus_status.
Qed.

Lemma exec_keeps_auditTrail env c s :
  exists new, auditTrail (exec this env c s) = auditTrail s ++ new.
Proof.
  unfold exec.
  destruct (call this env c s) as [s'|e] eqn:E;
    [|exists []; by rewrite app_nil_r].
  destruct c; simpl in E.
  - unfold verifyVoter in E. step E.
    injection E as <-. simpl. eauto.
  - unfold updateProposalStatus in E. do 2 step E.
    injection E as <-. destruct (bool_decide _); simpl; eauto.
  - unfold createProposal in E. cbv zeta in E. do 3 step E.
    injection E as <-. simpl. eauto.
  - unfold castVote in E. cbv zeta in E. do 6 step E.
    injection E as <-.
    destruct (checkProposalStatus_appends env _proposalId a4) as [n2 ->].
    unfold recordVote in E5. cbv zeta in E5.
    destruct _support; step E5; step E; injection E as <-;
      injection E5 as <-; simpl; rewrite <- app_assoc; eauto.
  - injection E as <-. apply checkProposalStatus_appends.
Qed.

End GovernanceFacts.

(** ** The audit-trail contract *)

Section AuditTrailFacts.
Import AuditTrail.

Lemma array_set_Ok {A} i (v : A) a :
  (N.to_nat i < length a)%nat ->
  array_set i v a = Ok (<[N.to_nat i := v]> a).
Proof.
  intros H. unfold array_set.
  assert ((i <? N.of_nat (length a)) = true) as ->; [|done].
  apply N.ltb_lt. lia.
Qed.

Lemma take_S_insert {A} (l : list A) i v :
  (i < length l)%nat -> take (S i) (<[i:=v]> l) = take i l ++ [v].
Proof.
  intros H. rewrite (take_S_r _ _ v) by (by apply list_lookup_insert_eq).
  by rewrite take_insert_ge.
Qed.

(** **** The loop of getAuditBatch *)

Lemma filled_step {A} s start (f : AuditRecord -> A) i n col r :
  (i < length col)%nat ->
  auditRecords s !! (N.to_nat start + i)%nat = Some r ->
  filled s start f (S i) n (<[i := f r]> col) = filled s start f i (S n) col.
Proof.
  intros Hi Hr. unfold filled, slice.
  rewrite take_S_insert by done.
  rewrite (drop_S _ r (N.to_nat start + i)) by done. simpl.
  rewrite <- app_assoc. simpl.
  by replace (N.to_nat start + S i)%nat
    with (S (N.to_nat start + i)) by lia.
Qed.

Lemma filled_done {A} s start (f : AuditRecord -> A) i col :
  length col = i -> filled s start f i 0 col = col.
Proof.
  intros H. unfold filled, slice. simpl.
  rewrite app_nil_r. apply take_ge. lia.
Qed.

(** Entered at index [i] with [n] records left to copy, the loop
    terminates normally and fills positions [i .. i+n-1]. *)
Lemma getAuditBatch_loop_fills s start n : forall i b,
  (N.to_nat start + N.to_nat i + n <= length (auditRecords s))%nat ->
  start + i + N.of_nat n <= MAX_UINT256 ->
  length (ids b) = (N.to_nat i + n)%nat ->
  length (timestamps b) = (N.to_nat i + n)%nat ->
  length (actors b) = (N.to_nat i + n)%nat ->
  length (actionTypes b) = (N.to_nat i + n)%nat ->
  length (proposalIds b) = (N.to_nat i + n)%nat ->
  getAuditBatch_loop n i start s b =
    Ok {| ids := filled s start id (N.to_nat i) n (ids b);
          timestamps :=
            filled s start timestamp (N.to_nat i) n (timestamps b);
          actors := filled s start actor (N.to_nat i) n (actors b);
          actionTypes :=
            filled s start actionType (N.to_nat i) n (actionTypes b);
          proposalIds :=
            filled s start proposalId (N.to_nat i) n (proposalIds b) |}.
Proof.
  induction n as [|n IH]; intros i b Hlen Hmax H1 H2 H3 H4 H5.
  - simpl. rewrite !filled_done by lia. by destruct b.
  - simpl.
    rewrite (checked_add_Ok start i) by lia. simpl.
    destruct (lookup_lt_is_Some_2 (auditRecords s) (N.to_nat (start + i)))
      as [r Hr]; [lia|].
    rewrite Hr.
    rewrite !array_set_Ok by lia. simpl.
    rewrite (checked_add_Ok i 1) by lia. simpl.
    rewrite IH; simpl; rewrite ?length_insert; try lia.
    replace (N.to_nat (i + 1)) with (S (N.to_nat i)) by lia.
    rewrite N2Nat.inj_add in Hr.
    by rewrite !filled_step by (done || lia).
Qed.

Lemma getAuditBatch_loop_total s start m :
  (N.to_nat start + N.to_nat m <= length (auditRecords s))%nat ->
  start + m <= MAX_UINT256 ->
  getAuditBatch_loop (N.to_nat m) 0 start s
    {| ids := replicate (N.to_nat m) 0;
       timestamps := replicate (N.to_nat m) 0;
       actors := replicate (N.to_nat m) 0;
       actionTypes := replicate (N.to_nat m) 0;
       proposalIds := replicate (N.to_nat m) 0 |}
  = Ok (columns (slice (N.to_nat start) (N.to_nat m) s)).
Proof.
  intros Hlen Hmax.
  rewrite getAuditBatch_loop_fills;
    cbn [ids timestamps actors actionTypes proposalIds];
    rewrite ?length_replicate; try lia.
  unfold filled, columns. simpl. by rewrite Nat.add_0_r.
Qed.

Lemma getAuditBatch_in_range start count s :
  start < auditRecords_length s ->
  start + count <= MAX_UINT256 ->
  let n := N.min count (auditRecords_length s - start) in
  getAuditBatch start count s
  = Ok (columns (slice (N.to_nat start) (N.to_nat n) s)).
Proof.
  intros Hs Hmax n. unfold auditRecords_length in *.
  unfold getAuditBatch, auditRecords_length.
  apply N.ltb_lt in Hs as Hs'. rewrite Hs'.
  rewrite checked_add_Ok by done.
  cbn [require mbind result_bind].
  destruct (N.ltb_spec (N.of_nat (length (auditRecords s))) (start + count))
    as [Hlt|Hge].
  - unfold checked_sub.
    assert ((start <=? N.of_nat (length (auditRecords s))) = true) as ->
      by (apply N.leb_le; lia).
    cbn [mbind result_bind].
    rewrite getAuditBatch_loop_total by lia.
    subst n. do 3 f_equal. lia.
  - cbn [mbind result_bind].
    rewrite getAuditBatch_loop_total by lia.
    subst n. do 3 f_equal. lia.
Qed.

Lemma getAuditBatch_out_of_bounds start count s :
  auditRecords_length s <= start ->
  getAuditBatch start count s = Revert (Require "Start index out of bounds").
Proof.
  intros H. unfold getAuditBatch. apply N.ltb_ge in H. by rewrite H.
Qed.

(** **** recordAudit and the reachable states *)

Lemma recordAudit_Ok env a t p h m s s' rid :
  recordAudit env a t p h m s = Ok (s', rid) ->
  rid = auditRecords_length s
  /\ auditRecords s' =
       auditRecords s ++
         [ {| id := rid; timestamp := block_timestamp env; actor := a;
              actionType := t; proposalId := p; ipfsDataHash := h;
              metadataHash := m |} ]
  /\ proposalAuditRecords s' =
       (if 0 <? p then index_push p rid (proposalAuditRecords s)
        else proposalAuditRecords s)
  /\ userAuditRecords s' = index_push a rid (userAuditRecords s).
Proof.
  unfold recordAudit. intros H.
  destruct (onlyGovernance env s); simpl in H; [|discriminate H].
  by injection H as <- <-.
Qed.

(** Case analysis on a committed transaction. *)
Lemma call_Ok env c s s' :
  call env c s = Ok s' ->
  (auditRecords s' = auditRecords s
   /\ proposalAuditRecords s' = proposalAuditRecords s)
  \/ (exists a t p h m rid,
        c = RecordAudit a t p h m
        /\ recordAudit env a t p h m s = Ok (s', rid)).
Proof.
  intros E. destruct c; simpl in E.
  - unfold setGovernanceContract in E. do 2 step E.
    injection E as <-. by left.
  - destruct (recordAudit _ _ _ _ _ _ s) as [[s1 rid]|] eqn:E1;
      simpl in E; [|discriminate E].
    injection E as <-. right. eauto 10.
Qed.

Lemma exec_appends env c s :
  exists new, auditRecords (exec env c s) = auditRecords s ++ new.
Proof.
  unfold exec.
  destruct (call env c s) as [s'|e] eqn:E;
    [|exists []; by rewrite app_nil_r].
  apply call_Ok in E as [[-> _]|(a & t & p & h & m & rid & _ & E)].
  - exists []. by rewrite app_nil_r.
  - apply recordAudit_Ok in E as (_ & -> & _). eauto.
Qed.

Lemma reachable_ids s :
  reachable s ->
  forall i r, auditRecords s !! i = Some r -> id r = N.of_nat i.
Proof.
  induction 1 as [env|s env c Hs IH]; intros i r Hr; [done|].
  unfold exec in Hr.
  destruct (call env c s) as [s'|e] eqn:E; [|by apply IH].
  apply call_Ok in E as [[E _]|(a & t & p & h & m & rid & _ & E)].
  - rewrite E in Hr. by apply IH.
  - apply recordAudit_Ok in E as (-> & Hrec & _).
    rewrite Hrec in Hr. apply lookup_app_Some in Hr as [Hr|[Hle Hr]];
      [by apply IH|].
    apply list_lookup_singleton_Some in Hr as [Hi <-]. simpl.
    unfold auditRecords_length. lia.
Qed.

Lemma reachable_no_zero_index s :
  reachable s -> proposalAuditRecords s !! 0 = None.
Proof.
  induction 1 as [env|s env c Hs IH]; [done|].
  unfold exec.
  destruct (call env c s) as [s'|e] eqn:E; [|done].
  apply call_Ok in E as [[_ E]|(a & t & p & h & m & rid & _ & E)].
  - by rewrite E.
  - apply recordAudit_Ok in E as (_ & _ & -> & _).
    destruct (N.ltb_spec 0 p); [|done].
    unfold index_push. rewrite lookup_insert_ne by lia. done.
Qed.

Lemma index_at_push k v m :
  index_at (index_push k v m) k = index_at m k ++ [v].
Proof. unfold index_at at 1, index_push. by rewrite lookup_insert_eq. Qed.

End AuditTrailFacts.

(** ** The backend *)

Section BackendFacts.
Import Backend.

(** *** Lookups in the vote collection *)

Lemma Vote_findOne_None u p db :
  Vote_findOne u p db = None <->
  forall v, v ∈ votes db -> ~ (Vote.proposal v = p /\ Vote.user v = u).
Proof.
  unfold Vote_findOne. split.
  - intros H v Hv [Hp Hu]. apply list_elem_of_In in Hv.
    pose proof (find_none _ _ H v Hv) as Hf. simpl in Hf.
    rewrite Hp, Hu, !N.eqb_refl in Hf. discriminate Hf.
  - intros H. destruct (find _ _) as [v|] eqn:E; [|done].
    apply find_some in E as [Hin Hf]. apply list_elem_of_In in Hin.
    apply andb_true_iff in Hf as [Hu Hp].
    apply N.eqb_eq in Hu, Hp. by destruct (H v Hin).
Qed.

Lemma Vote_findOne_Some u p db v :
  v ∈ votes db -> Vote.proposal v = p -> Vote.user v = u ->
  is_Some (Vote_findOne u p db).
Proof.
  intros Hin Hp Hu.
  destruct (Vote_findOne u p db) eqn:E; [eauto|].
  destruct (proj1 (Vote_findOne_None u p db) E v Hin); auto.
Qed.

Lemma Vote_index_free_true self p u db :
  (forall v, v ∈ votes db -> ~ (Vote.proposal v = p /\ Vote.user v = u)) ->
  Vote_index_free self p u db = true.
Proof.
  intros H. unfold Vote_index_free. apply forallb_forall. intros v Hv.
  apply list_elem_of_In in Hv. apply orb_true_iff. right.
  apply negb_true_iff, andb_false_iff.
  destruct (N.eqb_spec (Vote.proposal v) p) as [Hp|]; [|by left].
  destruct (N.eqb_spec (Vote.user v) u) as [Hu|]; [|by right].
  by destruct (H v Hv).
Qed.

Lemma in_enum_vote c :
  in_enum Vote.vote_enum c = true -> c = "yes" \/ c = "no" \/ c = "abstain".
Proof.
  unfold in_enum, Vote.vote_enum. simpl. rewrite !orb_true_iff.
  intros [H|[H|[H|H]]]; try discriminate H;
    apply String.eqb_eq in H; auto.
Qed.

Lemma tally_voteCount_add c d p :
  in_enum Vote.vote_enum c = true ->
  tally (Proposal.set_voteCount
           (Proposal.voteCount_add c d (Proposal.voteCount p)) p)
  = (tally p + d)%Z.
Proof.
  intros H. apply in_enum_vote in H as [->|[->| ->]];
    unfold tally; simpl; lia.
Qed.

(** *** What a successful [addVote] writes *)

Lemma addVote_inv user proposalId body now db :
  (exists err, addVote user proposalId body now db = (db, Next err))
  \/ (exists p c,
        proposals db !! proposalId = Some p
        /\ Proposal.status p = "voting"
        /\ Vote_findOne (id user) proposalId db = None
        /\ Vote.body_vote body = Some c
        /\ in_enum Vote.vote_enum c = true
        /\ addVote user proposalId body now db =
             let created := default now (Vote.body_createdAt body) in
             (fst (voted user proposalId c created now p db),
              Json 201 (snd (voted user proposalId c created now p db)))).
Proof.
  unfold addVote, Proposal_findById.
  destruct (proposals db !! proposalId) as [p|] eqn:Hp; [|left; eauto].
  destruct (String.eqb_spec (Proposal.status p) "voting") as [Hs|Hs];
    cbn [negb]; [|left; eauto].
  destruct (Vote_findOne (id user) proposalId db) eqn:Hf; [left; eauto|].
  unfold Vote_create, Vote.set_body_user, Vote.set_body_proposal.
  cbn [Vote.body_proposal Vote.body_user Vote.body_vote Vote.rest_valid].
  destruct (Vote.body_vote body) as [c|] eqn:Hc; [|left; eauto].
  destruct (Vote.rest_valid body && in_enum Vote.vote_enum c) eqn:Hv;
    [|left; eauto].
  apply andb_true_iff in Hv as [_ Hv].
  destruct (Vote_index_free _ _ _ _); [|left; eauto].
  right. exists p, c. repeat split; auto.
Qed.

Lemma addVote_accepts user proposalId body now db p c :
  proposals db !! proposalId = Some p ->
  Proposal.status p = "voting" ->
  (forall v, v ∈ votes db ->
             ~ (Vote.proposal v = proposalId /\ Vote.user v = id user)) ->
  Vote.body_vote body = Some c ->
  in_enum Vote.vote_enum c = true ->
  Vote.rest_valid body = true ->
  addVote user proposalId body now db =
    let created := default now (Vote.body_createdAt body) in
    (fst (voted user proposalId c created now p db),
     Json 201 (snd (voted user proposalId c created now p db))).
Proof.
  intros Hp Hs Hnone Hc Hv Hr.
  unfold addVote, Proposal_findById. rewrite Hp, Hs. cbn [String.eqb Ascii.eqb Bool.eqb negb].
  rewrite (proj2 (Vote_findOne_None _ _ _) Hnone).
  unfold Vote_create, Vote.set_body_user, Vote.set_body_proposal.
  cbn [Vote.body_proposal Vote.body_user Vote.body_vote Vote.rest_valid].
  rewrite Hc, Hr, Hv. cbn [andb].
  rewrite Vote_index_free_true by done. reflexivity.
Qed.

(** *** Consistency of the store *)

Lemma consistent_empty : consistent empty_db.
Proof.
  split; simpl; try done; try apply NoDup_nil_2.
  intros v Hv. by apply elem_of_nil in Hv.
Qed.

Lemma votes_of_fresh db i :
  consistent db -> nextId db <= i -> votes_of i db = [].
Proof.
  intros Hc Hi. unfold votes_of.
  destruct (filter _ (votes db)) as [|v l] eqn:E; [done|].
  assert (v ∈ filter (fun v => Vote.proposal v = i) (votes db)) as Hv
    by (rewrite E; apply list_elem_of_here).
  apply list_elem_of_filter in Hv as [Hp Hv].
  destruct (votes_known _ Hc v Hv) as (_ & _ & [p Hsome]).
  destruct (proposals_keyed _ Hc _ _ Hsome) as [_ Hlt]. lia.
Qed.

Lemma consistent_createProposal user body now db :
  consistent db ->
  Proposal.body_voteCount_yes body = None ->
  Proposal.body_voteCount_no body = None ->
  Proposal.body_voteCount_abstain body = None ->
  consistent (fst (createProposal user body now db)).
Proof.
  intros Hc Hy Hn Ha. unfold createProposal, Proposal_create.
  destruct (Proposal_validate body); [|done].
  rewrite Hy, Hn, Ha. cbn [fst default]. split; cbn [proposals votes nextId].
  - intros i p Hp. apply lookup_insert_Some in Hp as [[<- <-]|[Hne Hp]].
    + cbn. lia.
    + destruct (proposals_keyed _ Hc _ _ Hp). split; [done|lia].
  - intros v Hv. destruct (votes_known _ Hc v Hv) as (Hid & He & Hs).
    repeat split; [lia|done|].
    apply lookup_insert_is_Some'. by right.
  - apply (votes_ids _ Hc).
  - apply (votes_pairs _ Hc).
  - intros i p Hp. apply lookup_insert_Some in Hp as [[<- <-]|[Hne Hp]].
    + unfold votes_of at 1. cbn [votes].
      change (filter _ (votes db)) with (votes_of (nextId db) db).
      rewrite (votes_of_fresh db (nextId db)) by (done || lia). done.
    + by apply (tallies _ Hc).
Qed.

Lemma consistent_voted user proposalId c created now p db :
  consistent db ->
  proposals db !! proposalId = Some p ->
  Vote_findOne (id user) proposalId db = None ->
  in_enum Vote.vote_enum c = true ->
  consistent (fst (voted user proposalId c created now p db)).
Proof.
  intros Hc Hp Hnone He.
  destruct (proposals_keyed _ Hc _ _ Hp) as [Hid Hlt].
  unfold voted. cbn [fst]. rewrite Hid.
  split; cbn [proposals votes nextId].
  - intros i q Hq. apply lookup_insert_Some in Hq as [[<- <-]|[Hne Hq]].
    + cbn. split; [done|lia].
    + destruct (proposals_keyed _ Hc _ _ Hq). split; [done|lia].
  - intros v Hv. apply elem_of_app in Hv as [Hv|Hv].
    + destruct (votes_known _ Hc v Hv) as (Hv1 & Hv2 & Hv3).
      repeat split; [lia|done|].
      apply lookup_insert_is_Some'. by right.
    + apply list_elem_of_singleton in Hv as ->. cbn.
      repeat split; [lia|done|].
      apply lookup_insert_is_Some'. by left.
  - rewrite fmap_app. apply NoDup_app. split; [apply (votes_ids _ Hc)|].
    split; [|apply NoDup_singleton].
    intros x Hx Hx'. apply list_elem_of_singleton in Hx'. cbn in Hx'.
    apply list_elem_of_fmap in Hx as (v & -> & Hv).
    destruct (votes_known _ Hc v Hv) as (Hv1 & _). lia.
  - rewrite fmap_app. apply NoDup_app. split; [apply (votes_pairs _ Hc)|].
    split; [|apply NoDup_singleton].
    intros x Hx Hx'. apply list_elem_of_singleton in Hx'. cbn in Hx'.
    apply list_elem_of_fmap in Hx as (v & Hxv & Hv).
    apply (proj1 (Vote_findOne_None _ _ _) Hnone v Hv).
    unfold pair_of in *. by simplify_eq.
  - intros i q Hq. unfold votes_of. cbn [votes].
    rewrite filter_app, length_app.
    change (filter _ (votes db)) with (votes_of i db).
    apply lookup_insert_Some in Hq as [[<- <-]|[Hne Hq]].
    + rewrite (filter_singleton_True _ _ []) by done.
      change (tally (Proposal.set_updatedAt now ?x)) with (tally x).
      rewrite tally_voteCount_add by done.
      rewrite (tallies _ Hc _ _ Hp). cbn [length]. lia.
    + rewrite (filter_singleton_False _ _ []) by (cbn; congruence).
      rewrite (tallies _ Hc _ _ Hq). cbn [length]. lia.
Qed.

Lemma consistent_addVote user proposalId body now db :
  consistent db -> consistent (fst (addVote user proposalId body now db)).
Proof.
  intros Hc.
  destruct (addVote_inv user proposalId body now db)
    as [[err ->]|(p & c & Hp & _ & Hnone & _ & He & ->)]; [done|].
  by apply consistent_voted.
Qed.

(** Replacing documents by ones that agree on a projection [g]. *)
Lemma fmap_replace {A B} (g : A -> B) (repl : A -> A) (l : list A) :
  (forall w, w ∈ l -> g (repl w) = g w) ->
  g <$> (repl <$> l) = g <$> l.
Proof.
  intros H. rewrite <- list_fmap_compose. apply list_fmap_ext.
  intros i x Hx. apply H. by eapply list_elem_of_lookup_2.
Qed.

Lemma filter_replace_length {A} (P : A -> Prop) `{!forall x, Decision (P x)}
    (repl : A -> A) (l : list A) :
  (forall w, w ∈ l -> (P (repl w) <-> P w)) ->
  length (filter P (repl <$> l)) = length (filter P l).
Proof.
  induction l as [|x l IH]; intros Hrepl; [done|].
  rewrite fmap_cons, !filter_cons.
  assert (P (repl x) <-> P x) as Hx by (apply Hrepl; left).
  assert (length (filter P (repl <$> l)) = length (filter P l)) as Hl
    by (apply IH; intros w Hw; apply Hrepl; by right).
  destruct (decide (P (repl x))), (decide (P x)); simpl; tauto || lia.
Qed.

Lemma NoDup_fmap_eq {A B} (g : A -> B) (l : list A) x y :
  NoDup (g <$> l) -> x ∈ l -> y ∈ l -> g x = g y -> x = y.
Proof.
  induction l as [|z l IH]; intros Hnd Hx Hy Hg;
    [by apply elem_of_nil in Hx|].
  rewrite fmap_cons in Hnd. apply NoDup_cons in Hnd as [Hz Hnd].
  apply elem_of_cons in Hx as [->|Hx];
    apply elem_of_cons in Hy as [->|Hy]; auto.
  - destruct Hz. rewrite Hg. by apply list_elem_of_fmap_2.
  - destruct Hz. rewrite <- Hg. by apply list_elem_of_fmap_2.
Qed.

Lemma Vote_findById_Some i db v :
  Vote_findById i db = Some v -> v ∈ votes db /\ Vote._id v = i.
Proof.
  unfold Vote_findById. intros H. apply find_some in H as [Hin Hi].
  apply list_elem_of_In in Hin. by apply N.eqb_eq in Hi.
Qed.

(** Overwriting a proposal document by one with the same key and the same
    total. *)
Lemma consistent_overwrite db i p q :
  consistent db ->
  proposals db !! i = Some p ->
  Proposal._id q = i ->
  tally q = tally p ->
  consistent {| proposals := <[i := q]> (proposals db);
                votes := votes db;
                officialResponses := officialResponses db;
                nextId := nextId db |}.
Proof.
  intros Hc Hp Hid Ht.
  destruct (proposals_keyed _ Hc _ _ Hp) as [_ Hlt].
  split; cbn [proposals votes nextId].
  - intros j r Hr. apply lookup_insert_Some in Hr as [[<- <-]|[Hne Hr]];
      [done|by apply (proposals_keyed _ Hc)].
  - intros v Hv. destruct (votes_known _ Hc v Hv) as (Hv1 & Hv2 & Hv3).
    repeat split; [done..|].
    apply lookup_insert_is_Some'. by right.
  - apply (votes_ids _ Hc).
  - apply (votes_pairs _ Hc).
  - intros j r Hr. change (votes_of j _) with (votes_of j db).
    apply lookup_insert_Some in Hr as [[<- <-]|[Hne Hr]].
    + rewrite Ht. by apply (tallies _ Hc).
    + by apply (tallies _ Hc).
Qed.

Lemma Vote_index_free_spec self p u db :
  Vote_index_free self p u db = true ->
  forall w, w ∈ votes db -> Vote._id w <> self ->
            ~ (Vote.proposal w = p /\ Vote.user w = u).
Proof.
  unfold Vote_index_free. intros H w Hw Hid [Hp Hu].
  apply list_elem_of_In in Hw.
  pose proof (proj1 (forallb_forall _ _) H w Hw) as Hf. cbn in Hf.
  rewrite Hp, Hu, !N.eqb_refl in Hf.
  apply orb_true_iff in Hf as [Hf|Hf]; [|discriminate Hf].
  by apply N.eqb_eq in Hf.
Qed.

(** Replacing the document with key [i] by one whose pair is not taken
    keeps the pairs distinct. *)
Lemma NoDup_replace i v' (l : list Vote.t) :
  NoDup (Vote._id <$> l) ->
  NoDup (pair_of <$> l) ->
  (forall w, w ∈ l -> Vote._id w <> i -> pair_of w <> pair_of v') ->
  NoDup (pair_of <$> ((fun w => if Vote._id w =? i then v' else w) <$> l)).
Proof.
  induction l as [|x l IH]; intros Hids Hpairs Hfree; [constructor|].
  rewrite !fmap_cons in *.
  apply NoDup_cons in Hids as [Hx Hids].
  apply NoDup_cons in Hpairs as [Hpx Hpairs].
  apply NoDup_cons. split.
  - intros Hin.
    apply list_elem_of_fmap in Hin as (y & Hy & Hin).
    apply list_elem_of_fmap in Hin as (w & -> & Hw).
    destruct (N.eqb_spec (Vote._id x) i) as [Hxi|Hxi];
      destruct (N.eqb_spec (Vote._id w) i) as [Hwi|Hwi].
    + apply Hx. rewrite Hxi, <- Hwi. by apply list_elem_of_fmap_2.
    + apply (Hfree w); [by right|done|done].
    + apply (Hfree x); [by left|done|done].
    + apply Hpx. rewrite Hy. by apply list_elem_of_fmap_2.
  - apply IH; [done..|]. intros w Hw. apply Hfree. by right.
Qed.

(** Changing the choice (and possibly the voter) of one stored vote,
    counters left alone. *)
Lemma consistent_rechoose db i v c u d :
  consistent db ->
  Vote_findById i db = Some v ->
  in_enum Vote.vote_enum c = true ->
  Vote_index_free i (Vote.proposal v) u db = true ->
  let v' := {| Vote._id := Vote._id v; Vote.proposal := Vote.proposal v;
               Vote.user := u; Vote.vote := c; Vote.createdAt := d |} in
  consistent {| proposals := proposals db;
                votes := (fun w => if Vote._id w =? i then v' else w)
                           <$> votes db;
                officialResponses := officialResponses db;
                nextId := nextId db |}.
Proof.
  intros Hc Hf He Hfree v'.
  apply Vote_findById_Some in Hf as [Hin Hid].
  assert (forall w, w ∈ votes db -> Vote._id w = i -> w = v) as Huniq.
  { intros w Hw Hwi. apply (NoDup_fmap_eq Vote._id (votes db)); auto.
    - apply (votes_ids _ Hc).
    - congruence. }
  set (repl := fun w => if Vote._id w =? i then v' else w).
  assert (forall w, w ∈ votes db -> Vote._id (repl w) = Vote._id w) as Hrid.
  { intros w Hw. unfold repl. destruct (N.eqb_spec (Vote._id w) i); [|done].
    cbn. congruence. }
  assert (forall w, w ∈ votes db ->
                    Vote.proposal (repl w) = Vote.proposal w) as Hrp.
  { intros w Hw. unfold repl. destruct (N.eqb_spec (Vote._id w) i); [|done].
    by rewrite (Huniq w Hw). }
  split; cbn [proposals votes nextId].
  - apply (proposals_keyed _ Hc).
  - intros w Hw. apply list_elem_of_fmap in Hw as (w0 & -> & Hw0).
    unfold repl. destruct (N.eqb_spec (Vote._id w0) i);
      [|by apply (votes_known _ Hc)].
    destruct (votes_known _ Hc v Hin) as (Hv1 & Hv2 & Hv3). by cbn.
  - rewrite fmap_replace by done. apply (votes_ids _ Hc).
  - apply NoDup_replace; [apply (votes_ids _ Hc) | apply (votes_pairs _ Hc)|].
    intros w Hw Hwi Hpair. unfold pair_of in Hpair. cbn in Hpair.
    injection Hpair as Hp Hu.
    by apply (Vote_index_free_spec _ _ _ _ Hfree w Hw Hwi).
  - intros j p Hp. unfold votes_of. cbn [votes].
    rewrite filter_replace_length; [by apply (tallies _ Hc)|].
    intros w Hw. by rewrite (Hrp w Hw).
Qed.

Lemma consistent_updateVote user voteId body now db :
  consistent db ->
  (forall p v,
      Vote.body_proposal body = Some p ->
      Vote_findById voteId db = Some v ->
      p = Vote.proposal v) ->
  (exists c, Vote.body_vote body = Some c
             /\ in_enum Vote.vote_enum c = true) ->
  consistent (fst (updateVote user voteId body now db)).
Proof.
  intros Hc Hbp (c & Hbv & He). unfold updateVote, Proposal_findById.
  destruct (Vote_findById voteId db) as [v|] eqn:Hv; [|done].
  destruct (negb (Vote.user v =? id user)); [done|].
  destruct (proposals db !! Vote.proposal v) as [p|] eqn:Hp; [|done].
  destruct (negb (String.eqb (Proposal.status p) "voting")); [done|].
  destruct (Vote_findById_Some _ _ _ Hv) as [Hin Hid].
  destruct (votes_known _ Hc v Hin) as (_ & Hve & _).
  destruct (proposals_keyed _ Hc _ _ Hp) as [Hpid _].
  rewrite Hbv. cbn [Vote.key].
  set (p' := Proposal.set_voteCount _ (Proposal.set_voteCount _ p)).
  assert (consistent (Proposal_save p' now db)) as Hc1.
  { unfold Proposal_save. subst p'. cbn [Proposal._id Proposal.set_voteCount].
    rewrite Hpid. apply (consistent_overwrite db _ p); auto.
    change (tally (Proposal.set_updatedAt now ?x)) with (tally x).
    rewrite !tally_voteCount_add by done. lia. }
  unfold Vote_findByIdAndUpdate.
  change (Vote_findById voteId (Proposal_save p' now db))
    with (Vote_findById voteId db).
  rewrite Hv, Hbv.
  destruct (Vote.rest_valid body && in_enum Vote.vote_enum c); [|done].
  destruct (Vote_index_free _ _ _ _) eqn:Hfree; [|done].
  assert (default (Vote.proposal v) (Vote.body_proposal body)
          = Vote.proposal v) as Hsame.
  { destruct (Vote.body_proposal body) as [q|] eqn:Hq; [|done].
    cbn [default]. by apply Hbp. }
  cbn [fst]. unfold Vote_apply in *. rewrite Hsame, Hbv in *.
  cbn [default Vote.proposal Vote.user] in *.
  by apply (consistent_rechoose (Proposal_save p' now db) voteId v c).
Qed.

(** *** Official responses *)

Lemma OfficialResponse_findByIdAndUpdate_Some i b db db' r :
  OfficialResponse_findByIdAndUpdate i b db = inr (db', Some r) ->
  status_differs b r = false
  /\ proposals db' = proposals db
  /\ votes db' = votes db
  /\ nextId db' = nextId db.
Proof.
  unfold OfficialResponse_findByIdAndUpdate. intros H.
  destruct (_ && _); [|discriminate H].
  destruct (OfficialResponse_findById i db) as [r0|]; [|discriminate H].
  destruct (OfficialResponse_index_free _ _ _); [|discriminate H].
  injection H as <- <-. repeat split.
  unfold status_differs, OfficialResponse_apply, truthy_string.
  cbn [OfficialResponse.status].
  destruct (OfficialResponse.body_status b) as [st|]; [|done].
  cbn [default]. by rewrite String.eqb_refl, andb_false_r.
Qed.

Lemma OfficialResponse_findByIdAndUpdate_None i b db db' :
  OfficialResponse_findByIdAndUpdate i b db = inr (db', None) -> db' = db.
Proof.
  unfold OfficialResponse_findByIdAndUpdate. intros H.
  destruct (_ && _); [|discriminate H].
  destruct (OfficialResponse_findById i db) as [r0|];
    [|by injection H as <-].
  destruct (OfficialResponse_index_free _ _ _); discriminate H.
Qed.

Lemma updateOfficialResponse_frame user responseId body proof db :
  let db' := fst (updateOfficialResponse user responseId body proof db) in
  proposals db' = proposals db
  /\ votes db' = votes db
  /\ nextId db' = nextId db.
Proof.
  cbv zeta. unfold updateOfficialResponse.
  destruct (OfficialResponse_findById responseId db) as [r|]; [|done].
  destruct (_ && negb (isAdmin user)); [done|].
  assert (forall b,
    let db' :=
      fst match OfficialResponse_findByIdAndUpdate responseId b db with
          | inl err => (db, Next err)
          | inr (db0, None) =>
              if truthy_string (OfficialResponse.body_status b)
              then (db0, Next TypeError)
              else (db0, Json 200 None)
          | inr (db0, Some response) =>
              (if status_differs b response
               then Proposal_findByIdAndUpdate_status
                      (OfficialResponse.proposal response)
                      (proposal_status_of (OfficialResponse.body_status b))
                      db0
               else db0, Json 200 (Some response))
          end in
    proposals db' = proposals db /\ votes db' = votes db
    /\ nextId db' = nextId db) as Hupdate.
  { intros b. cbv zeta.
    destruct (OfficialResponse_findByIdAndUpdate responseId b db)
      as [err|[db0 [r'|]]] eqn:E; [done| |].
    - apply OfficialResponse_findByIdAndUpdate_Some in E
        as (-> & Hp & Hv & Hn). done.
    - apply OfficialResponse_findByIdAndUpdate_None in E as ->.
      by destruct (truthy_string _). }
  destruct (status_differs body r && _); [|apply Hupdate].
  destruct proof; [apply Hupdate|done].
Qed.

Lemma createOfficialResponse_effect user proposalId body proof now db :
  let db' := fst (createOfficialResponse user proposalId body proof now db) in
  db' = db
  \/ (votes db' = votes db
      /\ nextId db' = nextId db + 1
      /\ proposals db' =
           alter (Proposal.set_status
                    (proposal_status_of (OfficialResponse.body_status body)))
                 proposalId (proposals db)).
Proof.
  cbv zeta. unfold createOfficialResponse.
  destruct (Proposal_findById proposalId db); [|by left].
  destruct (negb (isGovernmentOfficial user)); [by left|].
  destruct (OfficialResponse_findOne proposalId db); [by left|].
  assert (forall b,
    let db' :=
      fst match OfficialResponse_create b now db with
          | inl err => (db, Next err)
          | inr (db0, officialResponse) =>
              (Proposal_findByIdAndUpdate_status proposalId
                 (proposal_status_of (OfficialResponse.body_status body))
                 db0, Json 201 officialResponse)
          end in
    db' = db
    \/ (votes db' = votes db /\ nextId db' = nextId db + 1
        /\ proposals db' =
             alter (Proposal.set_status
                      (proposal_status_of (OfficialResponse.body_status body)))
                   proposalId (proposals db))) as Hcreate.
  { intros b. cbv zeta. unfold OfficialResponse_create.
    destruct (OfficialResponse.body_proposal b); [|by left].
    destruct (OfficialResponse.body_respondent b); [|by left].
    destruct (OfficialResponse.body_status b); [|by left].
    destruct (_ && _); [|by left].
    destruct (OfficialResponse_index_free _ _ _); [|by left].
    right. done. }
  destruct (truthy_bool _); [|apply Hcreate].
  destruct proof; [apply Hcreate|by left].
Qed.

Lemma consistent_restatus db db' i st :
  consistent db ->
  votes db' = votes db ->
  nextId db <= nextId db' ->
  proposals db' = alter (Proposal.set_status st) i (proposals db) ->
  consistent db'.
Proof.
  intros Hc Hv Hn Hp. split.
  - intros j p. rewrite Hp. intros Hj.
    apply lookup_alter_Some in Hj as [(-> & q & Hq & ->)|[Hne Hq]];
      destruct (proposals_keyed _ Hc _ _ Hq); split; done || lia.
  - intros v. rewrite Hv, Hp. intros Hin.
    destruct (votes_known _ Hc v Hin) as (Hv1 & Hv2 & Hv3).
    repeat split; [lia|done|]. by apply lookup_alter_is_Some.
  - rewrite Hv. apply (votes_ids _ Hc).
  - rewrite Hv. apply (votes_pairs _ Hc).
  - intros j p. rewrite Hp. unfold votes_of. rewrite Hv. intros Hj.
    apply lookup_alter_Some in Hj as [(-> & q & Hq & ->)|[Hne Hq]].
    + change (tally (Proposal.set_status st q)) with (tally q).
      by apply (tallies _ Hc).
    + by apply (tallies _ Hc).
Qed.

Lemma consistent_frame db db' :
  consistent db ->
  proposals db' = proposals db ->
  votes db' = votes db ->
  nextId db' = nextId db ->
  consistent db'.
Proof.
  intros Hc Hp Hv Hn. split; unfold votes_of; rewrite ?Hp, ?Hv, ?Hn;
    apply Hc.
Qed.

Lemma consistent_handle now r db :
  consistent db -> counts_untouched db r -> consistent (handle now r db).
Proof.
  intros Hc Hr. destruct r; cbn [handle counts_untouched] in *.
  - destruct Hr as (Hy & Hn & Ha). by apply consistent_createProposal.
  - by apply consistent_addVote.
  - destruct Hr as (Hp & Hv). by apply consistent_updateVote.
  - destruct (createOfficialResponse_effect user proposalId body proof now db)
      as [->|(Hv & Hn & Hp)]; [done|].
    eapply consistent_restatus; eauto. lia.
  - destruct (updateOfficialResponse_frame user responseId body proof db)
      as (Hp & Hv & Hn).
    by eapply consistent_frame.
Qed.

Lemma reachable_consistent db :
  reachable counts_untouched db -> consistent db.
Proof.
  induction 1; [apply consistent_empty | by apply consistent_handle].
Qed.

Lemma OfficialResponse_findOne_Some p db r :
  r ∈ officialResponses db -> OfficialResponse.proposal r = p ->
  is_Some (OfficialResponse_findOne p db).
Proof.
  intros Hin Hp. unfold OfficialResponse_findOne.
  destruct (find _ _) eqn:E; [eauto|].
  apply list_elem_of_In in Hin.
  pose proof (find_none _ _ E r Hin) as Hf. cbn in Hf.
  rewrite Hp, N.eqb_refl in Hf. discriminate Hf.
Qed.

Lemma addVote_again user proposalId body now db v :
  v ∈ votes db ->
  Vote.proposal v = proposalId ->
  Vote.user v = id user ->
  exists err,
    addVote user proposalId body now db = (db, Next err)
    /\ (forall p, proposals db !! proposalId = Some p ->
                  Proposal.status p = "voting" ->
                  err = ErrorResponse
                          "You have already voted on this proposal" 400).
Proof.
  intros Hin Hp Hu. unfold addVote, Proposal_findById.
  destruct (Vote_findOne_Some _ _ _ _ Hin Hp Hu) as [w Hw].
  destruct (proposals db !! proposalId) as [p|]; [|eexists; split; done].
  destruct (String.eqb_spec (Proposal.status p) "voting") as [Hs|Hs];
    cbn [negb].
  - rewrite Hw. eexists. split; [reflexivity|done].
  - eexists. split; [reflexivity|]. intros ? [= <-] ?. done.
Qed.

Lemma addVote_not_voting user proposalId body now db p :
  proposals db !! proposalId = Some p ->
  Proposal.status p <> "voting" ->
  addVote user proposalId body now db
  = (db, Next (ErrorResponse
                 "Proposal is not currently open for voting" 400)).
Proof.
  intros Hp Hs. unfold addVote, Proposal_findById. rewrite Hp.
  by destruct (String.eqb_spec (Proposal.status p) "voting").
Qed.

Lemma addVote_counts user proposalId body now db db' v :
  addVote user proposalId body now db = (db', Json 201 v) ->
  exists p p',
    proposals db !! proposalId = Some p
    /\ proposals db' !! Proposal._id p = Some p'
    /\ in_enum Vote.vote_enum (Vote.vote v) = true
    /\ Proposal.voteCount p'
         = Proposal.voteCount_add (Vote.vote v) 1 (Proposal.voteCount p)
    /\ Proposal.status p' = Proposal.status p
    /\ votes db' = votes db ++ [v].
Proof.
  intros H.
  destruct (addVote_inv user proposalId body now db)
    as [[err E]|(p & c & Hp & _ & _ & _ & He & E)];
    rewrite E in H; [discriminate H|].
  injection H as <- <-. exists p. eexists. split; [done|].
  unfold voted. cbn [fst snd proposals votes Vote.vote].
  rewrite lookup_insert_eq. repeat split; done.
Qed.

(** One accepted ballot on proposal [n], given the voters [seen] so far. *)
Lemma addVote_step u n c t db p (seen : list ObjectId) :
  proposals db !! n = Some p ->
  Proposal._id p = n ->
  Proposal.status p = "voting" ->
  (forall v, v ∈ votes db -> Vote.proposal v = n -> Vote.user v ∈ seen) ->
  id u ∉ seen ->
  in_enum Vote.vote_enum c = true ->
  let db' := fst (addVote u n (ballot c) t db) in
  exists p',
    proposals db' !! n = Some p'
    /\ Proposal._id p' = n
    /\ Proposal.status p' = "voting"
    /\ Proposal.voteCount p'
         = Proposal.voteCount_add c 1 (Proposal.voteCount p)
    /\ (forall v, v ∈ votes db' -> Vote.proposal v = n ->
                  Vote.user v ∈ id u :: seen).
Proof.
  intros Hp Hid Hs Hseen Hu He db'. subst db'.
  rewrite (addVote_accepts u n (ballot c) t db p c); try done.
  - unfold voted. cbn [fst proposals votes]. rewrite Hid, lookup_insert_eq.
    eexists. split; [reflexivity|]. repeat split; try done.
    intros v Hv Hvn. apply elem_of_app in Hv as [Hv|Hv].
    + right. by apply Hseen.
    + apply list_elem_of_singleton in Hv as ->. by left.
  - intros v Hv [Hvn Hvu]. apply Hu. rewrite <- Hvu. by apply Hseen.
Qed.

Lemma yes_yes_no author body t0 u1 u2 u3 t1 t2 t3 db :
  reachable counts_untouched db ->
  Proposal.body_category body = Some "Environment" ->
  Proposal.body_status body = Some "voting" ->
  Proposal.body_voteCount_yes body = None ->
  Proposal.body_voteCount_no body = None ->
  Proposal.body_voteCount_abstain body = None ->
  Proposal.rest_valid body = true ->
  id u1 <> id u2 -> id u1 <> id u3 -> id u2 <> id u3 ->
  exists P1,
    snd (createProposal author body t0 db) = Json 201 P1
    /\ let db0 := fst (createProposal author body t0 db) in
       let db1 := fst (addVote u1 (Proposal._id P1) (ballot "yes") t1 db0) in
       let db2 := fst (addVote u2 (Proposal._id P1) (ballot "yes") t2 db1) in
       let db3 := fst (addVote u3 (Proposal._id P1) (ballot "no") t3 db2) in
       getVotes (Proposal._id P1) db3
       = Json 200 {| yes := 2; no := 1; abstain := 0; total := 3 |}.
Proof.
  intros Hreach Hcat Hst Hy Hn Ha Hrest H12 H13 H23.
  apply reachable_consistent in Hreach as Hc.
  assert (Proposal_validate body = true) as Hval
    by (unfold Proposal_validate; rewrite Hcat, Hst, Hrest; reflexivity).
  unfold createProposal, Proposal_create.
  rewrite Hval, Hcat, Hst, Hy, Hn, Ha.
  eexists. split; [reflexivity|].
  cbn [fst Proposal._id]. cbv zeta.
  set (n := nextId db).
  match goal with
  | |- context [addVote u1 n _ t1 ?d] => set (db0 := d)
  end.
  destruct (addVote_step u1 n "yes" t1 db0 _ []
              (lookup_insert_eq _ _ _) eq_refl eq_refl)
    as (p1 & Hp1 & Hid1 & Hs1 & Hc1 & Hv1); [|apply not_elem_of_nil|done|].
  { intros v Hv Hvn. cbn [votes db0] in Hv.
    destruct (votes_known _ Hc v Hv) as (_ & _ & [q Hq]).
    destruct (proposals_keyed _ Hc _ _ Hq). subst n. lia. }
  destruct (addVote_step u2 n "yes" t2 _ p1 [id u1] Hp1 Hid1 Hs1 Hv1)
    as (p2 & Hp2 & Hid2 & Hs2 & Hc2 & Hv2); [|done|].
  { intros Hin. apply list_elem_of_singleton in Hin. congruence. }
  destruct (addVote_step u3 n "no" t3 _ p2 [id u2; id u1] Hp2 Hid2 Hs2 Hv2)
    as (p3 & Hp3 & Hid3 & Hs3 & Hc3 & Hv3); [|done|].
  { intros Hin. apply elem_of_cons in Hin as [Hin|Hin]; [congruence|].
    apply list_elem_of_singleton in Hin. congruence. }
  unfold getVotes, Proposal_findById. rewrite Hp3, Hc3, Hc2, Hc1.
  reflexivity.
Qed.
End BackendFacts.

(** * Stated properties *)

(** ** Status changes of a proposal (governance contract) *)

Section StatusLifecycle.
Import Governance Scenario.

(** The history of [Scenario] is a run of the contract: deployment, then
    transactions in blocks of non-decreasing time. *)
Lemma reachable_proposed : reachable contract 10 proposed.
Proof.
  apply (reachable_exec contract 0 verified (sent alice 10)); [|done].
  apply (reachable_exec contract 0 deployed (sent city 0)); [|done].
  apply (reachable_deploy contract (sent city 0)).
Qed.

(** C1 does not hold as stated: [updateProposalStatus] stores whatever
    status the admin passes.  Proposal 1, Rejected at its deadline, is
    Active again after the admin's call. *)
Lemma admin_update_reopens_rejected_proposal :
  reachable contract deadline closed
  /\ exists_proposal closed 1
  /\ status (proposal_at closed 1) = Rejected
  /\ status (proposal_at
               (exec contract (sent city (deadline + 1)) reopen closed) 1)
     = Active
  /\ regresses Rejected Active.
Proof.
  split.
  { apply (reachable_exec contract 10 proposed (sent bob deadline));
      [apply reachable_proposed | done]. }
  split; [by vm_compute|].
  split; [by vm_compute|].
  split; [by vm_compute|].
  unfold regresses. simpl. lia.
Qed.

(** C1 (amended).  Every transaction other than [updateProposalStatus]
    (createProposal, castVote, checkProposalStatus, verifyVoter) leaves the
    status of an existing proposal where it is or closes an Active proposal
    as Passed or Rejected, so it never moves back in the lifecycle;
    [updateProposalStatus], sent by the admin for an existing proposal,
    stores exactly the status it is given, whatever the current one. *)
Theorem status_advances_without_admin_update (this : address) :
  (forall env c s i,
      exists_proposal s i ->
      is_updateProposalStatus c = false ->
      advances (status (proposal_at s i))
               (status (proposal_at (exec this env c s) i))
      /\ ~ regresses (status (proposal_at s i))
                     (status (proposal_at (exec this env c s) i)))
  /\ (forall env s i st d,
        msg_sender env = admin s ->
        exists_proposal s i ->
        status (proposal_at (exec this env (UpdateProposalStatus i st d) s) i)
        = st).
Proof.
  split.
  - intros env c s i Hi Hc.
    pose proof (exec_status this env c s i Hi Hc) as H.
    split; [exact H | by apply advances_not_regresses].
  - intros env s i st d Ha Hi. unfold exec. cbn [call].
    destruct (updateProposalStatus_status env i st d s Ha Hi)
      as (s' & -> & Hs).
    exact Hs.
Qed.

Lemma status_advances_without_admin_update_witness :
  (exists_proposal proposed 1
   /\ is_updateProposalStatus (CheckProposalStatus 1) = false
   /\ advances (status (proposal_at proposed 1))
               (status (proposal_at closed 1)))
  /\ (msg_sender (sent city (deadline + 1)) = admin closed
      /\ exists_proposal closed 1
      /\ status (proposal_at
                   (exec contract (sent city (deadline + 1)) reopen closed) 1)
         = Active).
Proof.
  destruct (status_advances_without_admin_update contract) as [H1 H2].
  split.
  - assert (exists_proposal proposed 1) as Hi by (by vm_compute).
    split; [exact Hi|]. split; [reflexivity|].
    exact (proj1 (H1 (sent bob deadline) (CheckProposalStatus 1) proposed 1
                     Hi eq_refl)).
  - assert (exists_proposal closed 1) as Hi by (by vm_compute).
    split; [reflexivity|]. split; [exact Hi|].
    exact (H2 (sent city (deadline + 1)) closed 1 Active "" eq_refl Hi).
Defined.

(** Why the statement above speaks of existing proposals:
    [checkProposalStatus] takes any id.  On the unwritten slot 2 (status
    Active, deadline 0) it stores Rejected, and [createProposal] later
    starts proposal 2 as Active in that slot. *)
Lemma unallocated_slot_is_closed_then_created :
  ~ exists_proposal proposed 2
  /\ status (proposal_at
               (exec contract (sent bob 11) (CheckProposalStatus 2) proposed) 2)
     = Rejected
  /\ status (proposal_at
               (exec contract (sent alice 12) (CreateProposal "Trees" "" "")
                  (exec contract (sent bob 11) (CheckProposalStatus 2)
                     proposed)) 2)
     = Active.
Proof.
  split; [|split; by vm_compute].
  intros [_ H]. by vm_compute in H.
Qed.

(** C4.  [checkProposalStatus] changes nothing while the deadline has not
    passed or the status is not Active.  Once the deadline has passed on
    an Active proposal, the status becomes Passed when yesVotes > noVotes
    and Rejected otherwise (a tie is Rejected), the other fields and the
    other proposals stay, and exactly one audit record is appended, with
    action "STATUS_UPDATED_AUTO". *)
Theorem checkProposalStatus_closes_expired_voting (this : address) env i s :
  let p := proposal_at s i in
  let s' := checkProposalStatus this env i s in
  (block_timestamp env < votingEndTime p \/ status p <> Active -> s' = s)
  /\ (votingEndTime p <= block_timestamp env -> status p = Active ->
      (noVotes p < yesVotes p -> proposal_at s' i = set_status Passed p)
      /\ (yesVotes p <= noVotes p -> proposal_at s' i = set_status Rejected p)
      /\ (forall j, j <> i -> proposal_at s' j = proposal_at s j)
      /\ auditTrail s' =
           auditTrail s ++
             [ {| user := this; proposalId := i;
                  action := "STATUS_UPDATED_AUTO";
                  timestamp := block_timestamp env |} ]).
Proof.
  intros p s'. subst s'. unfold checkProposalStatus. fold p. split.
  - intros [Ht|Hs].
    + apply N.leb_gt in Ht. rewrite Ht, andb_false_r. reflexivity.
    + rewrite bool_decide_eq_false_2 by done. reflexivity.
  - intros Ht Hs. apply N.leb_le in Ht.
    rewrite Ht, bool_decide_eq_true_2 by done. simpl.
    rewrite !proposal_at_recordAudit, !proposal_at_emit.
    repeat split.
    + intros Hy. apply N.ltb_lt in Hy. rewrite Hy.
      by rewrite proposal_at_store_eq.
    + intros Hy. apply N.ltb_ge in Hy. rewrite Hy.
      by rewrite proposal_at_store_eq.
    + intros j Hj. rewrite proposal_at_recordAudit, proposal_at_emit.
      by rewrite proposal_at_store_ne.
Qed.

Lemma checkProposalStatus_closes_expired_voting_witness :
  (* before the deadline: nothing happens *)
  checkProposalStatus contract (sent bob 11) 1 voted_yes = voted_yes
  (* at the deadline, one yes and no no: Passed, one record *)
  /\ status (proposal_at
               (checkProposalStatus contract (sent bob deadline) 1 voted_yes) 1)
     = Passed
  /\ length (auditTrail
               (checkProposalStatus contract (sent bob deadline) 1 voted_yes))
     = S (length (auditTrail voted_yes))
  (* at the deadline, no votes at all: the tie is Rejected *)
  /\ status (proposal_at closed 1) = Rejected.
Proof.
  split; [|split; [|split]].
  - apply (checkProposalStatus_closes_expired_voting contract (sent bob 11) 1
             voted_yes).
    left. by vm_compute.
  - destruct (checkProposalStatus_closes_expired_voting contract
                (sent bob deadline) 1 voted_yes) as [_ H].
    destruct H as (Hp & _); [by vm_compute..|].
    rewrite Hp; [reflexivity | by vm_compute].
  - destruct (checkProposalStatus_closes_expired_voting contract
                (sent bob deadline) 1 voted_yes) as [_ H].
    destruct H as (_ & _ & _ & Ha); [by vm_compute..|].
    rewrite Ha, length_app. simpl. lia.
  - destruct (checkProposalStatus_closes_expired_voting contract
                (sent bob deadline) 1 proposed) as [_ H].
    destruct H as (_ & Hr & _); [by vm_compute..|].
    unfold closed, exec. cbn [call]. rewrite Hr; [reflexivity | by vm_compute].
Defined.

End StatusLifecycle.

(** ** Casting a vote (governance contract and backend) *)

Section CastingVotes.
Import Scenario.

(** C3 does not hold as stated: the contract checks the deadline and the
    status before it looks at [hasVoted].  Alice has voted on proposal 1;
    her second vote, sent at the deadline, is turned down because the
    voting period has ended, not because she already voted. *)
Lemma second_vote_after_deadline_is_VotingClosed :
  Governance.reachable contract 11 voted_yes
  /\ Governance.hasVoted_view 1 alice voted_yes = Ok true
  /\ Governance.castVote contract (sent alice deadline) 1 false voted_yes
     = Revert (Require "Voting period has ended").
Proof.
  split.
  { apply (Governance.reachable_exec contract 10 proposed (sent alice 11));
      [apply reachable_proposed | done]. }
  split; by vm_compute.
Qed.

(** C3 (amended).  A second vote from a voter whose vote on the proposal
    is on record always fails and changes nothing.  On the contract the
    failure is "Already voted on this proposal" when the earlier checks
    pass (verified sender, existing proposal, deadline not reached, status
    Active); in the backend it is "You have already voted on this
    proposal" when the proposal is in the voting stage.  Otherwise the
    earlier check answers. *)
Theorem second_vote_fails (this : address) :
  (forall env i b s,
      msg_sender env ∈ Governance.hasVoted (Governance.proposal_at s i) ->
      Governance.exec this env (Governance.CastVote i b) s = s
      /\ exists e,
           Governance.castVote this env i b s = Revert e
           /\ (msg_sender env ∈ Governance.verifiedVoters s ->
               Governance.exists_proposal s i ->
               block_timestamp env
                 < Governance.votingEndTime (Governance.proposal_at s i) ->
               Governance.status (Governance.proposal_at s i)
                 = Governance.Active ->
               e = Require "Already voted on this proposal"))
  /\ (forall user proposalId body now db v,
        v ∈ Backend.votes db ->
        Backend.Vote.proposal v = proposalId ->
        Backend.Vote.user v = Backend.id user ->
        exists err,
          Backend.addVote user proposalId body now db = (db, Backend.Next err)
          /\ (forall p,
                Backend.proposals db !! proposalId = Some p ->
                Backend.Proposal.status p = "voting" ->
                err = Backend.ErrorResponse
                        "You have already voted on this proposal" 400)).
Proof.
  split.
  - intros env i b s Hv.
    destruct (castVote_again this env i b s Hv) as (e & He & Hmsg).
    split; [|by exists e].
    unfold Governance.exec. cbn [Governance.call]. by rewrite He.
  - intros user proposalId body now db v. apply addVote_again.
Qed.

Lemma second_vote_fails_witness :
  (* Alice votes again one second later, while voting is open *)
  Governance.castVote contract (sent alice 12) 1 false voted_yes
  = Revert (Require "Already voted on this proposal")
  /\ Governance.exec contract (sent alice 12) (Governance.CastVote 1 false)
       voted_yes = voted_yes
  (* citizen 2 votes again on proposal 0 in the backend *)
  /\ Backend.addVote (citizen 2) 0 (Backend.ballot "no") 30%Z
       (three_ballots voting_db)
     = (three_ballots voting_db,
        Backend.Next (Backend.ErrorResponse
                        "You have already voted on this proposal" 400)).
Proof.
  destruct (second_vote_fails contract) as [Hchain Hbackend].
  assert (msg_sender (sent alice 12)
            ∈ Governance.hasVoted (Governance.proposal_at voted_yes 1)) as Hv.
  { apply elem_of_by_compute. by vm_compute. }
  destruct (Hchain (sent alice 12) 1 false voted_yes Hv)
    as (Hexec & e & He & Hmsg).
  split; [|split; [exact Hexec|]].
  - rewrite He. f_equal. apply Hmsg.
    + apply elem_of_by_compute. by vm_compute.
    + by vm_compute.
    + by vm_compute.
    + by vm_compute.
  - destruct (Hbackend (citizen 2) 0 (Backend.ballot "no") 30%Z
                (three_ballots voting_db)
                {| Backend.Vote._id := 1; Backend.Vote.proposal := 0;
                   Backend.Vote.user := 2; Backend.Vote.vote := "yes";
                   Backend.Vote.createdAt := 21%Z |})
      as (err & Herr & Hmsg'); [|reflexivity|reflexivity|].
    + apply list_elem_of_In. vm_compute. by left.
    + rewrite Herr. do 2 f_equal.
      by apply (Hmsg' _ (eq_refl : Backend.proposals (three_ballots voting_db)
                                     !! 0%N = Some _)).
Defined.

(** C5 does not hold as stated for the backend: [addVote] looks at the
    status only.  The proposal of [voting_db] has voting deadline 100; a
    vote sent at time 200 is stored and counted. *)
Lemma addVote_accepts_after_votingDeadline :
  Backend.reachable Backend.any_request voting_db
  /\ Backend.Proposal.votingDeadline <$> Backend.proposals voting_db !! 0%N
     = Some (Some 100%Z)
  /\ snd (Backend.addVote (citizen 2) 0 (Backend.ballot "yes") 200%Z voting_db)
     = Backend.Json 201
         {| Backend.Vote._id := 1; Backend.Vote.proposal := 0;
            Backend.Vote.user := 2; Backend.Vote.vote := "yes";
            Backend.Vote.createdAt := 200%Z |}
  /\ Backend.getVotes 0
       (fst (Backend.addVote (citizen 2) 0 (Backend.ballot "yes") 200%Z
               voting_db))
     = Backend.Json 200
         {| Backend.yes := 1; Backend.no := 0; Backend.abstain := 0;
            Backend.total := 1 |}.
Proof.
  split.
  { apply Backend.reachable_handle; [apply Backend.reachable_empty | done]. }
  split; [|split]; by vm_compute.
Qed.

(** C5 (amended).  On the contract, [castVote] from a verified voter on an
    existing proposal fails with "Voting period has ended" once the
    deadline is reached and with "Proposal is not active" when the status
    is not Active; when it succeeds it has added one to the chosen counter
    and then run [checkProposalStatus] on the proposal.  In the backend,
    [addVote] fails with "Proposal is not currently open for voting" when
    the status is not "voting"; when it succeeds it has added one to the
    chosen counter and stored the vote, the status is as before, and
    acceptance depends neither on the time of the request nor on the
    proposal's [votingDeadline]. *)
Theorem castVote_closed_or_counted (this : address) :
  (forall env i b s,
      msg_sender env ∈ Governance.verifiedVoters s ->
      Governance.exists_proposal s i ->
      (Governance.votingEndTime (Governance.proposal_at s i)
         <= block_timestamp env ->
       Governance.castVote this env i b s
       = Revert (Require "Voting period has ended"))
      /\ (block_timestamp env
            < Governance.votingEndTime (Governance.proposal_at s i) ->
          Governance.status (Governance.proposal_at s i)
            <> Governance.Active ->
          Governance.castVote this env i b s
          = Revert (Require "Proposal is not active")))
  /\ (forall env i b s s',
        Governance.castVote this env i b s = Ok s' ->
        exists s1,
          Governance.recordVote env i b s = Ok s1
          /\ s' = Governance.checkProposalStatus this env i s1
          /\ Governance.yesVotes (Governance.proposal_at s' i)
             = Governance.yesVotes (Governance.proposal_at s i)
               + (if b then 1 else 0)
          /\ Governance.noVotes (Governance.proposal_at s' i)
             = Governance.noVotes (Governance.proposal_at s i)
               + (if b then 0 else 1))
  /\ (forall user proposalId body now db p,
        Backend.proposals db !! proposalId = Some p ->
        Backend.Proposal.status p <> "voting" ->
        Backend.addVote user proposalId body now db
        = (db, Backend.Next
                 (Backend.ErrorResponse
                    "Proposal is not currently open for voting" 400)))
  /\ (forall user proposalId body now db db' v,
        Backend.addVote user proposalId body now db
        = (db', Backend.Json 201 v) ->
        exists p p',
          Backend.proposals db !! proposalId = Some p
          /\ Backend.proposals db' !! Backend.Proposal._id p = Some p'
          /\ Backend.in_enum Backend.Vote.vote_enum (Backend.Vote.vote v)
             = true
          /\ Backend.Proposal.voteCount p'
             = Backend.Proposal.voteCount_add (Backend.Vote.vote v) 1
                 (Backend.Proposal.voteCount p)
          /\ Backend.Proposal.status p' = Backend.Proposal.status p
          /\ Backend.votes db' = Backend.votes db ++ [v])
  /\ (forall user proposalId body now db p c,
        Backend.proposals db !! proposalId = Some p ->
        Backend.Proposal.status p = "voting" ->
        (forall v, v ∈ Backend.votes db ->
                   ~ (Backend.Vote.proposal v = proposalId
                      /\ Backend.Vote.user v = Backend.id user)) ->
        Backend.Vote.body_vote body = Some c ->
        Backend.in_enum Backend.Vote.vote_enum c = true ->
        Backend.Vote.rest_valid body = true ->
        Backend.addVote user proposalId body now db
        = let created :=
            default now (Backend.Vote.body_createdAt body) in
          (fst (Backend.voted user proposalId c created now p db),
           Backend.Json 201
             (snd (Backend.voted user proposalId c created now p db)))).
Proof.
  split; [|split; [|split; [|split]]].
  - intros env i b s. apply castVote_closed.
  - intros env i b s s'. apply castVote_success.
  - intros user proposalId body now db p. apply addVote_not_voting.
  - intros user proposalId body now db db' v. apply addVote_counts.
  - intros user proposalId body now db p c. apply addVote_accepts.
Qed.

Lemma castVote_closed_or_counted_witness :
  (* bob is not verified yet; alice, verified, is late *)
  Governance.castVote contract (sent alice deadline) 1 true proposed
  = Revert (Require "Voting period has ended")
  (* alice in time: one more yes, no more no *)
  /\ Governance.yesVotes (Governance.proposal_at voted_yes 1) = 1
  /\ Governance.noVotes (Governance.proposal_at voted_yes 1) = 0
  (* the backend turns a vote down while the proposal is only submitted *)
  /\ Backend.addVote (citizen 2) 0 (Backend.ballot "yes") 21%Z submitted_db
     = (submitted_db,
        Backend.Next (Backend.ErrorResponse
                        "Proposal is not currently open for voting" 400)).
Proof.
  destruct (castVote_closed_or_counted contract)
    as (Hclosed & Hcounted & Hnot & _ & _).
  split; [|split; [|split]].
  - apply Hclosed.
    + apply elem_of_by_compute. by vm_compute.
    + by vm_compute.
    + by vm_compute.
  - destruct (Hcounted (sent alice 11) 1 true proposed voted_yes)
      as (s1 & _ & _ & Hy & _); [by vm_compute|].
    rewrite Hy. by vm_compute.
  - destruct (Hcounted (sent alice 11) 1 true proposed voted_yes)
      as (s1 & _ & _ & _ & Hn); [by vm_compute|].
    rewrite Hn. by vm_compute.
  - eapply Hnot; [by vm_compute|]. cbn. discriminate.
Defined.

End CastingVotes.

(** ** Counters and vote records (backend) *)

Section VoteCounts.
Import Backend Scenario.

(** C2 does not hold as stated.  The controllers hand the request body to
    Mongoose: a new proposal whose body says [voteCount.yes = 5] has
    counters adding up to 5 with no vote on record, and an update that
    names another proposal moves the vote record there while the counters
    of both proposals stay.  And the example needs a proposal in the voting
    stage: created with the schema defaults the proposal is "submitted",
    the three votes are turned down and [getVotes] reports zero. *)
Lemma supplied_voteCount_breaks_tally :
  (reachable any_request padded_db
   /\ getVotes 0 padded_db
      = Json 200 {| yes := 5; no := 0; abstain := 0; total := 5 |}
   /\ votes_of 0 padded_db = [])
  /\ (reachable any_request moved_db
      /\ getVotes 0 moved_db
         = Json 200 {| yes := 1; no := 0; abstain := 0; total := 1 |}
      /\ votes_of 0 moved_db = []
      /\ getVotes 1 moved_db
         = Json 200 {| yes := 0; no := 0; abstain := 0; total := 0 |}
      /\ length (votes_of 1 moved_db) = 1%nat)
  /\ (reachable counts_untouched (three_ballots submitted_db)
      /\ getVotes 0 (three_ballots submitted_db)
         = Json 200 {| yes := 0; no := 0; abstain := 0; total := 0 |}).
Proof.
  split; [|split].
  - split; [|split; by vm_compute].
    apply reachable_handle; [apply reachable_empty | done].
  - split; [|repeat split; by vm_compute].
    do 3 (apply reachable_handle; [|done]).
    apply reachable_handle; [apply reachable_empty | done].
  - split; [|by vm_compute].
    do 3 (apply reachable_handle; [|done]).
    apply reachable_handle; [apply reachable_empty | by cbn].
Qed.

(** C2 (amended).  In every store reached by requests that leave the
    counters to the controllers (no [voteCount] in the body of a new
    proposal; updates of a vote that name yes, no or abstain and keep the
    vote on its proposal), vote records are unique per (proposal,
    voter) and every proposal's yes + no + abstain equals the number of its
    vote records.  In such a store, after creating a proposal of category
    Environment in the voting stage and casting yes, yes, no from three
    distinct voters, [getVotes] returns yes 2, no 1, abstain 0, total 3. *)
Theorem tally_counts_vote_records :
  (forall db,
      reachable counts_untouched db ->
      NoDup (pair_of <$> votes db)
      /\ forall i p,
           proposals db !! i = Some p ->
           tally p = Z.of_nat (length (votes_of i db)))
  /\ (forall author body t0 u1 u2 u3 t1 t2 t3 db,
        reachable counts_untouched db ->
        Proposal.body_category body = Some "Environment" ->
        Proposal.body_status body = Some "voting" ->
        Proposal.body_voteCount_yes body = None ->
        Proposal.body_voteCount_no body = None ->
        Proposal.body_voteCount_abstain body = None ->
        Proposal.rest_valid body = true ->
        id u1 <> id u2 -> id u1 <> id u3 -> id u2 <> id u3 ->
        exists P1,
          snd (createProposal author body t0 db) = Json 201 P1
          /\ let db0 := fst (createProposal author body t0 db) in
             let db1 :=
               fst (addVote u1 (Proposal._id P1) (ballot "yes") t1 db0) in
             let db2 :=
               fst (addVote u2 (Proposal._id P1) (ballot "yes") t2 db1) in
             let db3 :=
               fst (addVote u3 (Proposal._id P1) (ballot "no") t3 db2) in
             getVotes (Proposal._id P1) db3
             = Json 200 {| yes := 2; no := 1; abstain := 0; total := 3 |}).
Proof.
  split.
  - intros db Hdb. apply reachable_consistent in Hdb as Hc.
    split; [apply (votes_pairs _ Hc) | apply (tallies _ Hc)].
  - intros author body t0 u1 u2 u3 t1 t2 t3 db. apply yes_yes_no.
Qed.

Lemma tally_counts_vote_records_witness :
  getVotes 0 (three_ballots voting_db)
  = Json 200 {| yes := 2; no := 1; abstain := 0; total := 3 |}
  /\ length (votes_of 0 (three_ballots voting_db)) = 3%nat
  (* citizen 4 changes to yes, naming the proposal the vote is on *)
  /\ getVotes 0 restated_db
     = Json 200 {| yes := 3; no := 0; abstain := 0; total := 3 |}
  /\ length (votes_of 0 restated_db) = 3%nat.
Proof.
  destruct tally_counts_vote_records as [Hinv Hexample].
  assert (reachable counts_untouched (three_ballots voting_db)) as Hreach.
  { do 3 (apply reachable_handle; [|done]).
    apply reachable_handle; [apply reachable_empty | by cbn]. }
  assert (reachable counts_untouched restated_db) as Hrestated.
  { apply reachable_handle; [exact Hreach|]. split.
    - intros p v [= <-] Hv. vm_compute in Hv. by injection Hv as <-.
    - by exists "yes". }
  split; [|split; [|split]].
  - destruct (Hexample (citizen 1) (environment (Some "voting") None) 10%Z
                (citizen 2) (citizen 3) (citizen 4) 21%Z 22%Z 23%Z empty_db
                (reachable_empty _) eq_refl eq_refl eq_refl eq_refl eq_refl
                eq_refl ltac:(cbn; discriminate) ltac:(cbn; discriminate)
                ltac:(cbn; discriminate))
      as (P1 & HP1 & Hvotes).
    vm_compute in HP1. injection HP1 as <-. exact Hvotes.
  - destruct (Hinv _ Hreach) as [_ Htally].
    apply Nat2Z.inj. rewrite <- (Htally 0%N _ eq_refl). reflexivity.
  - by vm_compute.
  - destruct (Hinv _ Hrestated) as [_ Htally].
    apply Nat2Z.inj. rewrite <- (Htally 0%N _ eq_refl). reflexivity.
Defined.

(** Outside the amended statement: [updateVote] moves the counters before
    the new choice is validated.  When citizen 4 rewrites only the reason of
    the no vote, one is taken off "no" and added nowhere, while the three
    vote records stay. *)
Lemma updateVote_without_choice_drops_a_count :
  getVotes 0 (fst (updateVote (citizen 4) 3 reason_only 30%Z
                     (three_ballots voting_db)))
  = Json 200 {| yes := 2; no := 0; abstain := 0; total := 2 |}
  /\ length (votes_of 0 (fst (updateVote (citizen 4) 3 reason_only 30%Z
                                (three_ballots voting_db)))) = 3%nat.
Proof. split; by vm_compute. Qed.

(** ** Official responses (backend) *)

(** C7 does not hold as stated.  [createOfficialResponse] checks the
    proposal and the requester before it looks for an existing response:
    a citizen who asks for a second response on the answered proposal is
    turned down as not authorized (403), not with the duplicate error. *)
Lemma second_response_from_citizen_is_unauthorized :
  getOfficialResponse 0 answered_db
  = Json 200
      {| OfficialResponse._id := 4; OfficialResponse.proposal := 0;
         OfficialResponse.respondent := 9;
         OfficialResponse.status := "approved";
         OfficialResponse.isVerified := false;
         OfficialResponse.verificationProof := None;
         OfficialResponse.createdAt := 300%Z;
         OfficialResponse.updatedAt := 300%Z |}
  /\ createOfficialResponse (citizen 5) 0 (answer "rejected") None 400%Z
       answered_db
     = (answered_db,
        Next (ErrorResponse
                "Not authorized to provide official responses" 403)).
Proof. split; by vm_compute. Qed.

(** C7 (amended).  When a proposal already has an official response, a
    request to create another one always fails and leaves the store,
    hence the existing response, as it is.  The failure is "An official
    response already exists for this proposal" (400) when the proposal
    exists and the requester is a government official; a requester who is
    not gets "Not authorized to provide official responses" (403), and
    for a proposal that is not stored the answer is the 404. *)
Theorem second_official_response_rejected
    user proposalId body proof now db r :
  r ∈ officialResponses db ->
  OfficialResponse.proposal r = proposalId ->
  createOfficialResponse user proposalId body proof now db
  = (db,
     Next
       match proposals db !! proposalId with
       | None =>
           ErrorResponse
             ("No proposal found with id " +:+ pretty proposalId) 404
       | Some _ =>
           if isGovernmentOfficial user
           then ErrorResponse
                  "An official response already exists for this proposal" 400
           else ErrorResponse
                  "Not authorized to provide official responses" 403
       end).
Proof.
  intros Hr Hrp. unfold createOfficialResponse, Proposal_findById.
  destruct (OfficialResponse_findOne_Some _ _ _ Hr Hrp) as [r' Hr'].
  destruct (proposals db !! proposalId) as [p|]; [|done].
  destruct (isGovernmentOfficial user); cbn [negb]; [|done].
  by rewrite Hr'.
Qed.

Lemma second_official_response_rejected_witness :
  createOfficialResponse (official 8) 0 (answer "rejected") None 400%Z
    answered_db
  = (answered_db,
     Next (ErrorResponse
             "An official response already exists for this proposal" 400))
  /\ getOfficialResponse 0 answered_db
     = Json 200
         {| OfficialResponse._id := 4; OfficialResponse.proposal := 0;
            OfficialResponse.respondent := 9;
            OfficialResponse.status := "approved";
            OfficialResponse.isVerified := false;
            OfficialResponse.verificationProof := None;
            OfficialResponse.createdAt := 300%Z;
            OfficialResponse.updatedAt := 300%Z |}.
Proof.
  split; [|by vm_compute].
  rewrite (second_official_response_rejected (official 8) 0
             (answer "rejected") None 400%Z answered_db
             {| OfficialResponse._id := 4; OfficialResponse.proposal := 0;
                OfficialResponse.respondent := 9;
                OfficialResponse.status := "approved";
                OfficialResponse.isVerified := false;
                OfficialResponse.verificationProof := None;
                OfficialResponse.createdAt := 300%Z;
                OfficialResponse.updatedAt := 300%Z |});
    [|apply list_elem_of_In; vm_compute; by left|reflexivity].
  by vm_compute.
Defined.

(** C10.  [updateOfficialResponse] never changes a Proposal document.  The
    response returned by [findByIdAndUpdate] (with [new: true]) already
    carries the status of the request, so the comparison that guards the
    update of the proposal is false whenever the request supplies a status;
    after every call, successful or not, the proposals are as before. *)
Theorem updateOfficialResponse_leaves_proposals :
  (forall i b db db' r,
      OfficialResponse_findByIdAndUpdate i b db = inr (db', Some r) ->
      status_differs b r = false)
  /\ (forall user responseId body proof db,
        proposals (fst (updateOfficialResponse user responseId body proof db))
        = proposals db).
Proof.
  split.
  - intros i b db db' r H.
    by apply OfficialResponse_findByIdAndUpdate_Some in H as [? _].
  - intros. apply updateOfficialResponse_frame.
Qed.

Lemma updateOfficialResponse_leaves_proposals_witness :
  (* the response changes from approved to rejected ... *)
  OfficialResponse.status
    <$> OfficialResponse_findById 4
          (fst (updateOfficialResponse (official 9) 4 (answer "rejected") None
                  answered_db))
  = Some "rejected"
  (* ... and the proposal stays approved *)
  /\ Proposal.status
       <$> proposals
             (fst (updateOfficialResponse (official 9) 4 (answer "rejected")
                     None answered_db)) !! 0%N
     = Some "approved".
Proof.
  split; [by vm_compute|].
  rewrite (proj2 updateOfficialResponse_leaves_proposals).
  by vm_compute.
Defined.

End VoteCounts.

(** ** The audit log *)

Section AuditLog.
Import AuditTrail Scenario.

Lemma reachable_log4 : reachable log4.
Proof. do 4 apply reachable_exec. apply reachable_deploy. Qed.

(** C6.  [recordAudit] gives the new record the number of records stored
    before it as its id and appends it; so in every reachable state the
    record at position i has id i and ids increase strictly along the log;
    and no transaction, of the audit-trail contract or of the governance
    contract on its own trail, changes or removes a record once stored. *)
Theorem audit_ids_sequential_and_append_only :
  (forall env a t p h m s s' rid,
      recordAudit env a t p h m s = Ok (s', rid) ->
      rid = N.of_nat (length (auditRecords s))
      /\ auditRecords s' =
           auditRecords s ++
             [ {| id := rid; timestamp := block_timestamp env; actor := a;
                  actionType := t; proposalId := p; ipfsDataHash := h;
                  metadataHash := m |} ])
  /\ (forall s,
        reachable s ->
        (forall i r, auditRecords s !! i = Some r -> id r = N.of_nat i)
        /\ (forall i j ri rj,
              auditRecords s !! i = Some ri ->
              auditRecords s !! j = Some rj ->
              (i < j)%nat -> id ri < id rj))
  /\ (forall env c s i r,
        auditRecords s !! i = Some r ->
        auditRecords (exec env c s) !! i = Some r)
  /\ (forall this env c s i r,
        Governance.auditTrail s !! i = Some r ->
        Governance.auditTrail (Governance.exec this env c s) !! i = Some r).
Proof.
  split; [|split; [|split]].
  - intros env a t p h m s s' rid H.
    apply recordAudit_Ok in H as (Hid & Hrec & _). by split.
  - intros s Hs. split; [by apply reachable_ids|].
    intros i j ri rj Hi Hj Hlt.
    rewrite (reachable_ids s Hs i ri Hi), (reachable_ids s Hs j rj Hj). lia.
  - intros env c s i r H. destruct (exec_appends env c s) as [new ->].
    by apply lookup_app_l_Some.
  - intros this env c s i r H.
    destruct (exec_keeps_auditTrail this env c s) as [new ->].
    by apply lookup_app_l_Some.
Qed.

Lemma audit_ids_sequential_and_append_only_witness :
  (* the third record gets id 2 and lands at the end *)
  (exists s', recordAudit (sent contract 12) city 102 1 7 8 log3 = Ok (s', 2)
              /\ length (auditRecords s') = 3%nat)
  (* ids along the log *)
  /\ id <$> auditRecords log4 = [0; 1; 2]
  (* the first record is still there two transactions later *)
  /\ auditRecords log4 !! 0%nat = auditRecords log2 !! 0%nat.
Proof.
  destruct audit_ids_sequential_and_append_only
    as (Hrecord & Hids & Hkeep & _).
  split; [|split].
  - destruct (recordAudit (sent contract 12) city 102 1 7 8 log3)
      as [[s' rid]|] eqn:E; [|by vm_compute in E].
    destruct (Hrecord _ _ _ _ _ _ _ _ _ E) as [-> Hrec].
    exists s'. split; [reflexivity|].
    rewrite Hrec, length_app. reflexivity.
  - destruct (Hids log4 reachable_log4) as [Hpos _].
    assert (length (auditRecords log4) = 3%nat) as Hlen by reflexivity.
    destruct (auditRecords log4) as [|r0 [|r1 [|r2 [|]]]] eqn:E;
      try discriminate Hlen.
    cbn. f_equal; [|f_equal; [|f_equal]].
    + exact (Hpos 0%nat r0 eq_refl).
    + exact (Hpos 1%nat r1 eq_refl).
    + exact (Hpos 2%nat r2 eq_refl).
  - assert (is_Some (auditRecords log2 !! 0%nat)) as [r Hr]
      by (eexists; vm_compute; reflexivity).
    rewrite Hr.
    apply (Hkeep (sent contract 12) (RecordAudit city 102 1 7 8) log3).
    by apply (Hkeep (sent contract 11) (RecordAudit alice 101 1 7 8) log2).
Defined.

(** C8 does not hold as stated: [getAuditBatch] requires the start index
    to be below the number of records.  On the empty log a batch from
    index 0, and with three records stored a batch from index 3, is not
    the empty batch: the call reverts. *)
Lemma getAuditBatch_start_at_length_reverts :
  (reachable log0
   /\ getAuditCount log0 = 0
   /\ getAuditBatch 0 20 log0 = Revert (Require "Start index out of bounds"))
  /\ (reachable log4
      /\ getAuditCount log4 = 3
      /\ getAuditBatch 3 2 log4
         = Revert (Require "Start index out of bounds")).
Proof.
  split.
  - split; [apply reachable_deploy|]. split; by vm_compute.
  - split; [apply reachable_log4|]. split; by vm_compute.
Qed.

(** C8 (amended).  For a start index below the number of records, and a
    count with start + count within uint256, [getAuditBatch] returns the
    min(count, length - start) records stored from the start index on, in
    stored order, as five parallel arrays; for a start index at or beyond
    the number of records it reverts with "Start index out of bounds". *)
Theorem getAuditBatch_clamped_slice :
  (forall start count s,
      start < auditRecords_length s ->
      start + count <= MAX_UINT256 ->
      let n := N.min count (auditRecords_length s - start) in
      getAuditBatch start count s
      = Ok (columns (slice (N.to_nat start) (N.to_nat n) s))
      /\ length (slice (N.to_nat start) (N.to_nat n) s) = N.to_nat n)
  /\ (forall start count s,
        auditRecords_length s <= start ->
        getAuditBatch start count s
        = Revert (Require "Start index out of bounds")).
Proof.
  split.
  - intros start count s Hs Hmax n. split.
    + by apply getAuditBatch_in_range.
    + unfold auditRecords_length in *. unfold slice.
      rewrite length_take, length_drop. subst n. lia.
  - apply getAuditBatch_out_of_bounds.
Qed.

Lemma getAuditBatch_clamped_slice_witness :
  (* five records asked from index 1, two are there *)
  getAuditBatch 1 5 log4
  = Ok {| ids := [1; 2]; timestamps := [11; 12]; actors := [alice; city];
          actionTypes := [101; 102]; proposalIds := [1; 1] |}
  /\ getAuditBatch 7 1 log4 = Revert (Require "Start index out of bounds").
Proof.
  destruct getAuditBatch_clamped_slice as [Hin Hout].
  split.
  - destruct (Hin 1 5 log4) as [Hbatch _]; [by vm_compute..|].
    rewrite Hbatch. by vm_compute.
  - apply Hout. by vm_compute.
Defined.

(** Outside the amended statement: the clamp adds before it compares, so
    a count that does not fit next to the start index panics rather than
    being clamped. *)
Lemma getAuditBatch_overflowing_count_panics :
  getAuditBatch 1 MAX_UINT256 log4 = Revert (Panic 17).
Proof. by vm_compute. Qed.

(** C9.  A record with proposalId 0 is appended to the list of all
    records and to the index of its actor, and the per-proposal index is
    left as it is; in every reachable state [getProposalAudits(0)] is
    empty. *)
Theorem zero_proposalId_not_indexed :
  (forall env a t h m s s' rid,
      recordAudit env a t 0 h m s = Ok (s', rid) ->
      auditRecords s' =
        auditRecords s ++
          [ {| id := rid; timestamp := block_timestamp env; actor := a;
               actionType := t; proposalId := 0; ipfsDataHash := h;
               metadataHash := m |} ]
      /\ getUserAudits a s' = getUserAudits a s ++ [rid]
      /\ proposalAuditRecords s' = proposalAuditRecords s)
  /\ (forall s, reachable s -> getProposalAudits 0 s = []).
Proof.
  split.
  - intros env a t h m s s' rid H.
    apply recordAudit_Ok in H as (_ & -> & -> & Hu).
    unfold getUserAudits. rewrite Hu, index_at_push. done.
  - intros s Hs. unfold getProposalAudits, index_at.
    by rewrite reachable_no_zero_index.
Qed.

Lemma zero_proposalId_not_indexed_witness :
  (* the first record of the log has proposalId 0 ... *)
  proposalId <$> auditRecords log4 !! 0%nat = Some 0
  (* ... it is in alice's index, and in no proposal's *)
  /\ getUserAudits alice log2 = [0]
  /\ getProposalAudits 0 log4 = [].
Proof.
  destruct zero_proposalId_not_indexed as [Hrecord Hempty].
  split; [by vm_compute|]. split.
  - destruct (recordAudit (sent contract 10) alice 100 0 7 8 log1)
      as [[s' rid]|] eqn:E; [|by vm_compute in E].
    destruct (Hrecord _ _ _ _ _ _ _ _ E) as (_ & Hu & _).
    assert (log2 = s') as -> by (unfold log2, exec; cbn [call]; by rewrite E).
    rewrite Hu. vm_compute in E. by injection E as _ <-.
  - apply Hempty, reachable_log4.
Defined.

End AuditLog.

(** * Further properties

    What the code guarantees beyond the statements above: invariants of
    the governance ledger, the indexes of the audit log, the reads of the
    web3 client and the document store of the backend. *)

(** ** The governance ledger *)

Section GovernanceLedger.
Import Governance Scenario.

Variable this : address.

Lemma onlyAdmin_Ok env s u :
  onlyAdmin env s = Ok u -> msg_sender env = admin s.
Proof. intros H. apply require_Ok in H. by apply N.eqb_eq. Qed.

Lemma onlyVerifiedVoter_Ok env s u :
  onlyVerifiedVoter env s = Ok u -> msg_sender env ∈ verifiedVoters s.
Proof. intros H. apply require_Ok in H. by apply bool_decide_eq_true_1 in H. Qed.

Lemma valid_id_Ok i s m u :
  require ((i <=? proposalCount s) && (0 <? i)) m = Ok u ->
  exists_proposal s i.
Proof.
  intros H. apply require_Ok in H. apply andb_true_iff in H as [H1 H2].
  apply N.leb_le in H1. apply N.ltb_lt in H2. by split.
Qed.

Lemma checked_add_inv a b c :
  checked_add a b = Ok c -> c = a + b /\ a + b <= MAX_UINT256.
Proof.
  unfold checked_add. destruct (N.leb_spec (a + b) MAX_UINT256); [|done].
  intros [= <-]. done.
Qed.

Lemma call_inv env c s s' :
  call this env c s = Ok s' ->
  admin s' = admin s /\
  match c with
  | VerifyVoter v =>
      msg_sender env = admin s
      /\ proposalCount s' = proposalCount s
      /\ proposals s' = proposals s
      /\ verifiedVoters s' = {[v]} ∪ verifiedVoters s
      /\ auditTrail s' = auditTrail s ++ [audit v 0 "VOTER_VERIFIED" env]
  | UpdateProposalStatus i st d =>
      msg_sender env = admin s
      /\ exists_proposal s i
      /\ proposalCount s' = proposalCount s
      /\ verifiedVoters s' = verifiedVoters s
      /\ proposals s' =
           <[i := (if bool_decide (st = Implemented)
                   then set_implementationDetails d
                          (set_status st (proposal_at s i))
                   else set_status st (proposal_at s i))]> (proposals s)
      /\ auditTrail s' =
           auditTrail s ++ [audit (msg_sender env) i "STATUS_UPDATED" env]
  | CreateProposal t d h =>
      msg_sender env ∈ verifiedVoters s
      /\ proposalCount s + 1 <= MAX_UINT256
      /\ block_timestamp env + VOTING_PERIOD <= MAX_UINT256
      /\ proposalCount s' = proposalCount s + 1
      /\ verifiedVoters s' = verifiedVoters s
      /\ proposals s' =
           <[proposalCount s + 1 :=
               (let slot := proposal_at s (proposalCount s + 1) in
               {| id := proposalCount s + 1; title := t; description := d;
                  ipfsDocHash := h; creationTime := block_timestamp env;
                  votingEndTime := block_timestamp env + VOTING_PERIOD;
                  proposer := msg_sender env;
                  yesVotes := yesVotes slot; noVotes := noVotes slot;
                  status := Active;
                  implementationDetails := implementationDetails slot;
                  hasVoted := hasVoted slot |})]> (proposals s)
      /\ auditTrail s' =
           auditTrail s ++
             [audit (msg_sender env) (proposalCount s + 1)
                    "PROPOSAL_CREATED" env]
  | CastVote i b =>
      let p := proposal_at s i in
      msg_sender env ∈ verifiedVoters s
      /\ exists_proposal s i
      /\ block_timestamp env < votingEndTime p
      /\ status p = Active
      /\ (msg_sender env ∉ hasVoted p)
      /\ (if b then yesVotes p else noVotes p) + 1 <= MAX_UINT256
      /\ proposalCount s' = proposalCount s
      /\ verifiedVoters s' = verifiedVoters s
      /\ proposals s' =
           <[i := (let q := set_hasVoted ({[msg_sender env]} ∪ hasVoted p) p in
                   if b then set_yesVotes (yesVotes p + 1) q
                   else set_noVotes (noVotes p + 1) q)]> (proposals s)
      /\ auditTrail s' =
           auditTrail s ++
             [audit (msg_sender env) i
                    (if b then "VOTE_YES" else "VOTE_NO") env]
  | CheckProposalStatus i =>
      let p := proposal_at s i in
      proposalCount s' = proposalCount s
      /\ verifiedVoters s' = verifiedVoters s
      /\ (s' = s
          \/ (status p = Active
              /\ votingEndTime p <= block_timestamp env
              /\ proposals s' =
                   <[i := set_status
                            (if noVotes p <? yesVotes p
                             then Passed else Rejected) p]> (proposals s)
              /\ auditTrail s' =
                   auditTrail s ++ [audit this i "STATUS_UPDATED_AUTO" env]))
  end.
Proof.
  destruct c as [v|i st d|t d h|i b|i]; cbn [call].
  - unfold verifyVoter. intros H. step H. apply onlyAdmin_Ok in E.
    injection H as <-. done.
  - unfold updateProposalStatus. intros H. step H. step H.
    apply onlyAdmin_Ok in E. apply valid_id_Ok in E0. cbv zeta in H.
    injection H as <-. rewrite proposal_at_store_eq.
    destruct (bool_decide (st = Implemented)); cbn.
    + rewrite insert_insert_eq. done.
    + done.
  - unfold createProposal. intros H. step H. step H. cbv zeta in H. step H.
    apply onlyVerifiedVoter_Ok in E.
    apply checked_add_inv in E0 as [-> ?]. apply checked_add_inv in E1 as [-> ?].
    injection H as <-. done.
  - unfold castVote. intros H. do 2 step H. cbv zeta in H. do 3 step H.
    step H. injection H as <-.
    apply onlyVerifiedVoter_Ok in E. apply valid_id_Ok in E0.
    apply require_Ok in E1, E2, E3. apply N.ltb_lt in E1.
    apply bool_decide_eq_true_1 in E2. apply negb_true_iff in E3.
    apply bool_decide_eq_false_1 in E3.
    assert (votingEndTime (proposal_at a4 i) = votingEndTime (proposal_at s i))
      as Hend by (by apply recordVote_counts in E4 as (_ & _ & ?)).
    rewrite checkProposalStatus_open by (rewrite Hend; done).
    unfold recordVote in E4. cbv zeta in E4. step E4. injection E4 as <-.
    destruct b.
    + step E5. apply checked_add_inv in E4 as [-> ?]. injection E5 as <-. done.
    + step E5. apply checked_add_inv in E4 as [-> ?]. injection E5 as <-. done.
  - intros [= <-]. unfold checkProposalStatus. cbv zeta.
    destruct (bool_decide (status (proposal_at s i) = Active)) eqn:Hst; cbn [andb];
      [|by auto].
    destruct (N.leb_spec (votingEndTime (proposal_at s i)) (block_timestamp env));
      [|by auto].
    apply bool_decide_eq_true_1 in Hst.
    split; [by destruct (noVotes _ <? yesVotes _)|].
    split; [by destruct (noVotes _ <? yesVotes _)|].
    split; [by destruct (noVotes _ <? yesVotes _)|].
    right. by destruct (noVotes _ <? yesVotes _).
Qed.


Lemma proposal_at_insert s s' i p :
  proposals s' = <[i := p]> (proposals s) ->
  forall j, proposal_at s' j = if decide (j = i) then p else proposal_at s j.
Proof.
  intros H j. unfold proposal_at. rewrite H.
  destruct (decide (j = i)) as [->|Hne].
  - by rewrite lookup_insert_eq.
  - by rewrite lookup_insert_ne.
Qed.

Lemma proposal_at_same s s' :
  proposals s' = proposals s -> forall j, proposal_at s' j = proposal_at s j.
Proof. intros H j. unfold proposal_at. by rewrite H. Qed.

Lemma audits_of_snoc s s' r i a :
  auditTrail s' = auditTrail s ++ [r] ->
  length (audits_of i a s')
  = (length (audits_of i a s)
     + if bool_decide (proposalId r = i /\ action r = a) then 1 else 0)%nat.
Proof.
  intros H. unfold audits_of. rewrite H, filter_app, length_app. f_equal.
  case_bool_decide.
  - by rewrite (filter_singleton_True _ _ []).
  - by rewrite (filter_singleton_False _ _ []).
Qed.

Lemma audits_named_snoc s s' r a :
  auditTrail s' = auditTrail s ++ [r] ->
  length (audits_named a s')
  = (length (audits_named a s)
     + if bool_decide (action r = a) then 1 else 0)%nat.
Proof.
  intros H. unfold audits_named. rewrite H, filter_app, length_app. f_equal.
  case_bool_decide.
  - by rewrite (filter_singleton_True _ _ []).
  - by rewrite (filter_singleton_False _ _ []).
Qed.

Lemma chronological_snoc l r t :
  chronological l ->
  (forall x, x ∈ l -> timestamp x <= t) ->
  t <= timestamp r ->
  chronological (l ++ [r]).
Proof.
  intros Hl Hd Hr i j a b Hij Ha Hb.
  destruct (decide (j < length l)%nat) as [Hj|Hj].
  - rewrite lookup_app_l in Ha, Hb by lia. exact (Hl i j a b Hij Ha Hb).
  - rewrite lookup_app_r in Hb by lia.
    destruct (j - length l)%nat as [|k] eqn:Hk;
      [|by destruct k].
    injection Hb as <-.
    destruct (decide (i < length l)%nat) as [Hi|Hi].
    + rewrite lookup_app_l in Ha by lia.
      apply list_elem_of_lookup_2 in Ha. specialize (Hd _ Ha). lia.
    + rewrite lookup_app_r in Ha by lia.
      replace (i - length l)%nat with 0%nat in Ha by lia.
      injection Ha as <-. lia.
Qed.

Lemma trail_dated_snoc l r t now :
  (forall x, x ∈ l -> timestamp x <= t) ->
  t <= now -> timestamp r = now ->
  forall x, x ∈ l ++ [r] -> timestamp x <= now.
Proof.
  intros Hd Ht Hr x Hx. apply elem_of_app in Hx as [Hx|Hx].
  - specialize (Hd _ Hx). lia.
  - apply list_elem_of_singleton in Hx as ->. lia.
Qed.

Lemma ledger_mono t t' s : ledger t s -> t <= t' -> ledger t' s.
Proof.
  intros [] Ht. split; try done.
  - intros i Hi. destruct (proposals_stamped0 i Hi) as (? & ? & ? & ?).
    repeat split; try done. lia.
  - intros r Hr. specialize (trail_dated0 r Hr). lia.
Qed.

Lemma ledger_constructor env : ledger (block_timestamp env) (constructor env).
Proof.
  split; try done.
  - intros i [? ?]. cbn in *. lia.
  - intros r Hr. cbn in Hr. by apply elem_of_nil in Hr.
Qed.

Lemma ledger_call t s env c s' :
  ledger t s ->
  t <= block_timestamp env ->
  call this env c s = Ok s' ->
  ledger (block_timestamp env) s'.
Proof.
  intros Hl Ht Hc. pose proof (ledger_mono _ _ _ Hl Ht) as Hnow.
  apply call_inv in Hc as [_ Hc].
  destruct Hl as [Hblank Hstamp Hcount Hver Hlog Hplog Hdated Hord].
  destruct c as [v|i st d|ti d h|i b|i]; cbv zeta in Hc.
  - destruct Hc as (_ & Hn & Hp & Hv & Ha).
    pose proof (proposal_at_same _ _ Hp) as Hat.
    split.
    + intros j Hj. rewrite Hat. apply Hblank. unfold exists_proposal in *.
      by rewrite <- Hn.
    + intros j Hj. rewrite Hat, Hv. unfold exists_proposal in Hj.
      rewrite Hn in Hj. destruct (Hstamp j Hj) as (? & ? & ? & ?).
      repeat split; [done|done|lia|by apply elem_of_union_r].
    + intros j. rewrite Hat. apply Hcount.
    + intros j. rewrite Hat, Hv. etrans; [apply Hver|apply union_subseteq_r].
    + intros j. rewrite Hat, !(audits_of_snoc _ _ _ _ _ Ha). cbn.
      rewrite !bool_decide_eq_false_2 by (intros [_ ?]; discriminate).
      rewrite !Nat.add_0_r. apply Hlog.
    + rewrite Hn, (audits_named_snoc _ _ _ _ Ha). cbn. by rewrite Nat.add_0_r.
    + rewrite Ha. by eapply trail_dated_snoc.
    + rewrite Ha. eapply chronological_snoc; [done|done|done].
  - destruct Hc as (_ & Hi & Hn & Hv & Hp & Ha).
    pose proof (proposal_at_insert _ _ _ _ Hp) as Hat.
    assert (forall j, exists_proposal s' j <-> exists_proposal s j) as Hex
      by (intros j; unfold exists_proposal; by rewrite Hn).
    split.
    + intros j Hj. rewrite Hex in Hj. rewrite Hat.
      destruct (decide (j = i)) as [->|_]; [done|]. by apply Hblank.
    + intros j Hj. rewrite Hex in Hj. rewrite Hat, Hv.
      destruct (Hstamp j Hj) as (? & ? & ? & ?).
      destruct (decide (j = i)) as [->|_].
      * destruct (bool_decide (st = Implemented)); cbn;
          repeat split; first [done|lia].
      * repeat split; first [done|lia].
    + intros j. rewrite Hat. destruct (decide (j = i)) as [->|_]; [|done].
      specialize (Hcount i). by destruct (bool_decide (st = Implemented)).
    + intros j. rewrite Hat, Hv. destruct (decide (j = i)) as [->|_]; [|done].
      specialize (Hver i). by destruct (bool_decide (st = Implemented)).
    + intros j. rewrite !(audits_of_snoc _ _ _ _ _ Ha). cbn.
      rewrite !bool_decide_eq_false_2 by (intros [_ ?]; discriminate).
      rewrite !Nat.add_0_r, Hat. destruct (decide (j = i)) as [->|_]; [|done].
      specialize (Hlog i). by destruct (bool_decide (st = Implemented)).
    + rewrite Hn, (audits_named_snoc _ _ _ _ Ha). cbn. by rewrite Nat.add_0_r.
    + rewrite Ha. by eapply trail_dated_snoc.
    + rewrite Ha. eapply chronological_snoc; [done|done|done].
  - destruct Hc as (Hs & Hmax & Hend & Hn & Hv & Hp & Ha).
    pose proof (proposal_at_insert _ _ _ _ Hp) as Hat.
    assert (~ exists_proposal s (proposalCount s + 1)) as Hnew
      by (unfold exists_proposal; lia).
    pose proof (Hblank _ Hnew) as Hslot.
    split.
    + intros j Hj. rewrite Hat. destruct (decide _) as [->|Hne].
      * exfalso. apply Hj. unfold exists_proposal. lia.
      * apply Hblank. unfold exists_proposal in *. lia.
    + intros j Hj. rewrite Hat, Hv. destruct (decide _) as [->|Hne].
      * cbn. repeat split; first [done|lia].
      * assert (exists_proposal s j) as Hj'
          by (unfold exists_proposal in *; lia).
        destruct (Hstamp j Hj') as (? & ? & ? & ?).
        repeat split; first [done|lia].
    + intros j. rewrite Hat. destruct (decide _) as [->|Hne]; [|done].
      apply (Hcount (proposalCount s + 1)).
    + intros j. rewrite Hat, Hv. destruct (decide _) as [->|Hne]; [|done].
      apply (Hver (proposalCount s + 1)).
    + intros j. rewrite !(audits_of_snoc _ _ _ _ _ Ha). cbn.
      rewrite !bool_decide_eq_false_2 by (intros [_ ?]; discriminate).
      rewrite !Nat.add_0_r, Hat. destruct (decide _) as [->|Hne]; [|done].
      apply (Hlog (proposalCount s + 1)).
    + rewrite Hn, (audits_named_snoc _ _ _ _ Ha). cbn.
      rewrite bool_decide_eq_true_2 by done. lia.
    + rewrite Ha. by eapply trail_dated_snoc.
    + rewrite Ha. eapply chronological_snoc; [done|done|done].
  - destruct Hc as (Hs & Hi & Hopen & Hact & Hnv & Hmax & Hn & Hv & Hp & Ha).
    pose proof (proposal_at_insert _ _ _ _ Hp) as Hat.
    assert (forall j, exists_proposal s' j <-> exists_proposal s j) as Hex
      by (intros j; unfold exists_proposal; by rewrite Hn).
    split.
    + intros j Hj. rewrite Hex in Hj. rewrite Hat.
      destruct (decide (j = i)) as [->|_]; [done|]. by apply Hblank.
    + intros j Hj. rewrite Hex in Hj. rewrite Hat, Hv.
      destruct (Hstamp j Hj) as (? & ? & ? & ?).
      destruct (decide (j = i)) as [->|_].
      * destruct b; cbn; repeat split; first [done|lia].
      * repeat split; first [done|lia].
    + intros j. rewrite Hat. destruct (decide (j = i)) as [->|_]; [|done].
      specialize (Hcount i).
      assert (size ({[msg_sender env]} ∪ hasVoted (proposal_at s i))
              = S (size (hasVoted (proposal_at s i)))) as Hsize.
      { rewrite size_union by (by apply disjoint_singleton_l).
        by rewrite size_singleton. }
      destruct b; cbn; rewrite Hsize; lia.
    + intros j. rewrite Hat, Hv. destruct (decide (j = i)) as [->|_]; [|done].
      specialize (Hver i).
      destruct b; cbn; apply union_subseteq;
        (split; [by apply singleton_subseteq_l|done]).
    + intros j. rewrite !(audits_of_snoc _ _ _ _ _ Ha). cbn.
      rewrite Hat. specialize (Hlog j) as [Hy Hno].
      destruct (decide (j = i)) as [->|Hne].
      * destruct b; cbn.
        -- rewrite bool_decide_eq_true_2 by done.
           rewrite bool_decide_eq_false_2 by (intros [_ ?]; discriminate).
           lia.
        -- rewrite bool_decide_eq_false_2 by (intros [_ ?]; discriminate).
           rewrite bool_decide_eq_true_2 by done.
           lia.
      * rewrite !bool_decide_eq_false_2 by (intros [? _]; congruence). lia.
    + rewrite Hn, (audits_named_snoc _ _ _ _ Ha). cbn.
      rewrite bool_decide_eq_false_2 by (by destruct b). by rewrite Nat.add_0_r.
    + rewrite Ha. by eapply trail_dated_snoc.
    + rewrite Ha. eapply chronological_snoc; [done|done|done].
  - destruct Hc as (Hn & Hv & [->|(Hact & Hend & Hp & Ha)]); [done|].
    pose proof (proposal_at_insert _ _ _ _ Hp) as Hat.
    assert (forall j, exists_proposal s' j <-> exists_proposal s j) as Hex
      by (intros j; unfold exists_proposal; by rewrite Hn).
    split.
    + intros j Hj. rewrite Hex in Hj. rewrite Hat.
      destruct (decide (j = i)) as [->|_]; [|by apply Hblank].
      by apply Hblank.
    + intros j Hj. rewrite Hex in Hj. rewrite Hat, Hv.
      destruct (Hstamp j Hj) as (? & ? & ? & ?).
      destruct (decide (j = i)) as [->|_]; cbn; repeat split; first [done|lia].
    + intros j. rewrite Hat. destruct (decide (j = i)) as [->|_]; [|done].
      apply (Hcount i).
    + intros j. rewrite Hat, Hv. destruct (decide (j = i)) as [->|_]; [|done].
      apply (Hver i).
    + intros j. rewrite !(audits_of_snoc _ _ _ _ _ Ha). cbn.
      rewrite !bool_decide_eq_false_2 by (intros [_ ?]; discriminate).
      rewrite !Nat.add_0_r, Hat. destruct (decide (j = i)) as [->|_]; [|done].
      apply (Hlog i).
    + rewrite Hn, (audits_named_snoc _ _ _ _ Ha). cbn. by rewrite Nat.add_0_r.
    + rewrite Ha. by eapply trail_dated_snoc.
    + rewrite Ha. eapply chronological_snoc; [done|done|done].
Qed.

Lemma reachable_ledger t s : reachable this t s -> ledger t s.
Proof.
  induction 1 as [env|t s env c Hs IH Ht].
  - apply ledger_constructor.
  - unfold exec. destruct (call this env c s) as [s'|e] eqn:E.
    + by eapply ledger_call.
    + by eapply ledger_mono.
Qed.

End GovernanceLedger.

Section GovernanceRuns.
Import Governance Scenario.

Variable this : address.

Lemma exec_cases env c s :
  exec this env c s = s
  \/ exists s', call this env c s = Ok s' /\ exec this env c s = s'.
Proof.
  unfold exec. destruct (call this env c s) as [s'|e]; [right|by left].
  by exists s'.
Qed.

(** X1.  No transaction changes the admin or takes an address off the
    voter roll, and the only way onto the roll is a [verifyVoter] for that
    very address sent by the admin. *)
Theorem admin_fixed_and_voter_roll_grows env c s :
  let s' := exec this env c s in
  admin s' = admin s
  /\ verifiedVoters s ⊆ verifiedVoters s'
  /\ (forall v,
        v ∈ verifiedVoters s' -> v ∉ verifiedVoters s ->
        c = VerifyVoter v /\ msg_sender env = admin s).
Proof.
  cbv zeta. destruct (exec_cases env c s) as [->|(s' & Hc & ->)]; [done|].
  apply call_inv in Hc as [Ha Hc]. split; [done|].
  destruct c as [v|i st d|ti d h|i b|i]; cbv zeta in Hc.
  - destruct Hc as (Hs & _ & _ & -> & _). split; [apply union_subseteq_r|].
    intros w Hw Hn. apply elem_of_union in Hw as [Hw|Hw]; [|done].
    apply elem_of_singleton in Hw as ->. done.
  - destruct Hc as (_ & _ & _ & -> & _). done.
  - destruct Hc as (_ & _ & _ & _ & -> & _). done.
  - destruct Hc as (_ & _ & _ & _ & _ & _ & _ & -> & _). done.
  - destruct Hc as (_ & -> & _). done.
Qed.


(** X2.  Along every run of the contract, the yes and no counters of a
    proposal add up to the number of addresses marked as having voted on
    it, and each of these addresses is a verified voter: every ballot is
    counted exactly once. *)
Theorem every_ballot_counted_once t s :
  reachable this t s ->
  forall i,
    yesVotes (proposal_at s i) + noVotes (proposal_at s i)
    = N.of_nat (size (hasVoted (proposal_at s i)))
    /\ hasVoted (proposal_at s i) ⊆ verifiedVoters s.
Proof.
  intros Hs i. apply reachable_ledger in Hs.
  split; [apply (ballots_counted _ _ Hs)|apply (ballots_verified _ _ Hs)].
Qed.

Lemma createProposal_Ok env ttl d h s :
  msg_sender env ∈ verifiedVoters s ->
  proposalCount s < MAX_UINT256 ->
  block_timestamp env + VOTING_PERIOD <= MAX_UINT256 ->
  exists s', createProposal env ttl d h s = Ok s'.
Proof.
  intros Hv Hn Ht. unfold createProposal.
  rewrite (verified_true _ _ Hv). cbn [mbind result_bind].
  rewrite (checked_add_Ok (proposalCount s) 1) by lia. cbn [mbind result_bind].
  rewrite (checked_add_Ok (block_timestamp env) VOTING_PERIOD) by done.
  cbn [mbind result_bind]. by eexists.
Qed.

(** X3.  In a state reached by a run, [createProposal] from a verified
    voter succeeds unless a counter would overflow; it allocates the next
    id, and [getProposalBasicInfo] of that id returns the texts given, the
    sender as proposer, the block time as creation time, a deadline
    [VOTING_PERIOD] later, no votes and status Active; nobody has voted on
    it, and the existing proposals are as they were. *)
Theorem created_proposal_reads_back t s env ttl d h :
  reachable this t s ->
  msg_sender env ∈ verifiedVoters s ->
  proposalCount s < MAX_UINT256 ->
  block_timestamp env + VOTING_PERIOD <= MAX_UINT256 ->
  exists s',
    createProposal env ttl d h s = Ok s'
    /\ proposalCount s' = proposalCount s + 1
    /\ getProposalBasicInfo (proposalCount s') s' =
         Ok {| BasicInfo.title := ttl;
               BasicInfo.description := d;
               BasicInfo.ipfsDocHash := h;
               BasicInfo.creationTime := block_timestamp env;
               BasicInfo.votingEndTime := block_timestamp env + VOTING_PERIOD;
               BasicInfo.proposer := msg_sender env;
               BasicInfo.yesVotes := 0;
               BasicInfo.noVotes := 0;
               BasicInfo.status := Active |}
    /\ (forall v, hasVoted_view (proposalCount s') v s' = Ok false)
    /\ (forall j, exists_proposal s j -> proposal_at s' j = proposal_at s j).
Proof.
  intros Hs Hv Hn Ht.
  destruct (createProposal_Ok env ttl d h s Hv Hn Ht) as [s' Hc].
  exists s'. split; [done|].
  pose proof (call_inv this env (CreateProposal ttl d h) s s' Hc)
    as (_ & _ & _ & _ & Hcount & _ & Hp & _).
  pose proof (proposal_at_insert _ _ _ _ Hp) as Hat.
  apply reachable_ledger in Hs.
  assert (~ exists_proposal s (proposalCount s + 1)) as Hnew
    by (unfold exists_proposal; lia).
  pose proof (slots_blank _ _ Hs _ Hnew) as Hslot.
  assert (yesVotes (proposal_at s (proposalCount s + 1)) = 0
          /\ noVotes (proposal_at s (proposalCount s + 1)) = 0
          /\ hasVoted (proposal_at s (proposalCount s + 1)) = ∅)
    as (Hy & Hno & Hhv).
  { split; [|split];
      [exact (f_equal yesVotes Hslot)|exact (f_equal noVotes Hslot)
      |exact (f_equal hasVoted Hslot)]. }
  assert ((proposalCount s' <=? proposalCount s') && (0 <? proposalCount s')
          = true) as Hvalid.
  { apply valid_id_true. unfold exists_proposal. lia. }
  split; [done|]. split; [|split].
  - unfold getProposalBasicInfo. rewrite Hvalid. cbn [require mbind result_bind].
    rewrite Hcount, Hat. destruct (decide _) as [_|?]; [|done].
    cbn. by rewrite Hy, Hno.
  - intros v. unfold hasVoted_view. rewrite Hvalid.
    cbn [require mbind result_bind]. rewrite Hcount, Hat.
    destruct (decide _) as [_|?]; [|done]. cbn. rewrite Hhv.
    by rewrite bool_decide_eq_false_2 by apply not_elem_of_empty.
  - intros j Hj. rewrite Hat. destruct (decide _) as [->|?]; [|done].
    unfold exists_proposal in Hj. lia.
Qed.

Lemma same_identity_refl p : same_identity p p.
Proof. by repeat split. Qed.

(** X4.  No transaction removes a proposal or rewrites its id, title,
    description, document hash, creation time, voting deadline or
    proposer. *)
Theorem proposal_identity_is_fixed env c s i :
  exists_proposal s i ->
  exists_proposal (exec this env c s) i
  /\ same_identity (proposal_at s i) (proposal_at (exec this env c s) i).
Proof.
  intros Hi.
  destruct (exec_cases env c s) as [->|(s' & Hc & ->)];
    [split; [done|apply same_identity_refl]|].
  apply call_inv in Hc as [_ Hc].
  destruct c as [v|j st d|ti d h|j b|j]; cbv zeta in Hc.
  - destruct Hc as (_ & Hn & Hp & _).
    rewrite (proposal_at_same _ _ Hp). unfold exists_proposal. rewrite Hn.
    split; [done|apply same_identity_refl].
  - destruct Hc as (_ & _ & Hn & _ & Hp & _).
    rewrite (proposal_at_insert _ _ _ _ Hp). unfold exists_proposal.
    rewrite Hn. split; [done|].
    destruct (decide (i = j)) as [->|_]; [|apply same_identity_refl].
    by destruct (bool_decide (st = Implemented)); repeat split.
  - destruct Hc as (_ & _ & _ & Hn & _ & Hp & _).
    rewrite (proposal_at_insert _ _ _ _ Hp). unfold exists_proposal in *.
    rewrite Hn. split; [lia|].
    destruct (decide _) as [->|_]; [lia|apply same_identity_refl].
  - destruct Hc as (_ & _ & _ & _ & _ & _ & Hn & _ & Hp & _).
    rewrite (proposal_at_insert _ _ _ _ Hp). unfold exists_proposal.
    rewrite Hn. split; [done|].
    destruct (decide (i = j)) as [->|_]; [|apply same_identity_refl].
    by destruct b; repeat split.
  - destruct Hc as (Hn & _ & [->|(_ & _ & Hp & _)]);
      [split; [done|apply same_identity_refl]|].
    rewrite (proposal_at_insert _ _ _ _ Hp). unfold exists_proposal.
    rewrite Hn. split; [done|].
    destruct (decide (i = j)) as [->|_]; [|apply same_identity_refl].
    by repeat split.
Qed.

(** X5.  The counters and the voter set of a proposal change in one way
    only: by a [castVote] on that proposal from a verified voter who has
    not voted on it, while it exists, is Active and its deadline has not
    been reached; the change is one more vote on the chosen side and the
    sender marked as having voted. *)
Theorem ballots_change_only_by_open_vote env c s i :
  let p := proposal_at s i in
  let p' := proposal_at (exec this env c s) i in
  ballots p' <> ballots p ->
  exists b,
    c = CastVote i b
    /\ msg_sender env ∈ verifiedVoters s
    /\ exists_proposal s i
    /\ status p = Active
    /\ block_timestamp env < votingEndTime p
    /\ (msg_sender env ∉ hasVoted p)
    /\ ballots p' = (yesVotes p + (if b then 1 else 0),
                     noVotes p + (if b then 0 else 1),
                     {[msg_sender env]} ∪ hasVoted p).
Proof.
  cbv zeta. intros Hne.
  destruct (exec_cases env c s) as [E|(s' & Hc & E)]; rewrite E in Hne |- *;
    [done|].
  apply call_inv in Hc as [_ Hc].
  destruct c as [v|j st d|ti d h|j b|j]; cbv zeta in Hc.
  - destruct Hc as (_ & _ & Hp & _).
    by rewrite (proposal_at_same _ _ Hp) in Hne.
  - destruct Hc as (_ & _ & _ & _ & Hp & _).
    rewrite (proposal_at_insert _ _ _ _ Hp) in Hne.
    destruct (decide (i = j)) as [->|_]; [|done].
    by destruct (bool_decide (st = Implemented)).
  - destruct Hc as (_ & _ & _ & _ & _ & Hp & _).
    rewrite (proposal_at_insert _ _ _ _ Hp) in Hne.
    by destruct (decide _) as [->|_].
  - destruct Hc as (Hv & Hj & Hopen & Hact & Hnv & _ & _ & _ & Hp & _).
    rewrite (proposal_at_insert _ _ _ _ Hp) in Hne |- *.
    destruct (decide (i = j)) as [->|_]; [|done].
    exists b. do 6 (split; [done|]).
    destruct b; unfold ballots;
      cbn [yesVotes noVotes hasVoted set_yesVotes set_noVotes set_hasVoted];
      by rewrite N.add_0_r.
  - destruct Hc as (_ & _ & [->|(_ & _ & Hp & _)]); [done|].
    rewrite (proposal_at_insert _ _ _ _ Hp) in Hne.
    by destruct (decide (i = j)) as [->|_].
Qed.


(** X6.  [castVote] succeeds exactly when the sender is verified, the
    proposal exists, the deadline has not been reached, the status is
    Active, the sender has not voted and the chosen counter can still
    grow.  After a successful vote [hasVoted] answers true for the sender
    and as before for everyone else, and the proposal is still Active: the
    status check that ends [castVote] never closes it. *)
Theorem castVote_succeeds_iff env i b s :
  let p := proposal_at s i in
  ((exists s', castVote this env i b s = Ok s')
   <-> (msg_sender env ∈ verifiedVoters s
        /\ exists_proposal s i
        /\ block_timestamp env < votingEndTime p
        /\ status p = Active
        /\ (msg_sender env ∉ hasVoted p)
        /\ (if b then yesVotes p else noVotes p) < MAX_UINT256))
  /\ (forall s',
        castVote this env i b s = Ok s' ->
        hasVoted_view i (msg_sender env) s' = Ok true
        /\ (forall v, v <> msg_sender env ->
                      hasVoted_view i v s' = hasVoted_view i v s)
        /\ status (proposal_at s' i) = Active).
Proof.
  cbv zeta. split; [split|].
  - intros [s' Hc].
    pose proof (call_inv this env (CastVote i b) s s' Hc) as [_ H].
    cbv zeta in H. destruct H as (? & ? & ? & ? & ? & ? & _).
    do 5 (split; [done|]). lia.
  - intros (Hv & Hi & Hopen & Hact & Hnv & Hmax).
    unfold castVote. rewrite (verified_true _ _ Hv). cbn [mbind result_bind].
    rewrite (valid_id_true _ _ Hi). cbn [require mbind result_bind].
    apply N.ltb_lt in Hopen. rewrite Hopen. cbn [mbind result_bind].
    rewrite (bool_decide_eq_true_2 _ Hact). cbn [mbind result_bind].
    rewrite (bool_decide_eq_false_2 _ Hnv). cbn [negb mbind result_bind].
    unfold recordVote. cbv zeta. destruct b.
    + rewrite (checked_add_Ok (yesVotes _) 1) by (cbn; lia).
      cbn [mbind result_bind]. by eexists.
    + rewrite (checked_add_Ok (noVotes _) 1) by (cbn; lia).
      cbn [mbind result_bind]. by eexists.
  - intros s' Hc.
    pose proof (call_inv this env (CastVote i b) s s' Hc) as [_ H].
    cbv zeta in H.
    destruct H as (_ & Hi & _ & Hact & _ & _ & Hn & _ & Hp & _).
    pose proof (proposal_at_insert _ _ _ _ Hp i) as Hat.
    destruct (decide (i = i)) as [_|?]; [|done].
    assert (exists_proposal s' i) as Hi'
      by (unfold exists_proposal; by rewrite Hn).
    unfold hasVoted_view.
    rewrite (valid_id_true _ _ Hi), (valid_id_true _ _ Hi'), Hat.
    cbn [require mbind result_bind].
    split; [|split].
    + f_equal. apply bool_decide_eq_true_2.
      destruct b; cbn; apply elem_of_union_l; by apply elem_of_singleton.
    + intros v Hv. f_equal. apply bool_decide_ext.
      destruct b; cbn; rewrite elem_of_union, elem_of_singleton;
        (split; [by intros [?|?]|by right]).
    + by destruct b.
Qed.

(** X7.  Along every run with non-decreasing block times, the audit trail
    of the governance contract is in chronological order and no record is
    dated after the current block. *)
Theorem audit_trail_is_chronological t s :
  reachable this t s ->
  chronological (auditTrail s)
  /\ (forall r, r ∈ auditTrail s -> timestamp r <= t).
Proof.
  intros Hs. apply reachable_ledger in Hs.
  split; [apply (trail_ordered _ _ Hs)|apply (trail_dated _ _ Hs)].
Qed.

(** X8.  Along every run, the audit trail accounts for the counters: a
    proposal's [yesVotes] is the number of its VOTE_YES records, its
    [noVotes] the number of its VOTE_NO records, and [proposalCount] is
    the number of PROPOSAL_CREATED records. *)
Theorem audit_trail_accounts_for_ballots t s :
  reachable this t s ->
  (forall i,
      yesVotes (proposal_at s i)
      = N.of_nat (length (audits_of i "VOTE_YES" s))
      /\ noVotes (proposal_at s i)
         = N.of_nat (length (audits_of i "VOTE_NO" s)))
  /\ proposalCount s
     = N.of_nat (length (audits_named "PROPOSAL_CREATED" s)).
Proof.
  intros Hs. apply reachable_ledger in Hs.
  split; [apply (ballots_logged _ _ Hs)|apply (proposals_logged _ _ Hs)].
Qed.

(** X9.  A successful [verifyVoter], [updateProposalStatus],
    [createProposal] or [castVote] appends exactly one audit record,
    stamped with the block time: about the new voter, or about the
    proposal with the sender as user. *)
Theorem one_audit_record_per_transaction env c s s' :
  call this env c s = Ok s' ->
  (forall i, c <> CheckProposalStatus i) ->
  getAuditTrailLength s' = getAuditTrailLength s + 1
  /\ auditTrail s' =
       auditTrail s ++
         [ match c with
           | VerifyVoter v => audit v 0 "VOTER_VERIFIED" env
           | UpdateProposalStatus i _ _ =>
               audit (msg_sender env) i "STATUS_UPDATED" env
           | CreateProposal _ _ _ =>
               audit (msg_sender env) (proposalCount s + 1)
                     "PROPOSAL_CREATED" env
           | CastVote i b =>
               audit (msg_sender env) i
                     (if b then "VOTE_YES" else "VOTE_NO") env
           | CheckProposalStatus i =>
               audit this i "STATUS_UPDATED_AUTO" env
           end ].
Proof.
  intros Hc Hnot. apply call_inv in Hc as [_ Hc].
  assert (forall r, auditTrail s' = auditTrail s ++ [r] ->
                    getAuditTrailLength s' = getAuditTrailLength s + 1) as Hlen.
  { intros r Hr. unfold getAuditTrailLength. rewrite Hr, length_app. cbn. lia. }
  destruct c as [v|i st d|ti d h|i b|i]; cbv zeta in Hc.
  - destruct Hc as (_ & _ & _ & _ & Ha). split; [by eapply Hlen|done].
  - destruct Hc as (_ & _ & _ & _ & _ & Ha). split; [by eapply Hlen|done].
  - destruct Hc as (_ & _ & _ & _ & _ & _ & Ha). split; [by eapply Hlen|done].
  - destruct Hc as (_ & _ & _ & _ & _ & _ & _ & _ & _ & Ha).
    split; [by eapply Hlen|done].
  - by destruct (Hnot i).
Qed.

(** X10.  Once a proposal is no longer Active, nothing but the admin's
    [updateProposalStatus] changes anything about it: votes are refused
    and the automatic status check leaves it alone. *)
Theorem closed_proposal_is_final env c s i :
  exists_proposal s i ->
  status (proposal_at s i) <> Active ->
  is_updateProposalStatus c = false ->
  proposal_at (exec this env c s) i = proposal_at s i.
Proof.
  intros Hi Hclosed Hnot.
  destruct (exec_cases env c s) as [->|(s' & Hc & ->)]; [done|].
  apply call_inv in Hc as [_ Hc].
  destruct c as [v|j st d|ti d h|j b|j]; cbv zeta in Hc; try discriminate Hnot.
  - destruct Hc as (_ & _ & Hp & _). by rewrite (proposal_at_same _ _ Hp).
  - destruct Hc as (_ & _ & _ & _ & _ & Hp & _).
    rewrite (proposal_at_insert _ _ _ _ Hp).
    destruct (decide _) as [->|_]; [|done].
    unfold exists_proposal in Hi. lia.
  - destruct Hc as (_ & _ & _ & Hact & _ & _ & _ & _ & Hp & _).
    rewrite (proposal_at_insert _ _ _ _ Hp).
    by destruct (decide (i = j)) as [->|_].
  - destruct Hc as (_ & _ & [->|(Hact & _ & Hp & _)]); [done|].
    rewrite (proposal_at_insert _ _ _ _ Hp).
    by destruct (decide (i = j)) as [->|_].
Qed.

(** X11.  The implementation details of a proposal are written only by an
    [updateProposalStatus] of the admin on an existing proposal with the
    new status Implemented, which stores the details given. *)
Theorem implementationDetails_written_only_on_Implemented env c s i :
  let p := proposal_at s i in
  let p' := proposal_at (exec this env c s) i in
  implementationDetails p' <> implementationDetails p ->
  exists d,
    c = UpdateProposalStatus i Implemented d
    /\ msg_sender env = admin s
    /\ exists_proposal s i
    /\ implementationDetails p' = d
    /\ status p' = Implemented.
Proof.
  cbv zeta. intros Hne.
  destruct (exec_cases env c s) as [E|(s' & Hc & E)]; rewrite E in Hne |- *;
    [done|].
  apply call_inv in Hc as [_ Hc].
  destruct c as [v|j st d|ti d h|j b|j]; cbv zeta in Hc.
  - destruct Hc as (_ & _ & Hp & _).
    by rewrite (proposal_at_same _ _ Hp) in Hne.
  - destruct Hc as (Hadm & Hj & _ & _ & Hp & _).
    rewrite (proposal_at_insert _ _ _ _ Hp) in Hne |- *.
    destruct (decide (i = j)) as [->|_]; [|done].
    case_bool_decide as Hst; [|done]. subst st. by exists d.
  - destruct Hc as (_ & _ & _ & _ & _ & Hp & _).
    rewrite (proposal_at_insert _ _ _ _ Hp) in Hne.
    by destruct (decide _) as [->|_].
  - destruct Hc as (_ & _ & _ & _ & _ & _ & _ & _ & Hp & _).
    rewrite (proposal_at_insert _ _ _ _ Hp) in Hne.
    destruct (decide (i = j)) as [->|_]; [|done]. by destruct b.
  - destruct Hc as (_ & _ & [->|(_ & _ & Hp & _)]); [done|].
    rewrite (proposal_at_insert _ _ _ _ Hp) in Hne.
    by destruct (decide (i = j)) as [->|_].
Qed.

(** X12.  [proposalCount] changes only by a [createProposal] from a
    verified voter, which adds one and stores the sender as proposer of
    the new, highest id. *)
Theorem proposalCount_grows_only_by_createProposal env c s :
  let s' := exec this env c s in
  proposalCount s' <> proposalCount s ->
  exists ttl d h,
    c = CreateProposal ttl d h
    /\ msg_sender env ∈ verifiedVoters s
    /\ proposalCount s' = proposalCount s + 1
    /\ exists_proposal s' (proposalCount s')
    /\ proposer (proposal_at s' (proposalCount s')) = msg_sender env.
Proof.
  cbv zeta. intros Hne.
  destruct (exec_cases env c s) as [E|(s' & Hc & E)]; rewrite E in Hne |- *;
    [done|].
  apply call_inv in Hc as [_ Hc].
  destruct c as [v|j st d|ti d h|j b|j]; cbv zeta in Hc.
  - by destruct Hc as (_ & ? & _).
  - by destruct Hc as (_ & _ & ? & _).
  - destruct Hc as (Hv & _ & _ & Hn & _ & Hp & _).
    exists ti, d, h. do 3 (split; [done|]).
    split; [unfold exists_proposal; lia|].
    rewrite (proposal_at_insert _ _ _ _ Hp), Hn.
    by destruct (decide _).
  - by destruct Hc as (_ & _ & _ & _ & _ & _ & ? & _).
  - by destruct Hc as (? & _).
Qed.


End GovernanceRuns.

Section GovernanceExamples.
Import Governance Scenario.

Lemma reachable_verified : reachable contract 0 verified.
Proof.
  apply (reachable_exec contract 0 deployed (sent city 0)); [|done].
  apply (reachable_deploy contract (sent city 0)).
Qed.

Lemma reachable_voted_yes : reachable contract 11 voted_yes.
Proof.
  apply (reachable_exec contract 10 proposed (sent alice 11)); [|done].
  apply reachable_proposed.
Qed.

Lemma admin_fixed_and_voter_roll_grows_witness :
  admin verified = admin deployed
  /\ verifiedVoters deployed ⊆ verifiedVoters verified
  /\ VerifyVoter alice = VerifyVoter alice
  /\ msg_sender (sent city 0) = admin deployed.
Proof.
  destruct (admin_fixed_and_voter_roll_grows contract (sent city 0)
              (VerifyVoter alice) deployed) as (Ha & Hsub & Honly).
  split; [exact Ha|]. split; [exact Hsub|].
  apply (Honly alice).
  - apply elem_of_by_compute. by vm_compute.
  - apply not_elem_of_empty.
Defined.

Lemma every_ballot_counted_once_witness :
  yesVotes (proposal_at voted_yes 1) = 1
  /\ noVotes (proposal_at voted_yes 1) = 0
  /\ yesVotes (proposal_at voted_yes 1) + noVotes (proposal_at voted_yes 1)
     = N.of_nat (size (hasVoted (proposal_at voted_yes 1)))
  /\ hasVoted (proposal_at voted_yes 1) ⊆ verifiedVoters voted_yes.
Proof.
  split; [by vm_compute|]. split; [by vm_compute|].
  apply (every_ballot_counted_once contract 11 voted_yes reachable_voted_yes 1).
Defined.

Lemma created_proposal_reads_back_witness :
  exists s',
    createProposal (sent alice 10) "Bike lanes" "Protected lanes on Main St"
      "QmDoc" verified = Ok s'
    /\ proposalCount s' = 1
    /\ getProposalBasicInfo (proposalCount s') s' =
         Ok {| BasicInfo.title := "Bike lanes";
               BasicInfo.description := "Protected lanes on Main St";
               BasicInfo.ipfsDocHash := "QmDoc";
               BasicInfo.creationTime := 10;
               BasicInfo.votingEndTime := 10 + VOTING_PERIOD;
               BasicInfo.proposer := alice;
               BasicInfo.yesVotes := 0;
               BasicInfo.noVotes := 0;
               BasicInfo.status := Active |}
    /\ hasVoted_view (proposalCount s') alice s' = Ok false.
Proof.
  destruct (created_proposal_reads_back contract 0 verified (sent alice 10)
              "Bike lanes" "Protected lanes on Main St" "QmDoc"
              reachable_verified)
    as (s' & Hc & Hn & Hinfo & Hhv & _).
  - apply elem_of_by_compute. by vm_compute.
  - by vm_compute.
  - by vm_compute.
  - exists s'. split; [exact Hc|]. split; [exact Hn|].
    split; [exact Hinfo|exact (Hhv alice)].
Defined.

Lemma proposal_identity_is_fixed_witness :
  exists_proposal proposed 1
  /\ exists_proposal
       (exec contract (sent city 20)
          (UpdateProposalStatus 1 Implemented "Built") proposed) 1
  /\ same_identity (proposal_at proposed 1)
       (proposal_at
          (exec contract (sent city 20)
             (UpdateProposalStatus 1 Implemented "Built") proposed) 1).
Proof.
  assert (exists_proposal proposed 1) as H by (by vm_compute).
  split; [exact H|].
  exact (proposal_identity_is_fixed contract (sent city 20)
           (UpdateProposalStatus 1 Implemented "Built") proposed 1 H).
Defined.

Lemma ballots_change_only_by_open_vote_witness :
  exists b,
    CastVote 1 true = CastVote 1 b
    /\ alice ∈ verifiedVoters proposed
    /\ exists_proposal proposed 1
    /\ status (proposal_at proposed 1) = Active
    /\ 11 < votingEndTime (proposal_at proposed 1)
    /\ (alice ∉ hasVoted (proposal_at proposed 1))
    /\ ballots (proposal_at voted_yes 1)
       = (yesVotes (proposal_at proposed 1) + (if b then 1 else 0),
          noVotes (proposal_at proposed 1) + (if b then 0 else 1),
          {[alice]} ∪ hasVoted (proposal_at proposed 1)).
Proof.
  apply (ballots_change_only_by_open_vote contract (sent alice 11)
           (CastVote 1 true) proposed 1).
  intros H. apply (f_equal (fun x => fst (fst x))) in H.
  by vm_compute in H.
Defined.

Lemma castVote_succeeds_iff_witness :
  (exists s', castVote contract (sent alice 11) 1 true proposed = Ok s')
  /\ hasVoted_view 1 alice voted_yes = Ok true
  /\ hasVoted_view 1 bob voted_yes = hasVoted_view 1 bob proposed
  /\ status (proposal_at voted_yes 1) = Active.
Proof.
  destruct (castVote_succeeds_iff contract (sent alice 11) 1 true proposed)
    as [[_ Hif] Hthen].
  split.
  - apply Hif. split; [apply elem_of_by_compute; by vm_compute|].
    split; [by vm_compute|]. split; [by vm_compute|]. split; [by vm_compute|].
    split; [|by vm_compute].
    intros H. apply (bool_decide_eq_true_2 _) in H. by vm_compute in H.
  - assert (castVote contract (sent alice 11) 1 true proposed = Ok voted_yes)
      as Hc by (by vm_compute).
    destruct (Hthen voted_yes Hc) as (Hme & Hothers & Hst).
    split; [exact Hme|]. split; [|exact Hst].
    apply (Hothers bob). by vm_compute.
Defined.

Lemma audit_trail_is_chronological_witness :
  timestamp <$> auditTrail voted_yes = [0; 10; 11]
  /\ chronological (auditTrail voted_yes)
  /\ (forall r, r ∈ auditTrail voted_yes -> timestamp r <= 11).
Proof.
  split; [by vm_compute|].
  exact (audit_trail_is_chronological contract 11 voted_yes
           reachable_voted_yes).
Defined.

Lemma audit_trail_accounts_for_ballots_witness :
  action <$> auditTrail voted_yes
  = ["VOTER_VERIFIED"; "PROPOSAL_CREATED"; "VOTE_YES"]
  /\ (yesVotes (proposal_at voted_yes 1)
      = N.of_nat (length (audits_of 1 "VOTE_YES" voted_yes))
      /\ noVotes (proposal_at voted_yes 1)
         = N.of_nat (length (audits_of 1 "VOTE_NO" voted_yes)))
  /\ proposalCount voted_yes
     = N.of_nat (length (audits_named "PROPOSAL_CREATED" voted_yes)).
Proof.
  split; [by vm_compute|].
  destruct (audit_trail_accounts_for_ballots contract 11 voted_yes
              reachable_voted_yes) as [Hb Hp].
  split; [exact (Hb 1)|exact Hp].
Defined.

Lemma one_audit_record_per_transaction_witness :
  getAuditTrailLength voted_yes = getAuditTrailLength proposed + 1
  /\ auditTrail voted_yes =
       auditTrail proposed ++ [audit alice 1 "VOTE_YES" (sent alice 11)].
Proof.
  apply (one_audit_record_per_transaction contract (sent alice 11)
           (CastVote 1 true) proposed voted_yes).
  - by vm_compute.
  - intros i. discriminate.
Defined.

Lemma closed_proposal_is_final_witness :
  status (proposal_at closed 1) = Rejected
  /\ proposal_at
       (exec contract (sent alice (deadline + 1)) (CastVote 1 true) closed) 1
     = proposal_at closed 1
  /\ proposal_at
       (exec contract (sent bob (deadline + 1)) (CheckProposalStatus 1)
          closed) 1
     = proposal_at closed 1.
Proof.
  assert (exists_proposal closed 1) as Hi by (by vm_compute).
  assert (status (proposal_at closed 1) = Rejected) as Hst by (by vm_compute).
  assert (status (proposal_at closed 1) <> Active) as Hna
    by (rewrite Hst; discriminate).
  split; [exact Hst|]. split.
  - exact (closed_proposal_is_final contract (sent alice (deadline + 1))
             (CastVote 1 true) closed 1 Hi Hna eq_refl).
  - exact (closed_proposal_is_final contract (sent bob (deadline + 1))
             (CheckProposalStatus 1) closed 1 Hi Hna eq_refl).
Defined.

Lemma implementationDetails_written_only_on_Implemented_witness :
  exists d,
    UpdateProposalStatus 1 Implemented "Built"
    = UpdateProposalStatus 1 Implemented d
    /\ msg_sender (sent city 20) = admin proposed
    /\ exists_proposal proposed 1
    /\ implementationDetails
         (proposal_at
            (exec contract (sent city 20)
               (UpdateProposalStatus 1 Implemented "Built") proposed) 1) = d
    /\ status
         (proposal_at
            (exec contract (sent city 20)
               (UpdateProposalStatus 1 Implemented "Built") proposed) 1)
       = Implemented.
Proof.
  apply (implementationDetails_written_only_on_Implemented contract
           (sent city 20) (UpdateProposalStatus 1 Implemented "Built")
           proposed 1).
  by vm_compute.
Defined.

Lemma proposalCount_grows_only_by_createProposal_witness :
  exists ttl d h,
    CreateProposal "Bike lanes" "Protected lanes on Main St" "QmDoc"
    = CreateProposal ttl d h
    /\ alice ∈ verifiedVoters verified
    /\ proposalCount proposed = proposalCount verified + 1
    /\ exists_proposal proposed (proposalCount proposed)
    /\ proposer (proposal_at proposed (proposalCount proposed)) = alice.
Proof.
  apply (proposalCount_grows_only_by_createProposal contract (sent alice 10)
           (CreateProposal "Bike lanes" "Protected lanes on Main St" "QmDoc")
           verified).
  by vm_compute.
Defined.

End GovernanceExamples.

(** ** The audit log and its indexes *)

Section AuditIndexes.
Import AuditTrail Scenario.

Lemma index_at_push_ne k j v m :
  j <> k -> index_at (index_push k v m) j = index_at m j.
Proof. intros H. unfold index_at, index_push. by rewrite lookup_insert_ne. Qed.

Lemma index_at_push_cases k j v m :
  index_at (index_push k v m) j
  = index_at m j ++ (if decide (j = k) then [v] else []).
Proof.
  destruct (decide (j = k)) as [->|H].
  - apply index_at_push.
  - by rewrite index_at_push_ne, app_nil_r.
Qed.

Lemma filter_snoc_id {A} (P : A -> Prop) `{!forall x, Decision (P x)}
    (l : list A) (x : A) (f : A -> N) :
  f <$> filter P (l ++ [x])
  = (f <$> filter P l) ++ (if decide (P x) then [f x] else []).
Proof.
  rewrite filter_app, fmap_app. f_equal.
  destruct (decide (P x)).
  - by rewrite (filter_singleton_True _ _ []).
  - by rewrite (filter_singleton_False _ _ []).
Qed.

(** The two indexes along a run. *)
Lemma reachable_indexes s :
  reachable s ->
  (forall a, index_at (userAuditRecords s) a
             = id <$> filter (fun r => actor r = a) (auditRecords s))
  /\ (forall p, 0 < p ->
                index_at (proposalAuditRecords s) p
                = id <$> filter (fun r => proposalId r = p) (auditRecords s)).
Proof.
  induction 1 as [env|s env c Hs [IHu IHp]]; [by split|].
  unfold exec. destruct (call env c s) as [s'|e] eqn:E; [|by split].
  destruct c as [g|a t p h m]; cbn [call] in E.
  - unfold setGovernanceContract in E. step E. step E. injection E as <-.
    by split.
  - step E. destruct a0 as [s1 rid]. injection E as <-. cbn [fst].
    apply recordAudit_Ok in E0 as (-> & Hrec & Hbp & Hbu).
    split.
    + intros b. rewrite Hbu, Hrec, index_at_push_cases, filter_snoc_id, IHu.
      cbn [actor id]. f_equal.
      destruct (decide (b = a)) as [->|Hne].
      * by rewrite decide_True.
      * by rewrite decide_False by congruence.
    + intros q Hq. rewrite Hbp, Hrec, filter_snoc_id. cbn [proposalId id].
      destruct (N.ltb_spec 0 p) as [Hp|Hp].
      * rewrite index_at_push_cases, IHp by done. f_equal.
        destruct (decide (q = p)) as [->|Hne].
        -- by rewrite decide_True.
        -- by rewrite decide_False by congruence.
      * rewrite IHp by done. rewrite decide_False by lia.
        by rewrite app_nil_r.
Qed.

(** X13.  Along every run of the audit-trail contract, [getUserAudits]
    returns exactly the ids of the records whose actor is the given
    address, and [getProposalAudits], for a proposal id above zero, exactly
    the ids of the records about that proposal, both in the order
    recorded. *)
Theorem indexes_list_the_matching_records s :
  reachable s ->
  (forall a, getUserAudits a s
             = id <$> filter (fun r => actor r = a) (auditRecords s))
  /\ (forall p, 0 < p ->
                getProposalAudits p s
                = id <$> filter (fun r => proposalId r = p) (auditRecords s)).
Proof. apply reachable_indexes. Qed.

Lemma getAuditDetails_lookup rid s r :
  auditRecords s !! N.to_nat rid = Some r ->
  getAuditDetails rid s = Ok (details r).
Proof.
  intros H. unfold getAuditDetails, auditRecords_length.
  apply lookup_lt_Some in H as Hlt.
  destruct (N.ltb_spec rid (N.of_nat (length (auditRecords s)))); [|lia].
  cbn [require mbind result_bind]. by rewrite H.
Qed.

(** X14.  After a successful [recordAudit], [getAuditCount] is one
    higher, [getAuditDetails] of the returned id gives back what was
    recorded, the details of every earlier id read as before, and the id
    one past the last is refused as "Invalid record ID". *)
Theorem recorded_audit_reads_back env a t p h m s s' rid :
  recordAudit env a t p h m s = Ok (s', rid) ->
  getAuditCount s' = getAuditCount s + 1
  /\ getAuditDetails rid s' =
       Ok {| Details.timestamp := block_timestamp env;
             Details.actor := a; Details.actionType := t;
             Details.proposalId := p; Details.ipfsDataHash := h;
             Details.metadataHash := m |}
  /\ (forall k, k < getAuditCount s ->
                getAuditDetails k s' = getAuditDetails k s)
  /\ getAuditDetails (getAuditCount s') s'
     = Revert (Require "Invalid record ID").
Proof.
  intros H. apply recordAudit_Ok in H as (-> & Hrec & _).
  unfold getAuditCount, auditRecords_length.
  split; [rewrite Hrec, length_app; cbn; lia|]. split; [|split].
  - rewrite (getAuditDetails_lookup _ _
               {| id := auditRecords_length s;
                  timestamp := block_timestamp env; actor := a;
                  actionType := t; proposalId := p; ipfsDataHash := h;
                  metadataHash := m |}); [done|].
    rewrite Hrec. unfold auditRecords_length. rewrite Nat2N.id.
    by rewrite lookup_app_r, Nat.sub_diag by lia.
  - intros k Hk. unfold getAuditDetails, auditRecords_length.
    rewrite Hrec, length_app. cbn [length].
    destruct (N.ltb_spec k (N.of_nat (length (auditRecords s) + 1))); [|lia].
    destruct (N.ltb_spec k (N.of_nat (length (auditRecords s)))); [|lia].
    cbn [require mbind result_bind]. by rewrite lookup_app_l by lia.
  - unfold getAuditDetails, auditRecords_length. by rewrite N.ltb_irrefl.
Qed.


Lemma getAuditDetails_each_stored hexToUtf8 parseInt s
    (l : list AuditRecord) :
  (forall r, r ∈ l -> auditRecords s !! N.to_nat (id r) = Some r) ->
  BlockchainService.getAuditDetails_each hexToUtf8 parseInt (id <$> l) s
  = BlockchainService.decoded
      (mapM (BlockchainService.audit_entry_of hexToUtf8 parseInt) l).
Proof.
  induction l as [|r l IH]; intros H; [done|].
  cbn [fmap list_fmap BlockchainService.getAuditDetails_each].
  rewrite (getAuditDetails_lookup _ _ r) by (apply H; left).
  change (list_fmap AuditRecord uint256 id l) with (id <$> l).
  rewrite IH by (intros x Hx; apply H; by right).
  change (BlockchainService.audit_entry hexToUtf8 parseInt (id r) (details r))
    with (BlockchainService.audit_entry_of hexToUtf8 parseInt r).
  cbn [mapM].
  destruct (BlockchainService.audit_entry_of hexToUtf8 parseInt r);
    [|done].
  cbn [mbind option_bind].
  by destruct (mapM (BlockchainService.audit_entry_of hexToUtf8 parseInt) l).
Qed.

Lemma reachable_stored s (P : AuditRecord -> Prop)
    `{!forall x, Decision (P x)} :
  reachable s ->
  forall r, r ∈ filter P (auditRecords s) ->
            auditRecords s !! N.to_nat (id r) = Some r.
Proof.
  intros Hs r Hr. apply list_elem_of_filter in Hr as [_ Hr].
  apply list_elem_of_lookup_1 in Hr as [i Hi].
  by rewrite (reachable_ids s Hs i r Hi), Nat2N.id.
Qed.

(** X15.  On every state reached by a run, no contract call of the
    client's [getUserAuditTrail] and [getProposalAuditTrail] reverts: the
    read is rejected only when the action type of one of the records of
    the account, respectively of the proposal, does not decode as UTF-8;
    otherwise it returns the objects built from exactly these records,
    in the order recorded (none for proposal id zero). *)
Theorem audit_trails_fetch_the_matching_records
    hexToUtf8 parseInt account s :
  reachable s ->
  BlockchainService.getUserAuditTrail account hexToUtf8 parseInt s
  = BlockchainService.decoded
      (mapM (BlockchainService.audit_entry_of hexToUtf8 parseInt)
         (filter (fun r => actor r = account) (auditRecords s)))
  /\ (forall p, 0 < p ->
                BlockchainService.getProposalAuditTrail hexToUtf8 parseInt p s
                = BlockchainService.decoded
                    (mapM (BlockchainService.audit_entry_of hexToUtf8 parseInt)
                       (filter (fun r => proposalId r = p) (auditRecords s))))
  /\ BlockchainService.getProposalAuditTrail hexToUtf8 parseInt 0 s = inr [].
Proof.
  intros Hs. destruct (reachable_indexes s Hs) as [Hu Hp].
  unfold BlockchainService.getUserAuditTrail,
    BlockchainService.getProposalAuditTrail, getUserAudits, getProposalAudits.
  split; [|split].
  - rewrite Hu. apply getAuditDetails_each_stored. by apply reachable_stored.
  - intros p Hpos. rewrite (Hp p Hpos).
    apply getAuditDetails_each_stored. by apply reachable_stored.
  - unfold index_at.
    match goal with
    | |- context [default [] ?x] =>
        assert (x = None) as -> by exact (reachable_no_zero_index s Hs)
    end.
    done.
Qed.

Lemma lookup_map {A B} (f : A -> B) (l : list A) i :
  map f l !! i = f <$> l !! i.
Proof. revert i. induction l as [|x l IH]; intros [|i]; cbn; auto. Qed.

Lemma recent_entry_columns hexToUtf8 parseInt rs i r :
  rs !! i = Some r ->
  BlockchainService.recent_entry hexToUtf8 parseInt (columns rs) i
  = BlockchainService.recent_entry_of hexToUtf8 parseInt r.
Proof.
  intros H. unfold BlockchainService.recent_entry,
    BlockchainService.recent_entry_of, columns.
  cbn [ids timestamps actors actionTypes proposalIds].
  by rewrite !lookup_map, H.
Qed.

Lemma getRecentAuditRecords_loop_columns hexToUtf8 parseInt rs n :
  forall i,
    (i + n = length rs)%nat ->
    BlockchainService.getRecentAuditRecords_loop hexToUtf8 parseInt n i
      (columns rs)
    = BlockchainService.decoded
        (mapM (BlockchainService.recent_entry_of hexToUtf8 parseInt)
           (drop i rs)).
Proof.
  induction n as [|n IH]; intros i Hi.
  - by rewrite drop_ge by lia.
  - destruct (lookup_lt_is_Some_2 rs i) as [r Hr]; [lia|].
    cbn [BlockchainService.getRecentAuditRecords_loop].
    rewrite (recent_entry_columns _ _ _ _ _ Hr), (drop_S _ _ _ Hr).
    cbn [mapM].
    destruct (BlockchainService.recent_entry_of hexToUtf8 parseInt r);
      [|done].
    cbn [mbind option_bind]. rewrite IH by lia.
    by destruct (mapM _ (drop (S i) rs)).
Qed.

(** The batch [getRecentAuditRecords] asks for. *)
Lemma getAuditBatch_recent count s :
  count <= MAX_UINT256 ->
  getAuditCount s <= MAX_UINT256 ->
  0 < count ->
  0 < getAuditCount s ->
  getAuditBatch
    (Z.to_N (Z.max 0 (Z.of_N (getAuditCount s) - Z.of_N count))) count s
  = Ok (columns (drop (length (auditRecords s) - N.to_nat count)
                      (auditRecords s))).
Proof.
  intros Hc Hn Hpos Hne.
  unfold getAuditCount in *. unfold auditRecords_length in *.
  set (len := length (auditRecords s)) in *.
  destruct (decide (count <= N.of_nat len)) as [Hle|Hgt].
  - replace (Z.to_N (Z.max 0 (Z.of_N (N.of_nat len) - Z.of_N count)))
      with (N.of_nat len - count) by lia.
    rewrite getAuditBatch_in_range
      by (unfold auditRecords_length; fold len; lia).
    cbv zeta. unfold auditRecords_length. fold len. do 2 f_equal.
    unfold slice.
    replace (N.to_nat (N.of_nat len - count))
      with (len - N.to_nat count)%nat by lia.
    apply take_ge. rewrite length_drop. fold len. lia.
  - replace (Z.to_N (Z.max 0 (Z.of_N (N.of_nat len) - Z.of_N count)))
      with 0 by lia.
    rewrite getAuditBatch_in_range
      by (unfold auditRecords_length; fold len; lia).
    cbv zeta. unfold auditRecords_length. fold len. do 2 f_equal.
    unfold slice.
    replace (len - N.to_nat count)%nat with 0%nat by lia.
    apply take_ge. rewrite length_drop. fold len. lia.
Qed.

(** X16.  The client's [getRecentAuditRecords] is rejected with "Start
    index out of bounds" when the log is empty or [count] is zero, and
    with the UTF-8 error when the action type of one of the last [count]
    records (of all records, when fewer are stored) does not decode;
    otherwise it returns the objects built from exactly these records,
    in the order recorded. *)
Theorem recent_audit_records_are_the_last hexToUtf8 parseInt count s :
  count <= MAX_UINT256 ->
  getAuditCount s <= MAX_UINT256 ->
  BlockchainService.getRecentAuditRecords hexToUtf8 parseInt count s
  = if (0 <? count) && (0 <? getAuditCount s)
    then BlockchainService.decoded
           (mapM (BlockchainService.recent_entry_of hexToUtf8 parseInt)
              (drop (length (auditRecords s) - N.to_nat count)
                    (auditRecords s)))
    else inl (BlockchainService.Reverted
                (Require "Start index out of bounds")).
Proof.
  intros Hc Hn. unfold BlockchainService.getRecentAuditRecords. cbv zeta.
  destruct (N.ltb_spec 0 count) as [Hpos|Hzero]; cbn [andb].
  - destruct (N.ltb_spec 0 (getAuditCount s)) as [Hne|He].
    + rewrite (getAuditBatch_recent count s Hc Hn Hpos Hne).
      set (rs := drop _ (auditRecords s)).
      assert (length (ids (columns rs)) = length rs) as ->
        by (unfold columns; cbn [ids]; apply length_map).
      by rewrite (getRecentAuditRecords_loop_columns _ _ rs (length rs) 0%nat).
    + rewrite getAuditBatch_out_of_bounds; [done|].
      unfold getAuditCount in *. lia.
  - rewrite getAuditBatch_out_of_bounds; [done|].
    unfold getAuditCount, auditRecords_length in *. lia.
Qed.

(** X17.  No transaction of the audit-trail contract changes its admin;
    records are added only by [recordAudit] sent from the registered
    governance contract; the registered address changes only by the
    admin's [setGovernanceContract], and once set it is never zero. *)
Theorem audit_log_writers env c s :
  let s' := exec env c s in
  admin s' = admin s
  /\ (auditRecords s' <> auditRecords s ->
      msg_sender env = governanceContract s
      /\ exists a t p h m, c = RecordAudit a t p h m)
  /\ (governanceContract s' <> governanceContract s ->
      msg_sender env = admin s
      /\ c = SetGovernanceContract (governanceContract s'))
  /\ (governanceContract s <> 0 -> governanceContract s' <> 0).
Proof.
  cbv zeta. unfold exec. destruct (call env c s) as [s'|e] eqn:E; [|done].
  destruct c as [g|a t p h m]; cbn [call] in E.
  - unfold setGovernanceContract in E. step E. step E. injection E as <-.
    apply require_Ok in E0, E1. apply N.eqb_eq in E0.
    apply negb_true_iff, N.eqb_neq in E1. cbn.
    split; [done|]. split; [done|]. split; [done|]. done.
  - step E. destruct a0 as [s1 rid]. injection E as <-. cbn [fst].
    unfold recordAudit in E0. step E0. injection E0 as <- _.
    apply require_Ok, N.eqb_eq in E. cbn.
    split; [done|]. split; [|done]. intros _. split; [done|]. by eauto 10.
Qed.


Lemma indexes_list_the_matching_records_witness :
  getUserAudits alice log4 = [0; 1]
  /\ getProposalAudits 1 log4 = [1; 2]
  /\ getUserAudits alice log4
     = id <$> filter (fun r => actor r = alice) (auditRecords log4)
  /\ getProposalAudits 1 log4
     = id <$> filter (fun r => proposalId r = 1) (auditRecords log4).
Proof.
  destruct (indexes_list_the_matching_records log4 reachable_log4)
    as [Hu Hp].
  split; [by vm_compute|]. split; [by vm_compute|].
  split; [exact (Hu alice)|]. apply (Hp 1). by vm_compute.
Defined.

Lemma recorded_audit_reads_back_witness :
  getAuditCount log4 = getAuditCount log3 + 1
  /\ getAuditDetails 2 log4 =
       Ok {| Details.timestamp := 12; Details.actor := city;
             Details.actionType := 102; Details.proposalId := 1;
             Details.ipfsDataHash := 7; Details.metadataHash := 8 |}
  /\ getAuditDetails 0 log4 = getAuditDetails 0 log3
  /\ getAuditDetails (getAuditCount log4) log4
     = Revert (Require "Invalid record ID").
Proof.
  assert (recordAudit (sent contract 12) city 102 1 7 8 log3 = Ok (log4, 2))
    as H by (by vm_compute).
  destruct (recorded_audit_reads_back _ _ _ _ _ _ _ _ _ H)
    as (Hn & Hnew & Hold & Hout).
  split; [exact Hn|]. split; [exact Hnew|]. split; [|exact Hout].
  apply (Hold 0). by vm_compute.
Defined.

Lemma reachable_log5 : reachable log5.
Proof. apply reachable_exec, reachable_log4. Qed.

Lemma audit_trails_fetch_the_matching_records_witness :
  BlockchainService.getUserAuditTrail alice utf8 Z.of_N log5
  = inr [ {| BlockchainService.AuditEntry.id := 0;
             BlockchainService.AuditEntry.timestamp := Some 10000%Z;
             BlockchainService.AuditEntry.actor := alice;
             BlockchainService.AuditEntry.actionType := "VOTER_VERIFIED";
             BlockchainService.AuditEntry.proposalId := 0;
             BlockchainService.AuditEntry.ipfsDataHash := 7;
             BlockchainService.AuditEntry.metadataHash := 8 |};
          {| BlockchainService.AuditEntry.id := 1;
             BlockchainService.AuditEntry.timestamp := Some 11000%Z;
             BlockchainService.AuditEntry.actor := alice;
             BlockchainService.AuditEntry.actionType := "PROPOSAL_CREATED";
             BlockchainService.AuditEntry.proposalId := 1;
             BlockchainService.AuditEntry.ipfsDataHash := 7;
             BlockchainService.AuditEntry.metadataHash := 8 |} ]
  /\ BlockchainService.getUserAuditTrail bob utf8 Z.of_N log5
     = inl BlockchainService.Utf8Error
  /\ BlockchainService.getProposalAuditTrail utf8 Z.of_N 1 log5
     = inr [ {| BlockchainService.AuditEntry.id := 1;
                BlockchainService.AuditEntry.timestamp := Some 11000%Z;
                BlockchainService.AuditEntry.actor := alice;
                BlockchainService.AuditEntry.actionType := "PROPOSAL_CREATED";
                BlockchainService.AuditEntry.proposalId := 1;
                BlockchainService.AuditEntry.ipfsDataHash := 7;
                BlockchainService.AuditEntry.metadataHash := 8 |};
             {| BlockchainService.AuditEntry.id := 2;
                BlockchainService.AuditEntry.timestamp := Some 12000%Z;
                BlockchainService.AuditEntry.actor := city;
                BlockchainService.AuditEntry.actionType := "VOTE_YES";
                BlockchainService.AuditEntry.proposalId := 1;
                BlockchainService.AuditEntry.ipfsDataHash := 7;
                BlockchainService.AuditEntry.metadataHash := 8 |} ]
  /\ BlockchainService.getProposalAuditTrail utf8 Z.of_N 2 log5
     = inl BlockchainService.Utf8Error
  /\ BlockchainService.getProposalAuditTrail utf8 Z.of_N 0 log5 = inr [].
Proof.
  destruct (audit_trails_fetch_the_matching_records utf8 Z.of_N alice log5
              reachable_log5) as (Ha & Hp & H0).
  destruct (audit_trails_fetch_the_matching_records utf8 Z.of_N bob log5
              reachable_log5) as (Hb & _ & _).
  split; [by rewrite Ha|]. split; [by rewrite Hb|].
  split; [by rewrite (Hp 1)|]. split; [by rewrite (Hp 2)|exact H0].
Defined.

Lemma recent_audit_records_are_the_last_witness :
  BlockchainService.getRecentAuditRecords utf8 Z.of_N 2 log4
  = inr [ {| BlockchainService.RecentEntry.id := Some 1%Z;
             BlockchainService.RecentEntry.timestamp := Some 11000%Z;
             BlockchainService.RecentEntry.actor := Some alice;
             BlockchainService.RecentEntry.actionType := "PROPOSAL_CREATED";
             BlockchainService.RecentEntry.proposalId := Some 1%Z |};
          {| BlockchainService.RecentEntry.id := Some 2%Z;
             BlockchainService.RecentEntry.timestamp := Some 12000%Z;
             BlockchainService.RecentEntry.actor := Some city;
             BlockchainService.RecentEntry.actionType := "VOTE_YES";
             BlockchainService.RecentEntry.proposalId := Some 1%Z |} ]
  /\ length (auditRecords log4) = 3%nat
  /\ BlockchainService.getRecentAuditRecords utf8 Z.of_N 20 log4
     = BlockchainService.decoded
         (mapM (BlockchainService.recent_entry_of utf8 Z.of_N)
            (auditRecords log4))
  /\ BlockchainService.getRecentAuditRecords utf8 Z.of_N 1 log5
     = inl BlockchainService.Utf8Error
  /\ BlockchainService.getRecentAuditRecords utf8 Z.of_N 20 log0
     = inl (BlockchainService.Reverted
              (Require "Start index out of bounds")).
Proof.
  split; [|split; [by vm_compute|split; [|split]]].
  - by rewrite (recent_audit_records_are_the_last utf8 Z.of_N 2 log4)
      by (by vm_compute).
  - by rewrite (recent_audit_records_are_the_last utf8 Z.of_N 20 log4)
      by (by vm_compute).
  - by rewrite (recent_audit_records_are_the_last utf8 Z.of_N 1 log5)
      by (by vm_compute).
  - by rewrite (recent_audit_records_are_the_last utf8 Z.of_N 20 log0)
      by (by vm_compute).
Defined.

Lemma audit_log_writers_witness :
  admin log2 = admin log1
  /\ msg_sender (sent contract 10) = governanceContract log1
  /\ msg_sender (sent city 0) = admin log0
  /\ governanceContract log2 <> 0.
Proof.
  destruct (audit_log_writers (sent contract 10) (RecordAudit alice 100 0 7 8)
              log1) as (Ha & Hrec & _ & Hset).
  destruct (audit_log_writers (sent city 0) (SetGovernanceContract contract)
              log0) as (_ & _ & Hgov & _).
  split; [exact Ha|]. split; [|split].
  - apply Hrec. intros H. apply (f_equal length) in H. by vm_compute in H.
  - apply Hgov. by vm_compute.
  - apply Hset. by vm_compute.
Defined.

End AuditIndexes.

(** ** Reads of the web3 client *)

Section ClientReads.
Import Governance Scenario.

Variable this : address.
Variable ipfs_getContent : string -> option string.
Variable account : address.

Local Notation "'getProposalDetails'" :=
  (BlockchainService.getProposalDetails ipfs_getContent account)
  (only parsing).
Local Notation "'getProposals'" :=
  (BlockchainService.getProposals ipfs_getContent account) (only parsing).
Local Notation "'getProposals_loop'" :=
  (BlockchainService.getProposals_loop ipfs_getContent account)
  (only parsing).

Lemma getProposalDetails_Ok i s :
  exists_proposal s i ->
  exists d, getProposalDetails i s = Ok d
            /\ BlockchainService.id d = i
            /\ BlockchainService.createdAt d
               = BlockchainService.newDate (creationTime (proposal_at s i))
            /\ BlockchainService.endTime d
               = BlockchainService.newDate (votingEndTime (proposal_at s i))
            /\ BlockchainService.yesVotes d
               = Z.of_N (yesVotes (proposal_at s i))
            /\ BlockchainService.noVotes d
               = Z.of_N (noVotes (proposal_at s i))
            /\ BlockchainService.status d
               = BlockchainService.getStatusText
                   (Z.of_N (status_code (status (proposal_at s i))))
            /\ BlockchainService.isActive d
               = bool_decide (status (proposal_at s i) = Active)
            /\ BlockchainService.hasVoted d
               = bool_decide (account ∈ hasVoted (proposal_at s i)).
Proof.
  intros Hi. unfold BlockchainService.getProposalDetails,
    getProposalBasicInfo, hasVoted_view.
  rewrite (valid_id_true _ _ Hi). cbn [require mbind result_bind].
  eexists. split; [reflexivity|]. cbn.
  do 6 (split; [done|]). split; [|done].
  by destruct (status (proposal_at s i)).
Qed.

Lemma getProposalDetails_invalid i s :
  ~ exists_proposal s i ->
  getProposalDetails i s = Revert (Require "Invalid proposal ID").
Proof.
  intros Hi. unfold BlockchainService.getProposalDetails,
    getProposalBasicInfo.
  destruct ((i <=? proposalCount s) && (0 <? i)) eqn:E; [|done].
  exfalso. apply Hi. apply andb_true_iff in E as [H1 H2].
  apply N.leb_le in H1. apply N.ltb_lt in H2. by split.
Qed.

(** X19.  For a proposal that exists in a state reached by a run, the
    client's [getProposalDetails] succeeds; its end time is Invalid Date
    exactly when the contract's [votingEndTime], in milliseconds, is
    beyond the largest time value of a [Date], and otherwise its creation
    time is a date too, seven days (in milliseconds) before the end time;
    its two counts add up to the number of voters, [isActive] holds
    exactly when the status text is "Active", which is exactly when the
    contract status is Active, the text is never "Unknown", and
    [hasVoted] is true only for a verified account.  For any other id the
    call is rejected with "Invalid proposal ID". *)
Theorem proposal_details_follow_the_ledger t s i :
  reachable this t s ->
  (exists_proposal s i ->
   exists d,
     getProposalDetails i s = Ok d
     /\ (BlockchainService.endTime d = None
         <-> (BlockchainService.MAX_TIME_VALUE
              < Z.of_N (votingEndTime (proposal_at s i)) * 1000)%Z)
     /\ (forall e, BlockchainService.endTime d = Some e ->
                   BlockchainService.createdAt d = Some (e - 604800000)%Z)
     /\ (BlockchainService.yesVotes d + BlockchainService.noVotes d)%Z
        = Z.of_nat (size (hasVoted (proposal_at s i)))
     /\ (BlockchainService.isActive d = true
         <-> BlockchainService.status d = "Active")
     /\ (BlockchainService.isActive d = true
         <-> status (proposal_at s i) = Active)
     /\ BlockchainService.status d <> "Unknown"
     /\ (BlockchainService.hasVoted d = true -> account ∈ verifiedVoters s))
  /\ (~ exists_proposal s i ->
      getProposalDetails i s = Revert (Require "Invalid proposal ID")).
Proof.
  intros Hs. split; [|apply getProposalDetails_invalid].
  intros Hi. apply reachable_ledger in Hs.
  destruct (getProposalDetails_Ok i s Hi)
    as (d & Hd & _ & Hc & He & Hy & Hn & Hst & Hact & Hv).
  exists d. split; [done|].
  destruct (proposals_stamped _ _ Hs i Hi) as (_ & Hend & _).
  pose proof (ballots_counted _ _ Hs i) as Hcount.
  pose proof (ballots_verified _ _ Hs i) as Hver.
  split; [|split].
  - rewrite He. unfold BlockchainService.newDate. cbv zeta.
    destruct (Z.leb_spec (Z.of_N (votingEndTime (proposal_at s i)) * 1000)
                BlockchainService.MAX_TIME_VALUE); split; (done || lia).
  - intros e. rewrite He, Hc, Hend. unfold BlockchainService.newDate.
    cbv zeta. unfold VOTING_PERIOD.
    destruct (Z.leb_spec
                (Z.of_N (creationTime (proposal_at s i) + 7 * 24 * 60 * 60)
                 * 1000) BlockchainService.MAX_TIME_VALUE) as [Hin|];
      [|done].
    intros [= <-].
    destruct (Z.leb_spec (Z.of_N (creationTime (proposal_at s i)) * 1000)
                BlockchainService.MAX_TIME_VALUE); [f_equal; lia|lia].
  - split; [rewrite Hy, Hn; lia|].
    rewrite Hst, Hact, Hv.
    split; [|split; [|split; [|]]].
    + rewrite bool_decide_eq_true.
      destruct (status (proposal_at s i)); cbn; split; done.
    + by rewrite bool_decide_eq_true.
    + by destruct (status (proposal_at s i)).
    + rewrite bool_decide_eq_true. intros H. by apply Hver.
Qed.

Lemma getProposals_loop_ids s n : forall i : Z,
  (Z.of_nat n <= i <= Z.of_N (proposalCount s))%Z ->
  BlockchainService.id <$> getProposals_loop n i s
  = (fun k => Z.to_N (i - Z.of_nat k)) <$> seq 0 n.
Proof.
  induction n as [|n IH]; intros i Hi; [done|].
  cbn [BlockchainService.getProposals_loop seq].
  assert (exists_proposal s (Z.to_N i)) as Hex
    by (unfold exists_proposal; lia).
  destruct (getProposalDetails_Ok _ s Hex) as (d & -> & Hid & _).
  cbn [app fmap list_fmap].
  change (list_fmap BlockchainService.ProposalDetails uint256
            BlockchainService.id ?l) with (BlockchainService.id <$> l).
  rewrite IH by lia. rewrite Hid. f_equal; [f_equal; lia|].
  rewrite <- (fmap_S_seq 0 n) at 1. rewrite <- list_fmap_compose.
  apply list_fmap_ext. intros _ k _. cbn. f_equal. lia.
Qed.

(** X18.  The client's [getProposals], for a limit and an offset that are
    not negative, reports the contract's [proposalCount] as total and
    returns the proposals with ids [start, start - 1, ...], newest first,
    from [start = max 1 (total - offset)] down to [max 1 (start - limit)]
    inclusive: [limit + 1] proposals when that many remain, and none when
    no proposal exists. *)
Theorem getProposals_page limit offset s :
  (0 <= limit)%Z -> (0 <= offset)%Z ->
  let total := Z.of_N (proposalCount s) in
  let start := Z.max 1 (total - offset) in
  snd (getProposals limit offset s) = total
  /\ BlockchainService.id <$> fst (getProposals limit offset s)
     = if (total =? 0)%Z then []
       else (fun k => Z.to_N (start - Z.of_nat k))
              <$> seq 0 (Z.to_nat (Z.min start (limit + 1))).
Proof.
  intros Hl Ho. cbv zeta. unfold BlockchainService.getProposals. cbv zeta.
  cbn [fst snd]. split; [done|].
  set (total := Z.of_N (proposalCount s)).
  set (start := Z.max 1 (total - offset)).
  destruct (Z.eqb_spec total 0) as [H0|Hpos].
  - replace (Z.to_nat (start - Z.max 1 (start - limit) + 1)) with 1%nat
      by lia.
    cbn [BlockchainService.getProposals_loop].
    rewrite getProposalDetails_invalid; [done|].
    unfold exists_proposal. lia.
  - replace (Z.to_nat (start - Z.max 1 (start - limit) + 1))
      with (Z.to_nat (Z.min start (limit + 1))) by lia.
    apply getProposals_loop_ids. fold total. lia.
Qed.

End ClientReads.

Section ClientExamples.
Import Governance Scenario.

Lemma reachable_busy : reachable contract 13 busy.
Proof.
  apply (reachable_exec contract 12 _ (sent alice 13)); [|done].
  apply (reachable_exec contract 11 voted_yes (sent alice 12)); [|done].
  apply reachable_voted_yes.
Qed.

Lemma getProposals_page_witness :
  let ids limit offset s :=
    BlockchainService.id
      <$> fst (BlockchainService.getProposals (fun _ => None) alice
                 limit offset s) in
  proposalCount busy = 3
  /\ ids 1%Z 0%Z busy = [3; 2]
  /\ ids 1%Z 1%Z busy = [2; 1]
  /\ ids 10%Z 5%Z busy = [1]
  /\ ids 10%Z 0%Z deployed = [].
Proof.
  cbv zeta. split; [by vm_compute|].
  split; [|split; [|split]].
  - destruct (getProposals_page (fun _ => None) alice 1%Z 0%Z busy)
      as [_ ->]; by vm_compute.
  - destruct (getProposals_page (fun _ => None) alice 1%Z 1%Z busy)
      as [_ ->]; by vm_compute.
  - destruct (getProposals_page (fun _ => None) alice 10%Z 5%Z busy)
      as [_ ->]; by vm_compute.
  - destruct (getProposals_page (fun _ => None) alice 10%Z 0%Z deployed)
      as [_ ->]; by vm_compute.
Defined.

Lemma reachable_late : reachable contract 8640000000000 late.
Proof.
  apply (reachable_exec contract 11 voted_yes (sent alice 8640000000000));
    [|done].
  apply reachable_voted_yes.
Qed.

Lemma proposal_details_follow_the_ledger_witness :
  (exists d,
     BlockchainService.getProposalDetails (fun _ => None) alice 1 voted_yes
     = Ok d
     /\ BlockchainService.endTime d = Some 604810000%Z
     /\ BlockchainService.createdAt d = Some (604810000 - 604800000)%Z
     /\ (BlockchainService.yesVotes d + BlockchainService.noVotes d)%Z = 1%Z
     /\ BlockchainService.status d = "Active"
     /\ BlockchainService.hasVoted d = true)
  /\ (exists d,
        BlockchainService.getProposalDetails (fun _ => None) alice 2 late
        = Ok d
        /\ BlockchainService.createdAt d = Some 8640000000000000%Z
        /\ BlockchainService.endTime d = None)
  /\ BlockchainService.getProposalDetails (fun _ => None) alice 2 voted_yes
     = Revert (Require "Invalid proposal ID").
Proof.
  destruct (proposal_details_follow_the_ledger contract (fun _ => None) alice
              11 voted_yes 1 reachable_voted_yes) as [Hin _].
  destruct (proposal_details_follow_the_ledger contract (fun _ => None) alice
              _ late 2 reachable_late) as [Hlate _].
  destruct (proposal_details_follow_the_ledger contract (fun _ => None) alice
              11 voted_yes 2 reachable_voted_yes) as [_ Hout].
  split; [|split].
  - destruct Hin as (d & Hd & _ & Hcreated & Hsum & _); [by vm_compute|].
    exists d. split; [exact Hd|].
    assert (BlockchainService.endTime d = Some 604810000%Z) as He
      by (vm_compute in Hd; by injection Hd as <-).
    split; [exact He|]. split; [exact (Hcreated _ He)|].
    vm_compute in Hd. injection Hd as <-. by vm_compute.
  - destruct Hlate as (d & Hd & [_ Hnone] & _); [by vm_compute|].
    exists d. split; [exact Hd|]. split.
    + vm_compute in Hd. by injection Hd as <-.
    + apply Hnone. by vm_compute.
  - apply Hout. intros [_ H]. by vm_compute in H.
Defined.

End ClientExamples.

(** ** The document store of the backend *)

Section BackendStore.
Import Backend Scenario.

Lemma createProposal_inv user body now db :
  let db' := fst (createProposal user body now db) in
  db' = db
  \/ exists doc,
       proposals db' = <[nextId db := doc]> (proposals db)
       /\ Proposal._id doc = nextId db
       /\ Proposal.author doc = id user
       /\ in_enum Proposal.status_enum (Proposal.status doc) = true
       /\ votes db' = votes db
       /\ officialResponses db' = officialResponses db
       /\ nextId db' = nextId db + 1.
Proof.
  cbv zeta. unfold createProposal, Proposal_create.
  destruct (Proposal_validate body) eqn:Hv; [|by left].
  right. eexists. cbn. split; [reflexivity|]. cbn.
  split; [reflexivity|]. split; [reflexivity|]. split; [|done].
  unfold Proposal_validate in Hv.
  apply andb_true_iff in Hv as [_ Hv].
  by destruct (Proposal.body_status body).
Qed.

Lemma updateVote_inv user voteId body now db :
  let db' := fst (updateVote user voteId body now db) in
  db' = db
  \/ exists v p,
       Vote_findById voteId db = Some v
       /\ Vote.user v = id user
       /\ proposals db !! Vote.proposal v = Some p
       /\ Proposal.status p = "voting"
       /\ nextId db' = nextId db
       /\ officialResponses db' = officialResponses db
       /\ proposals db' =
            <[Proposal._id p :=
                Proposal.set_updatedAt now
                  (Proposal.set_voteCount
                     (Proposal.voteCount_add (Vote.key (Vote.body_vote body)) 1
                        (Proposal.voteCount_add (Vote.vote v) (-1)
                           (Proposal.voteCount p))) p)]> (proposals db)
       /\ (votes db' = votes db
           \/ (Vote_index_free voteId (Vote.proposal (Vote_apply body v))
                 (Vote.user (Vote_apply body v)) db = true
               /\ votes db' =
                    (fun w => if Vote._id w =? voteId
                              then Vote_apply body v else w) <$> votes db)).
Proof.
  cbv zeta. unfold updateVote, Proposal_findById.
  destruct (Vote_findById voteId db) as [v|] eqn:Hv; [|by left].
  destruct (N.eqb_spec (Vote.user v) (id user)) as [Hu|Hu]; cbn [negb];
    [|by left].
  destruct (proposals db !! Vote.proposal v) as [p|] eqn:Hp; [|by left].
  destruct (String.eqb_spec (Proposal.status p) "voting") as [Hs|Hs];
    cbn [negb]; [|by left].
  right. exists v, p. do 4 (split; [done|]).
  set (p' := Proposal.set_voteCount _ (Proposal.set_voteCount _ p)).
  unfold Vote_findByIdAndUpdate.
  change (Vote_findById voteId (Proposal_save p' now db))
    with (Vote_findById voteId db).
  rewrite Hv.
  destruct (Vote.rest_valid body && _); [|by repeat split; auto].
  change (Vote_index_free voteId ?a ?b (Proposal_save p' now db))
    with (Vote_index_free voteId a b db).
  destruct (Vote_index_free _ _ _ _) eqn:Hfree; [|by repeat split; auto].
  cbn. repeat split; auto.
Qed.

Lemma OfficialResponse_findOne_None p db :
  OfficialResponse_findOne p db = None ->
  forall r, r ∈ officialResponses db -> OfficialResponse.proposal r <> p.
Proof.
  unfold OfficialResponse_findOne. intros H r Hr Hp.
  apply list_elem_of_In in Hr.
  pose proof (find_none _ _ H r Hr) as Hn. cbn in Hn.
  apply N.eqb_neq in Hn. done.
Qed.

Lemma createOfficialResponse_inv user proposalId body proof now db :
  let out := createOfficialResponse user proposalId body proof now db in
  (fst out = db /\ exists err, snd out = Next err)
  \/ exists doc st,
       is_Some (proposals db !! proposalId)
       /\ isGovernmentOfficial user = true
       /\ OfficialResponse_findOne proposalId db = None
       /\ OfficialResponse.body_status body = Some st
       /\ in_enum OfficialResponse.status_enum st = true
       /\ doc =
            {| OfficialResponse._id := nextId db;
               OfficialResponse.proposal := proposalId;
               OfficialResponse.respondent := id user;
               OfficialResponse.status := st;
               OfficialResponse.isVerified :=
                 default false (OfficialResponse.body_isVerified body);
               OfficialResponse.verificationProof :=
                 if truthy_bool (OfficialResponse.body_isVerified body)
                 then proof
                 else OfficialResponse.body_verificationProof body;
               OfficialResponse.createdAt := now;
               OfficialResponse.updatedAt := now |}
       /\ (truthy_bool (OfficialResponse.body_isVerified body) = true ->
           is_Some proof)
       /\ officialResponses (fst out) = officialResponses db ++ [doc]
       /\ votes (fst out) = votes db
       /\ nextId (fst out) = nextId db + 1
       /\ proposals (fst out) =
            alter (Proposal.set_status (proposal_status_of (Some st)))
                  proposalId (proposals db)
       /\ snd out = Json 201 doc.
Proof.
  cbv zeta. unfold createOfficialResponse, Proposal_findById.
  destruct (proposals db !! proposalId) as [p|] eqn:Hp; [|left; eauto].
  destruct (isGovernmentOfficial user) eqn:Hoff; cbn [negb]; [|left; eauto].
  destruct (OfficialResponse_findOne proposalId db) eqn:Hone; [left; eauto|].
  assert (forall vp,
    let b := {| OfficialResponse.body_proposal := Some proposalId;
                OfficialResponse.body_respondent := Some (id user);
                OfficialResponse.body_status :=
                  OfficialResponse.body_status body;
                OfficialResponse.body_isVerified :=
                  OfficialResponse.body_isVerified body;
                OfficialResponse.body_verificationProof := vp;
                OfficialResponse.rest_valid :=
                  OfficialResponse.rest_valid body |} in
    (exists err, OfficialResponse_create b now db = inl err)
    \/ exists st,
         OfficialResponse.body_status body = Some st
         /\ in_enum OfficialResponse.status_enum st = true
         /\ OfficialResponse_create b now db =
              let doc :=
                {| OfficialResponse._id := nextId db;
                   OfficialResponse.proposal := proposalId;
                   OfficialResponse.respondent := id user;
                   OfficialResponse.status := st;
                   OfficialResponse.isVerified :=
                     default false (OfficialResponse.body_isVerified body);
                   OfficialResponse.verificationProof := vp;
                   OfficialResponse.createdAt := now;
                   OfficialResponse.updatedAt := now |} in
              inr ({| proposals := proposals db; votes := votes db;
                      officialResponses := officialResponses db ++ [doc];
                      nextId := nextId db + 1 |}, doc)) as Hcreate.
  { intros vp. cbv zeta. unfold OfficialResponse_create.
    cbn [OfficialResponse.body_proposal OfficialResponse.body_respondent
         OfficialResponse.body_status OfficialResponse.rest_valid
         OfficialResponse.body_isVerified
         OfficialResponse.body_verificationProof].
    destruct (OfficialResponse.body_status body) as [st|]; [|left; eauto].
    destruct (OfficialResponse.rest_valid body
              && in_enum OfficialResponse.status_enum st) eqn:Hval;
      [|left; eauto].
    apply andb_true_iff in Hval as [_ Hval].
    destruct (OfficialResponse_index_free _ _ _); [|left; eauto].
    right. by exists st. }
  unfold OfficialResponse.set_body_verificationProof,
    OfficialResponse.set_body_respondent, OfficialResponse.set_body_proposal.
  cbn [OfficialResponse.body_proposal OfficialResponse.body_respondent
       OfficialResponse.body_status OfficialResponse.rest_valid
       OfficialResponse.body_isVerified
       OfficialResponse.body_verificationProof].
  destruct (truthy_bool (OfficialResponse.body_isVerified body)) eqn:Hver.
  - destruct proof as [h|]; [|left; eauto].
    destruct (Hcreate (Some h)) as [[err ->]|(st & Hst & Hval & ->)];
      [left; eauto|].
    right. eexists _, st. cbv zeta. cbn [fst snd].
    split; [by eexists|]. do 4 (split; [done|]). split; [reflexivity|].
    split; [by eexists|]. rewrite Hst. done.
  - destruct (Hcreate (OfficialResponse.body_verificationProof body))
      as [[err ->]|(st & Hst & Hval & ->)]; [left; eauto|].
    right. eexists _, st. cbv zeta. cbn [fst snd].
    split; [by eexists|]. do 4 (split; [done|]). split; [reflexivity|].
    split; [done|]. rewrite Hst. done.
Qed.


Lemma OfficialResponse_findById_Some i db r :
  OfficialResponse_findById i db = Some r ->
  r ∈ officialResponses db /\ OfficialResponse._id r = i.
Proof.
  unfold OfficialResponse_findById. intros H.
  apply find_some in H as [Hin Hi].
  apply list_elem_of_In in Hin. by apply N.eqb_eq in Hi.
Qed.

Lemma OfficialResponse_index_free_spec self p db :
  OfficialResponse_index_free self p db = true ->
  forall w, w ∈ officialResponses db -> OfficialResponse._id w <> self ->
            OfficialResponse.proposal w <> p.
Proof.
  unfold OfficialResponse_index_free. intros H w Hw Hid Hp.
  apply list_elem_of_In in Hw.
  pose proof (proj1 (forallb_forall _ _) H w Hw) as Hf. cbn in Hf.
  rewrite Hp, N.eqb_refl in Hf.
  apply orb_true_iff in Hf as [Hf|Hf]; [|discriminate Hf].
  by apply N.eqb_eq in Hf.
Qed.

Lemma updateOfficialResponse_inv user responseId body proof db :
  let db' := fst (updateOfficialResponse user responseId body proof db) in
  db' = db
  \/ exists r r',
       OfficialResponse_findById responseId db = Some r
       /\ (OfficialResponse.respondent r = id user \/ isAdmin user = true)
       /\ OfficialResponse._id r' = responseId
       /\ OfficialResponse_index_free responseId
            (OfficialResponse.proposal r') db = true
       /\ officialResponses db' =
            (fun w => if OfficialResponse._id w =? responseId then r' else w)
              <$> officialResponses db
       /\ proposals db' = proposals db
       /\ votes db' = votes db
       /\ nextId db' = nextId db.
Proof.
  cbv zeta. unfold updateOfficialResponse.
  destruct (OfficialResponse_findById responseId db) as [r|] eqn:Hr;
    [|by left].
  destruct (OfficialResponse_findById_Some _ _ _ Hr) as [_ Hid].
  destruct (negb (OfficialResponse.respondent r =? id user)
            && negb (isAdmin user)) eqn:Hz; [by left|].
  assert (OfficialResponse.respondent r = id user \/ isAdmin user = true)
    as Hauth.
  { apply andb_false_iff in Hz as [Hz|Hz]; apply negb_false_iff in Hz.
    - left. by apply N.eqb_eq.
    - by right. }
  assert (forall b,
    let db' :=
      fst match OfficialResponse_findByIdAndUpdate responseId b db with
          | inl err => (db, Next err)
          | inr (db0, None) =>
              if truthy_string (OfficialResponse.body_status b)
              then (db0, Next TypeError)
              else (db0, Json 200 None)
          | inr (db0, Some response) =>
              (if status_differs b response
               then Proposal_findByIdAndUpdate_status
                      (OfficialResponse.proposal response)
                      (proposal_status_of (OfficialResponse.body_status b))
                      db0
               else db0, Json 200 (Some response))
          end in
    db' = db
    \/ exists r0 r',
         Some r = Some r0
         /\ (OfficialResponse.respondent r0 = id user \/ isAdmin user = true)
         /\ OfficialResponse._id r' = responseId
         /\ OfficialResponse_index_free responseId
              (OfficialResponse.proposal r') db = true
         /\ officialResponses db' =
              (fun w => if OfficialResponse._id w =? responseId
                        then r' else w) <$> officialResponses db
         /\ proposals db' = proposals db
         /\ votes db' = votes db
         /\ nextId db' = nextId db) as Hupdate.
  { intros b. cbv zeta.
    destruct (OfficialResponse_findByIdAndUpdate responseId b db)
      as [err|[db0 [r'|]]] eqn:E; [by left| |].
    - pose proof (OfficialResponse_findByIdAndUpdate_Some _ _ _ _ _ E)
        as (-> & _).
      unfold OfficialResponse_findByIdAndUpdate in E. rewrite Hr in E.
      destruct (OfficialResponse.rest_valid b && _); [|discriminate E].
      destruct (OfficialResponse_index_free _ _ _) eqn:Hfree;
        [|discriminate E].
      injection E as <- <-. right. exists r, (OfficialResponse_apply b r).
      cbn. by repeat split.
    - apply OfficialResponse_findByIdAndUpdate_None in E as ->.
      left. by destruct (truthy_string _). }
  destruct (status_differs body r && _); [|apply Hupdate].
  destruct proof; [apply Hupdate|by left].
Qed.


Lemma NoDup_replace_key {A K} (ident : A -> N) (key : A -> K) i x'
    (l : list A) :
  NoDup (ident <$> l) ->
  NoDup (key <$> l) ->
  (forall w, w ∈ l -> ident w <> i -> key w <> key x') ->
  NoDup (key <$> ((fun w => if ident w =? i then x' else w) <$> l)).
Proof.
  induction l as [|x l IH]; intros Hids Hkeys Hfree; [constructor|].
  rewrite !fmap_cons in *.
  apply NoDup_cons in Hids as [Hx Hids].
  apply NoDup_cons in Hkeys as [Hkx Hkeys].
  apply NoDup_cons. split.
  - intros Hin.
    apply list_elem_of_fmap in Hin as (y & Hy & Hin).
    apply list_elem_of_fmap in Hin as (w & -> & Hw).
    destruct (N.eqb_spec (ident x) i) as [Hxi|Hxi];
      destruct (N.eqb_spec (ident w) i) as [Hwi|Hwi].
    + apply Hx. rewrite Hxi, <- Hwi. by apply list_elem_of_fmap_2.
    + apply (Hfree w); [by right|done|done].
    + apply (Hfree x); [by left|done|done].
    + apply Hkx. rewrite Hy. by apply list_elem_of_fmap_2.
  - apply IH; [done..|]. intros w Hw. apply Hfree. by right.
Qed.

Lemma NoDup_snoc_key {A K} (key : A -> K) (l : list A) x :
  NoDup (key <$> l) ->
  (forall w, w ∈ l -> key w <> key x) ->
  NoDup (key <$> (l ++ [x])).
Proof.
  intros Hl Hx. rewrite fmap_app. apply NoDup_app. split; [done|].
  split; [|apply NoDup_singleton].
  intros k Hk Hk'. apply list_elem_of_fmap in Hk as (w & -> & Hw).
  apply list_elem_of_singleton in Hk'. by apply (Hx w).
Qed.

Lemma replace_ident {A} (ident : A -> N) i x' (l : list A) :
  ident x' = i ->
  ident <$> ((fun w => if ident w =? i then x' else w) <$> l) = ident <$> l.
Proof.
  intros Hx. apply fmap_replace. intros w _.
  by destruct (N.eqb_spec (ident w) i) as [->|].
Qed.

Lemma elem_of_replace {A} (ident : A -> N) i x' (l : list A) y :
  y ∈ (fun w => if ident w =? i then x' else w) <$> l ->
  (y ∈ l /\ ident y <> i) \/ (y = x' /\ exists w, w ∈ l /\ ident w = i).
Proof.
  intros Hy. apply list_elem_of_fmap in Hy as (w & -> & Hw).
  destruct (N.eqb_spec (ident w) i) as [Hi|Hi]; [right|left]; eauto.
Qed.

Lemma in_enum_app a b v : in_enum (a ++ b) v = in_enum a v || in_enum b v.
Proof. unfold in_enum. apply existsb_app. Qed.

Lemma stored_statuses_schema st :
  in_enum Proposal.status_enum st = true -> in_enum stored_statuses st = true.
Proof. intros H. unfold stored_statuses. by rewrite in_enum_app, H. Qed.

Lemma stored_statuses_response st :
  in_enum stored_statuses (proposal_status_of st) = true.
Proof.
  unfold proposal_status_of. destruct st as [s|]; [|done].
  repeat (destruct (String.eqb s _); [done|]). done.
Qed.

Lemma keyed_empty : keyed empty_db.
Proof.
  split; try done; try (intros ? H; by apply elem_of_nil in H);
    try apply NoDup_nil_2.
Qed.

Lemma keyed_createProposal user body now db :
  keyed db -> keyed (fst (createProposal user body now db)).
Proof.
  intros Hk.
  destruct (createProposal_inv user body now db)
    as [->|(doc & Hp & Hid & _ & Hst & Hv & Hr & Hn)]; [done|].
  destruct Hk as [Kp Ks Kv Kvi Kvp Kr Kri Krp].
  split; rewrite ?Hv, ?Hr, ?Hn, ?Hp; try done.
  - intros i p Hi. destruct (decide (i = nextId db)) as [->|Hne].
    + rewrite lookup_insert_eq in Hi. injection Hi as <-. split; [done|lia].
    + rewrite lookup_insert_ne in Hi by done.
      destruct (Kp i p Hi). split; [done|lia].
  - intros i p Hi. destruct (decide (i = nextId db)) as [->|Hne].
    + rewrite lookup_insert_eq in Hi. injection Hi as <-.
      by apply stored_statuses_schema.
    + rewrite lookup_insert_ne in Hi by done. by eapply Ks.
  - intros v Hin. specialize (Kv v Hin). lia.
  - intros r Hin. specialize (Kr r Hin). lia.
Qed.

Lemma keyed_addVote user proposalId body now db :
  keyed db -> keyed (fst (addVote user proposalId body now db)).
Proof.
  intros Hk.
  destruct (addVote_inv user proposalId body now db)
    as [[err ->]|(p & c & Hp & Hst & Hone & _ & _ & ->)]; [done|].
  destruct Hk as [Kp Ks Kv Kvi Kvp Kr Kri Krp].
  destruct (Kp _ _ Hp) as [Hid Hlt].
  cbn [fst voted]. split; cbn [proposals votes officialResponses nextId].
  - intros i q Hi. rewrite Hid in Hi.
    destruct (decide (i = proposalId)) as [->|Hne].
    + rewrite lookup_insert_eq in Hi. injection Hi as <-. split; [done|lia].
    + rewrite lookup_insert_ne in Hi by done.
      destruct (Kp i q Hi). split; [done|lia].
  - intros i q Hi. rewrite Hid in Hi.
    destruct (decide (i = proposalId)) as [->|Hne].
    + rewrite lookup_insert_eq in Hi. injection Hi as <-. cbn.
      by apply (Ks _ _ Hp).
    + rewrite lookup_insert_ne in Hi by done. by eapply Ks.
  - intros v Hin. apply elem_of_app in Hin as [Hin|Hin].
    + specialize (Kv v Hin). lia.
    + apply list_elem_of_singleton in Hin as ->. cbn. lia.
  - apply NoDup_snoc_key; [done|]. intros w Hw. cbn.
    specialize (Kv w Hw). lia.
  - apply NoDup_snoc_key; [done|]. intros w Hw Heq.
    apply (proj1 (Vote_findOne_None _ _ _) Hone w Hw).
    unfold pair_of in Heq. cbn in Heq. by injection Heq as -> ->.
  - intros r Hin. specialize (Kr r Hin). lia.
  - done.
  - done.
Qed.

Lemma keyed_updateVote user voteId body now db :
  keyed db -> keyed (fst (updateVote user voteId body now db)).
Proof.
  intros Hk.
  destruct (updateVote_inv user voteId body now db)
    as [->|(v & p & Hv & Hu & Hp & Hst & Hn & Hr & Hps & Hvs)]; [done|].
  destruct Hk as [Kp Ks Kv Kvi Kvp Kr Kri Krp].
  destruct (Kp _ _ Hp) as [Hid Hlt].
  destruct (Vote_findById_Some _ _ _ Hv) as [Hin Hvid].
  assert (Vote._id (Vote_apply body v) = voteId) as Hid' by done.
  split; rewrite ?Hn, ?Hr, ?Hps; try done.
  - intros i q Hi. rewrite Hid in Hi.
    destruct (decide (i = Vote.proposal v)) as [->|Hne].
    + rewrite lookup_insert_eq in Hi. by injection Hi as <-.
    + rewrite lookup_insert_ne in Hi by done. by apply Kp.
  - intros i q Hi. rewrite Hid in Hi.
    destruct (decide (i = Vote.proposal v)) as [->|Hne].
    + rewrite lookup_insert_eq in Hi. injection Hi as <-. cbn.
      by apply (Ks _ _ Hp).
    + rewrite lookup_insert_ne in Hi by done. by eapply Ks.
  - destruct Hvs as [->|[_ ->]]; [done|].
    intros w Hw. apply (elem_of_replace Vote._id) in Hw
      as [[Hw _]|[-> _]]; [by apply Kv|].
    rewrite Hid', <- Hvid. by apply Kv.
  - destruct Hvs as [->|[_ ->]]; [done|].
    by rewrite (replace_ident Vote._id).
  - destruct Hvs as [->|[Hfree ->]]; [done|].
    apply (NoDup_replace_key Vote._id pair_of); [done|done|].
    intros w Hw Hne Heq.
    apply (Vote_index_free_spec _ _ _ _ Hfree w Hw Hne).
    unfold pair_of in Heq. by injection Heq as -> ->.
Qed.

Lemma keyed_createOfficialResponse user proposalId body proof now db :
  keyed db ->
  keyed (fst (createOfficialResponse user proposalId body proof now db)).
Proof.
  intros Hk.
  destruct (createOfficialResponse_inv user proposalId body proof now db)
    as [[-> _]|(doc & st & _ & _ & Hone & _ & _ & Hdoc & _ & Hr & Hv & Hn
                 & Hp & _)]; [done|].
  destruct Hk as [Kp Ks Kv Kvi Kvp Kr Kri Krp].
  split; rewrite ?Hr, ?Hv, ?Hn, ?Hp; try done.
  - intros i q Hi. apply lookup_alter_Some in Hi
      as [(-> & q0 & Hq & ->)|[_ Hq]].
    + destruct (Kp _ _ Hq). split; [done|lia].
    + destruct (Kp _ _ Hq). split; [done|lia].
  - intros i q Hi. apply lookup_alter_Some in Hi
      as [(-> & q0 & Hq & ->)|[_ Hq]].
    + apply stored_statuses_response.
    + by eapply Ks.
  - intros w Hw. specialize (Kv w Hw). lia.
  - intros r Hin. apply elem_of_app in Hin as [Hin|Hin].
    + specialize (Kr r Hin). lia.
    + apply list_elem_of_singleton in Hin as ->. rewrite Hdoc. cbn. lia.
  - apply NoDup_snoc_key; [done|]. intros w Hw. rewrite Hdoc. cbn.
    specialize (Kr w Hw). lia.
  - apply NoDup_snoc_key; [done|]. intros w Hw. rewrite Hdoc. cbn.
    by apply (OfficialResponse_findOne_None _ _ Hone).
Qed.

Lemma keyed_updateOfficialResponse user responseId body proof db :
  keyed db ->
  keyed (fst (updateOfficialResponse user responseId body proof db)).
Proof.
  intros Hk.
  destruct (updateOfficialResponse_inv user responseId body proof db)
    as [->|(r & r' & Hr & _ & Hid & Hfree & Hrs & Hp & Hv & Hn)]; [done|].
  destruct Hk as [Kp Ks Kv Kvi Kvp Kr Kri Krp].
  destruct (OfficialResponse_findById_Some _ _ _ Hr) as [Hin Hrid].
  split; rewrite ?Hrs, ?Hv, ?Hn, ?Hp; try done.
  - intros w Hw. apply (elem_of_replace OfficialResponse._id) in Hw
      as [[Hw _]|[-> _]]; [by apply Kr|].
    rewrite Hid, <- Hrid. by apply Kr.
  - by rewrite (replace_ident OfficialResponse._id).
  - apply (NoDup_replace_key OfficialResponse._id OfficialResponse.proposal);
      [done|done|].
    intros w Hw Hne.
    by apply (OfficialResponse_index_free_spec _ _ _ Hfree w Hw Hne).
Qed.

Lemma keyed_handle now r db : keyed db -> keyed (handle now r db).
Proof.
  intros Hk. destruct r; cbn [handle].
  - by apply keyed_createProposal.
  - by apply keyed_addVote.
  - by apply keyed_updateVote.
  - by apply keyed_createOfficialResponse.
  - by apply keyed_updateOfficialResponse.
Qed.

Lemma reachable_keyed db : reachable any_request db -> keyed db.
Proof.
  induction 1; [apply keyed_empty|by apply keyed_handle].
Qed.

End BackendStore.

Section BackendRequests.
Import Backend Scenario.

Lemma find_snoc {A} (f : A -> bool) (l : list A) x :
  List.find f (l ++ [x])
  = match List.find f l with
    | Some y => Some y
    | None => if f x then Some x else None
    end.
Proof.
  induction l as [|y l IH]; cbn; [done|]. by destruct (f y).
Qed.

(** X20.  A vote accepted by [addVote] is stored for the requesting user
    and the proposal of the URL, whatever user or proposal the body names,
    with the choice of the body; [getUserVote] answered null before and
    returns this vote afterwards. *)
Theorem accepted_vote_reads_back user proposalId body now db db' v :
  addVote user proposalId body now db = (db', Json 201 v) ->
  Vote.user v = id user
  /\ Vote.proposal v = proposalId
  /\ Vote.body_vote body = Some (Vote.vote v)
  /\ getUserVote user proposalId db = Json 200 None
  /\ getUserVote user proposalId db' = Json 200 (Some v).
Proof.
  intros H.
  destruct (addVote_inv user proposalId body now db)
    as [[err He]|(p & c & Hp & Hst & Hone & Hc & _ & He)];
    rewrite He in H; [discriminate H|].
  injection H as <- <-. cbn [voted fst snd Vote.user Vote.proposal Vote.vote].
  do 3 (split; [done|]). unfold getUserVote. split; [by rewrite Hone|].
  f_equal. unfold Vote_findOne in *. cbn [votes].
  rewrite find_snoc, Hone. cbn. by rewrite !N.eqb_refl.
Qed.

Lemma find_replaced i u p v v' (l : list Vote.t) :
  NoDup (Vote._id <$> l) ->
  NoDup (pair_of <$> l) ->
  v ∈ l -> Vote._id v = i -> pair_of v = (p, u) -> pair_of v' = (p, u) ->
  List.find (fun w => (Vote.user w =? u) && (Vote.proposal w =? p))
            ((fun w => if Vote._id w =? i then v' else w) <$> l)
  = Some v'.
Proof.
  intros Hids Hpairs Hin Hid Hv Hv'.
  assert ((Vote.user v' =? u) && (Vote.proposal v' =? p) = true) as Hm.
  { unfold pair_of in Hv'. injection Hv' as -> ->. by rewrite !N.eqb_refl. }
  induction l as [|x l IH]; [by apply elem_of_nil in Hin|].
  rewrite !fmap_cons in *.
  apply NoDup_cons in Hids as [Hx Hids].
  apply NoDup_cons in Hpairs as [Hpx Hpairs].
  cbn [List.find].
  destruct (N.eqb_spec (Vote._id x) i) as [Hxi|Hxi]; [by rewrite Hm|].
  apply elem_of_cons in Hin as [->|Hin]; [done|].
  destruct ((Vote.user x =? u) && (Vote.proposal x =? p)) eqn:Hxm.
  - exfalso. apply Hpx. apply andb_true_iff in Hxm as [Hxu Hxp].
    apply N.eqb_eq in Hxu, Hxp.
    replace (pair_of x) with (pair_of v)
      by (rewrite Hv; unfold pair_of; by rewrite Hxu, Hxp).
    by apply list_elem_of_fmap_2.
  - by apply IH.
Qed.

(** X21.  In a consistent store, the owner of a vote on a proposal in the
    voting stage who sends [updateVote] with a valid choice gets the vote
    back with the new choice; one count moves from the old bucket to the
    new one, the total of the three counters and the number of vote
    records stay, and [getUserVote] returns the updated vote. *)
Theorem changed_vote_moves_one_count user voteId c now db v p :
  consistent db ->
  Vote_findById voteId db = Some v ->
  Vote.user v = id user ->
  proposals db !! Vote.proposal v = Some p ->
  Proposal.status p = "voting" ->
  in_enum Vote.vote_enum c = true ->
  let v' := {| Vote._id := Vote._id v; Vote.proposal := Vote.proposal v;
               Vote.user := Vote.user v; Vote.vote := c;
               Vote.createdAt := Vote.createdAt v |} in
  exists db' p',
    updateVote user voteId (ballot c) now db = (db', Json 200 (Some v'))
    /\ proposals db' !! Vote.proposal v = Some p'
    /\ Proposal.voteCount p'
       = Proposal.voteCount_add c 1
           (Proposal.voteCount_add (Vote.vote v) (-1) (Proposal.voteCount p))
    /\ tally p' = tally p
    /\ getUserVote user (Vote.proposal v) db' = Json 200 (Some v')
    /\ length (votes db') = length (votes db).
Proof.
  intros Hc Hv Hu Hp Hst He. cbv zeta.
  destruct (Vote_findById_Some _ _ _ Hv) as [Hin Hid].
  destruct (votes_known _ Hc v Hin) as (_ & Hve & _).
  destruct (proposals_keyed _ Hc _ _ Hp) as [Hpid _].
  assert (Vote_index_free voteId (Vote.proposal v) (Vote.user v) db = true)
    as Hfree.
  { apply forallb_forall. intros w Hw. apply list_elem_of_In in Hw.
    destruct (N.eqb_spec (Vote._id w) voteId) as [|Hne]; [done|].
    cbn [orb]. apply negb_true_iff, andb_false_iff.
    destruct (N.eqb_spec (Vote.proposal w) (Vote.proposal v)) as [Hwp|];
      [|by left].
    destruct (N.eqb_spec (Vote.user w) (Vote.user v)) as [Hwu|]; [|by right].
    exfalso. apply Hne. rewrite <- Hid. f_equal.
    apply (NoDup_fmap_eq pair_of (votes db)); [apply Hc|done|done|].
    unfold pair_of. by rewrite Hwp, Hwu. }
  unfold updateVote, Proposal_findById. rewrite Hv.
  replace (Vote.user v =? id user) with true
    by (symmetry; by apply N.eqb_eq).
  rewrite Hp, Hst.
  change (negb ("voting" =? "voting")%string) with false.
  cbn [negb].
  set (p' := Proposal.set_voteCount _ (Proposal.set_voteCount _ p)).
  unfold Vote_findByIdAndUpdate.
  change (Vote_findById voteId (Proposal_save p' now db))
    with (Vote_findById voteId db).
  rewrite Hv. cbn [ballot Vote.rest_valid Vote.body_vote andb]. rewrite He.
  unfold Vote_apply.
  cbn [ballot Vote.body_proposal Vote.body_user Vote.body_vote default
       Vote.proposal Vote.user].
  change (Vote_index_free voteId ?a ?b (Proposal_save p' now db))
    with (Vote_index_free voteId a b db).
  rewrite Hfree.
  eexists _, (Proposal.set_updatedAt now p').
  split; [reflexivity|].
  cbn [proposals Proposal_save votes].
  split; [|split; [|split; [|split]]].
  - subst p'. cbn [Proposal._id Proposal.set_voteCount]. rewrite Hpid.
    by rewrite lookup_insert_eq.
  - done.
  - change (tally (Proposal.set_updatedAt now ?x)) with (tally x).
    subst p'. rewrite !tally_voteCount_add by done. lia.
  - unfold getUserVote, Vote_findOne. cbn [votes]. f_equal.
    apply (find_replaced voteId (id user) (Vote.proposal v) v);
      [apply Hc|apply Hc|done|done| |].
    + unfold pair_of. by rewrite Hu.
    + unfold pair_of. cbn. by rewrite Hu.
  - by rewrite length_fmap.
Qed.


(** X22.  Whatever requests have been served, vote records are unique per
    (proposal, voter), official responses are unique per proposal, and
    ids are unique within each collection. *)
Theorem unique_indexes_hold_under_any_requests db :
  reachable any_request db ->
  NoDup (pair_of <$> votes db)
  /\ NoDup (OfficialResponse.proposal <$> officialResponses db)
  /\ NoDup (Vote._id <$> votes db)
  /\ NoDup (OfficialResponse._id <$> officialResponses db).
Proof.
  intros H. apply reachable_keyed in H. destruct H. by repeat split.
Qed.

(** X23.  Whatever requests have been served, the status of a stored
    proposal is one of the schema's statuses or "partially_approved", the
    one value [createOfficialResponse] writes past the schema. *)
Theorem stored_status_is_schema_or_partially_approved db i p :
  reachable any_request db ->
  proposals db !! i = Some p ->
  in_enum Proposal.status_enum (Proposal.status p) = true
  \/ Proposal.status p = "partially_approved".
Proof.
  intros H Hp. apply reachable_keyed in H.
  pose proof (keyed_statuses _ H _ _ Hp) as Hs.
  unfold stored_statuses in Hs. rewrite in_enum_app in Hs.
  apply orb_true_iff in Hs as [Hs|Hs]; [by left|right].
  unfold in_enum in Hs. cbn in Hs. rewrite orb_false_r in Hs.
  by apply String.eqb_eq in Hs.
Qed.

Lemma OfficialResponse_index_free_fresh p db :
  OfficialResponse_findOne p db = None ->
  forall self, OfficialResponse_index_free self p db = true.
Proof.
  intros H self. apply forallb_forall. intros w Hw.
  apply list_elem_of_In in Hw.
  pose proof (OfficialResponse_findOne_None _ _ H w Hw) as Hne.
  apply N.eqb_neq in Hne. rewrite Hne. by rewrite orb_true_r.
Qed.

(** X24.  For an existing proposal without a response, a government
    official and a valid body, [createOfficialResponse] stores nothing and
    answers 500 when verification is requested and the proof cannot be
    made; otherwise it answers 201 with a response for that proposal by
    that official, carrying the proof's transaction hash when verification
    was requested, [getOfficialResponse] then returns this response, the
    proposal takes the status derived from the response status, and the
    votes are untouched. *)
Theorem official_response_is_filed user proposalId body proof now db p st :
  proposals db !! proposalId = Some p ->
  isGovernmentOfficial user = true ->
  OfficialResponse_findOne proposalId db = None ->
  OfficialResponse.body_status body = Some st ->
  in_enum OfficialResponse.status_enum st = true ->
  OfficialResponse.rest_valid body = true ->
  let out := createOfficialResponse user proposalId body proof now db in
  let wanted := truthy_bool (OfficialResponse.body_isVerified body) in
  (wanted = true -> proof = None ->
   out = (db, Next (ErrorResponse "Blockchain verification failed" 500)))
  /\ ((wanted = true -> is_Some proof) ->
      exists doc,
        snd out = Json 201 doc
        /\ OfficialResponse.proposal doc = proposalId
        /\ OfficialResponse.respondent doc = id user
        /\ OfficialResponse.status doc = st
        /\ OfficialResponse.verificationProof doc
           = (if wanted then proof
              else OfficialResponse.body_verificationProof body)
        /\ getOfficialResponse proposalId (fst out) = Json 200 doc
        /\ proposals (fst out) !! proposalId
           = Some (Proposal.set_status (proposal_status_of (Some st)) p)
        /\ votes (fst out) = votes db).
Proof.
  intros Hp Hoff Hone Hst Hval Hrest. cbv zeta.
  unfold createOfficialResponse, Proposal_findById.
  rewrite Hp, Hoff, Hone. cbn [negb].
  unfold OfficialResponse.set_body_verificationProof,
    OfficialResponse.set_body_respondent, OfficialResponse.set_body_proposal.
  cbn [OfficialResponse.body_proposal OfficialResponse.body_respondent
       OfficialResponse.body_status OfficialResponse.rest_valid
       OfficialResponse.body_isVerified
       OfficialResponse.body_verificationProof].
  assert (forall vp,
    OfficialResponse_create
      {| OfficialResponse.body_proposal := Some proposalId;
         OfficialResponse.body_respondent := Some (id user);
         OfficialResponse.body_status := OfficialResponse.body_status body;
         OfficialResponse.body_isVerified :=
           OfficialResponse.body_isVerified body;
         OfficialResponse.body_verificationProof := vp;
         OfficialResponse.rest_valid := OfficialResponse.rest_valid body |}
      now db
    = let doc :=
        {| OfficialResponse._id := nextId db;
           OfficialResponse.proposal := proposalId;
           OfficialResponse.respondent := id user;
           OfficialResponse.status := st;
           OfficialResponse.isVerified :=
             default false (OfficialResponse.body_isVerified body);
           OfficialResponse.verificationProof := vp;
           OfficialResponse.createdAt := now;
           OfficialResponse.updatedAt := now |} in
      inr ({| proposals := proposals db; votes := votes db;
              officialResponses := officialResponses db ++ [doc];
              nextId := nextId db + 1 |}, doc)) as Hcreate.
  { intros vp. unfold OfficialResponse_create.
    cbn [OfficialResponse.body_proposal OfficialResponse.body_respondent
         OfficialResponse.body_status OfficialResponse.rest_valid
         OfficialResponse.body_isVerified
         OfficialResponse.body_verificationProof].
    rewrite Hst, Hrest, Hval. cbn [andb].
    by rewrite (OfficialResponse_index_free_fresh _ _ Hone). }
  assert (forall doc,
    OfficialResponse.proposal doc = proposalId ->
    List.find (fun r => OfficialResponse.proposal r =? proposalId)
      (officialResponses db ++ [doc]) = Some doc) as Hfind.
  { intros doc Hd. unfold OfficialResponse_findOne in Hone.
    rewrite find_snoc, Hone. by rewrite Hd, N.eqb_refl. }
  split.
  - intros -> ->. done.
  - intros Hproof.
    destruct (truthy_bool (OfficialResponse.body_isVerified body)) eqn:Hw.
    + destruct (Hproof eq_refl) as [h ->]. rewrite Hcreate. cbv zeta.
      eexists. cbn [fst snd]. split; [reflexivity|].
      cbn [OfficialResponse.proposal OfficialResponse.respondent
           OfficialResponse.status OfficialResponse.verificationProof].
      do 4 (split; [done|]).
      unfold getOfficialResponse, OfficialResponse_findOne,
        Proposal_findByIdAndUpdate_status.
      cbn [officialResponses proposals votes].
      rewrite Hfind by done. rewrite lookup_alter_eq, Hp, Hst. done.
    + rewrite Hcreate. cbv zeta.
      eexists. cbn [fst snd]. split; [reflexivity|].
      cbn [OfficialResponse.proposal OfficialResponse.respondent
           OfficialResponse.status OfficialResponse.verificationProof].
      do 4 (split; [done|]).
      unfold getOfficialResponse, OfficialResponse_findOne,
        Proposal_findByIdAndUpdate_status.
      cbn [officialResponses proposals votes].
      rewrite Hfind by done. rewrite lookup_alter_eq, Hp, Hst. done.
Qed.

Lemma same_origin_refl p : same_origin p p.
Proof. by repeat split. Qed.

(** X25.  No request deletes a proposal or changes its id, category,
    author, creation date or voting deadline. *)
Theorem proposals_are_never_deleted now r db i p :
  reachable any_request db ->
  proposals db !! i = Some p ->
  exists p',
    proposals (handle now r db) !! i = Some p' /\ same_origin p p'.
Proof.
  intros H Hp. apply reachable_keyed in H.
  destruct (keyed_proposals _ H _ _ Hp) as [Hid Hlt].
  destruct r as [u b|u pid b|u vid b|u pid b pr|u rid b pr]; cbn [handle].
  - destruct (createProposal_inv u b now db)
      as [->|(doc & -> & _)]; [exists p; split; [done|apply same_origin_refl]|].
    exists p. rewrite lookup_insert_ne by lia.
    split; [done|apply same_origin_refl].
  - destruct (addVote_inv u pid b now db)
      as [[err ->]|(q & c & Hq & _ & _ & _ & _ & ->)];
      [exists p; split; [done|apply same_origin_refl]|].
    destruct (keyed_proposals _ H _ _ Hq) as [Hqid _].
    cbn [fst voted proposals]. rewrite Hqid.
    destruct (decide (i = pid)) as [->|Hne].
    + rewrite lookup_insert_eq. eexists. split; [done|].
      replace q with p by congruence. by repeat split.
    + rewrite lookup_insert_ne by done.
      exists p. split; [done|apply same_origin_refl].
  - destruct (updateVote_inv u vid b now db)
      as [->|(v & q & _ & _ & Hq & _ & _ & _ & -> & _)];
      [exists p; split; [done|apply same_origin_refl]|].
    destruct (keyed_proposals _ H _ _ Hq) as [Hqid _]. rewrite Hqid.
    destruct (decide (i = Vote.proposal v)) as [->|Hne].
    + rewrite lookup_insert_eq. eexists. split; [done|].
      replace q with p by congruence. by repeat split.
    + rewrite lookup_insert_ne by done.
      exists p. split; [done|apply same_origin_refl].
  - destruct (createOfficialResponse_inv u pid b pr now db)
      as [[-> _]|(doc & st & _ & _ & _ & _ & _ & _ & _ & _ & _ & _ & -> & _)];
      [exists p; split; [done|apply same_origin_refl]|].
    destruct (decide (i = pid)) as [->|Hne].
    + rewrite lookup_alter_eq, Hp. eexists. split; [done|].
      by repeat split.
    + rewrite lookup_alter_ne by done.
      exists p. split; [done|apply same_origin_refl].
  - destruct (updateOfficialResponse_frame u rid b pr db) as (-> & _).
    exists p. split; [done|apply same_origin_refl].
Qed.


(** X27.  No request deletes an official response, and the only request
    that changes one is an [updateOfficialResponse] for its id sent by its
    respondent or by an admin; the response keeps its id. *)
Theorem responses_change_only_by_respondent_or_admin now r db x :
  reachable any_request db ->
  x ∈ officialResponses db ->
  x ∈ officialResponses (handle now r db)
  \/ exists u b pr x',
       r = UpdateOfficialResponse u (OfficialResponse._id x) b pr
       /\ (id u = OfficialResponse.respondent x \/ isAdmin u = true)
       /\ x' ∈ officialResponses (handle now r db)
       /\ OfficialResponse._id x' = OfficialResponse._id x.
Proof.
  intros H Hx. apply reachable_keyed in H.
  destruct r as [u b|u pid b|u vid b|u pid b pr|u rid b pr]; cbn [handle].
  - destruct (createProposal_inv u b now db)
      as [->|(doc & _ & _ & _ & _ & _ & -> & _)]; by left.
  - destruct (addVote_inv u pid b now db)
      as [[err ->]|(q & c & _ & _ & _ & _ & _ & ->)]; by left.
  - destruct (updateVote_inv u vid b now db)
      as [->|(v0 & q & _ & _ & _ & _ & _ & -> & _)]; by left.
  - destruct (createOfficialResponse_inv u pid b pr now db)
      as [[-> _]|(doc & st & _ & _ & _ & _ & _ & _ & _ & -> & _)];
      [by left|].
    left. apply elem_of_app. by left.
  - destruct (updateOfficialResponse_inv u rid b pr db)
      as [->|(x0 & x' & Hx0 & Hauth & Hid' & _ & -> & _)]; [by left|].
    destruct (OfficialResponse_findById_Some _ _ _ Hx0) as [Hin0 Hid0].
    destruct (decide (OfficialResponse._id x = rid)) as [Hid|Hne].
    + right. assert (x = x0) as ->.
      { apply (NoDup_fmap_eq OfficialResponse._id (officialResponses db));
          [apply H|done|done|]. by rewrite Hid, Hid0. }
      exists u, b, pr, x'. rewrite Hid0.
      split; [done|]. split; [destruct Hauth; auto|]. split; [|done].
      apply list_elem_of_fmap. exists x0. by rewrite Hid0, N.eqb_refl.
    + left. apply list_elem_of_fmap. exists x. split; [|done].
      by destruct (N.eqb_spec (OfficialResponse._id x) rid).
Qed.

End BackendRequests.

Section BackendExamples.
Import Backend Scenario.

Lemma reachable_three_ballots :
  reachable counts_untouched (three_ballots voting_db).
Proof.
  do 3 (apply reachable_handle; [|done]).
  apply reachable_handle; [apply reachable_empty|by cbn].
Qed.

Lemma reachable_any_three_ballots :
  reachable any_request (three_ballots voting_db).
Proof. do 4 (apply reachable_handle; [|done]). apply reachable_empty. Qed.

Lemma reachable_any_moved : reachable any_request moved_db.
Proof. do 4 (apply reachable_handle; [|done]). apply reachable_empty. Qed.

Lemma reachable_any_answered : reachable any_request answered_db.
Proof.
  apply reachable_handle; [|done]. apply reachable_any_three_ballots.
Qed.

Lemma reachable_any_partly : reachable any_request partly_db.
Proof. do 2 (apply reachable_handle; [|done]). apply reachable_empty. Qed.

Lemma accepted_vote_reads_back_witness :
  exists db' v,
    addVote (citizen 2) 0 forged 21%Z voting_db = (db', Json 201 v)
    /\ Vote.user v = 2
    /\ Vote.proposal v = 0
    /\ getUserVote (citizen 2) 0 voting_db = Json 200 None
    /\ getUserVote (citizen 2) 0 db' = Json 200 (Some v).
Proof.
  assert (exists db' v,
            addVote (citizen 2) 0 forged 21%Z voting_db = (db', Json 201 v))
    as (db' & v & H) by (eexists _, _; vm_compute; reflexivity).
  exists db', v. split; [exact H|].
  destruct (accepted_vote_reads_back _ _ _ _ _ _ _ H)
    as (Hu & Hp & _ & Hbefore & Hafter).
  split; [exact Hu|]. split; [exact Hp|]. split; [exact Hbefore|exact Hafter].
Defined.

Lemma changed_vote_moves_one_count_witness :
  exists db' p',
    updateVote (citizen 4) 3 (ballot "yes") 30%Z (three_ballots voting_db)
    = (db', Json 200
              (Some {| Vote._id := 3; Vote.proposal := 0; Vote.user := 4;
                       Vote.vote := "yes"; Vote.createdAt := 23%Z |}))
    /\ proposals db' !! 0 = Some p'
    /\ Proposal.voteCount p'
       = {| Proposal.yes := 3; Proposal.no := 0; Proposal.abstain := 0 |}
    /\ tally p' = 3%Z
    /\ length (votes db') = 3%nat.
Proof.
  pose proof (reachable_consistent _ reachable_three_ballots) as Hc.
  assert (exists p, proposals (three_ballots voting_db) !! 0 = Some p
                    /\ Proposal.status p = "voting"
                    /\ Proposal.voteCount p
                       = {| Proposal.yes := 2; Proposal.no := 1;
                            Proposal.abstain := 0 |})
    as (p & Hp & Hst & Hcount)
    by (eexists; split; [vm_compute; reflexivity|split; reflexivity]).
  destruct (changed_vote_moves_one_count (citizen 4) 3 "yes" 30%Z
              (three_ballots voting_db)
              {| Vote._id := 3; Vote.proposal := 0; Vote.user := 4;
                 Vote.vote := "no"; Vote.createdAt := 23%Z |} p Hc)
    as (db' & p' & Hup & Hp' & Hvc & Htally & _ & Hlen);
    [by vm_compute|reflexivity|exact Hp|exact Hst|reflexivity|].
  exists db', p'. split; [exact Hup|]. split; [exact Hp'|].
  split; [by rewrite Hvc, Hcount|].
  split; [rewrite Htally; unfold tally; by rewrite Hcount|exact Hlen].
Defined.

Lemma unique_indexes_hold_under_any_requests_witness :
  Vote.proposal <$> votes moved_db = [1]
  /\ NoDup (pair_of <$> votes moved_db)
  /\ NoDup (OfficialResponse.proposal <$> officialResponses moved_db)
  /\ NoDup (Vote._id <$> votes moved_db)
  /\ NoDup (OfficialResponse._id <$> officialResponses moved_db).
Proof.
  split; [by vm_compute|].
  exact (unique_indexes_hold_under_any_requests moved_db reachable_any_moved).
Defined.

Lemma stored_status_is_schema_or_partially_approved_witness :
  exists p,
    proposals partly_db !! 0 = Some p
    /\ Proposal.status p = "partially_approved"
    /\ in_enum Proposal.status_enum (Proposal.status p) = false
    /\ (in_enum Proposal.status_enum (Proposal.status p) = true
        \/ Proposal.status p = "partially_approved").
Proof.
  assert (exists p, proposals partly_db !! 0 = Some p
                    /\ Proposal.status p = "partially_approved")
    as (p & Hp & Hst)
    by (eexists; split; [vm_compute; reflexivity|reflexivity]).
  exists p. split; [exact Hp|]. split; [exact Hst|].
  split; [by rewrite Hst|].
  exact (stored_status_is_schema_or_partially_approved partly_db 0 p
           reachable_any_partly Hp).
Defined.

Lemma official_response_is_filed_witness :
  (exists doc,
     snd (createOfficialResponse (official 9) 0 (answer "approved") None
            300%Z (three_ballots voting_db)) = Json 201 doc
     /\ OfficialResponse.respondent doc = 9
     /\ getOfficialResponse 0 answered_db = Json 200 doc
     /\ getVotes 0 answered_db
        = Json 200 {| yes := 2; no := 1; abstain := 0; total := 3 |})
  /\ createOfficialResponse (official 9) 0 (sealed "approved") None 300%Z
       (three_ballots voting_db)
     = (three_ballots voting_db,
        Next (ErrorResponse "Blockchain verification failed" 500)).
Proof.
  assert (exists p, proposals (three_ballots voting_db) !! 0 = Some p)
    as (p & Hp) by (eexists; vm_compute; reflexivity).
  split.
  - destruct (official_response_is_filed (official 9) 0 (answer "approved")
                None 300%Z (three_ballots voting_db) p "approved" Hp
                eq_refl eq_refl eq_refl eq_refl eq_refl) as [_ Hfiled].
    destruct Hfiled as (doc & Hout & _ & Hresp & _ & _ & Hget & _);
      [intros H; discriminate H|].
    exists doc. split; [exact Hout|]. split; [exact Hresp|].
    split; [exact Hget|by vm_compute].
  - destruct (official_response_is_filed (official 9) 0 (sealed "approved")
                None 300%Z (three_ballots voting_db) p "approved" Hp
                eq_refl eq_refl eq_refl eq_refl eq_refl) as [Hfail _].
    exact (Hfail eq_refl eq_refl).
Defined.

Lemma proposals_are_never_deleted_witness :
  exists p p',
    proposals (three_ballots voting_db) !! 0 = Some p
    /\ proposals answered_db !! 0 = Some p'
    /\ same_origin p p'
    /\ Proposal.status p = "voting"
    /\ Proposal.status p' = "approved".
Proof.
  assert (exists p, proposals (three_ballots voting_db) !! 0 = Some p
                    /\ Proposal.status p = "voting")
    as (p & Hp & Hst)
    by (eexists; split; [vm_compute; reflexivity|reflexivity]).
  destruct (proposals_are_never_deleted 300%Z
              (CreateOfficialResponse (official 9) 0 (answer "approved") None)
              (three_ballots voting_db) 0 p reachable_any_three_ballots Hp)
    as (p' & Hp' & Hsame).
  exists p, p'. split; [exact Hp|]. split; [exact Hp'|].
  split; [exact Hsame|]. split; [exact Hst|].
  vm_compute in Hp'. injection Hp' as <-. reflexivity.
Defined.


Lemma responses_change_only_by_respondent_or_admin_witness :
  exists x,
    OfficialResponse_findOne 0 answered_db = Some x
    /\ OfficialResponse.respondent x = 9
    /\ x ∈ officialResponses
             (handle 400%Z
                (UpdateOfficialResponse (official 8) (OfficialResponse._id x)
                   (answer "rejected") None) answered_db).
Proof.
  assert (exists x, OfficialResponse_findOne 0 answered_db = Some x
                    /\ OfficialResponse.respondent x = 9
                    /\ x ∈ officialResponses answered_db)
    as (x & Hx & Hresp & Hin).
  { eexists. split; [vm_compute; reflexivity|]. split; [reflexivity|].
    apply (list_elem_of_lookup_2 _ 0). by vm_compute. }
  exists x. split; [exact Hx|]. split; [exact Hresp|].
  destruct (responses_change_only_by_respondent_or_admin 400%Z
              (UpdateOfficialResponse (official 8) (OfficialResponse._id x)
                 (answer "rejected") None)
              answered_db x reachable_any_answered Hin)
    as [H|(u & b & pr & x' & Hr & Hauth & _)]; [exact H|].
  injection Hr as <- _ _. rewrite Hresp in Hauth.
  destruct Hauth as [Hauth|Hauth]; discriminate Hauth.
Defined.

End BackendExamples.

Section BackendSlip.
Import Backend Scenario.

Lemma replace_same {A} (ident : A -> N) i (x : A) (l : list A) :
  NoDup (ident <$> l) -> x ∈ l -> ident x = i ->
  (fun w => if ident w =? i then x else w) <$> l = l.
Proof.
  intros Hnd Hx Hi. rewrite <- (list_fmap_id l) at 2.
  apply list_fmap_ext. intros k w Hw. cbn.
  destruct (N.eqb_spec (ident w) i) as [Hwi|]; [|done].
  apply (NoDup_fmap_eq ident l); [done|done|by eapply list_elem_of_lookup_2|].
  by rewrite Hi, Hwi.
Qed.

(** X28.  In a consistent store, an [updateVote] of the owner that names
    no choice (it only rewrites the reason) is answered 200 with the vote
    unchanged, yet one is taken off the counter of the vote's choice: the
    proposal's counters then add up to one less than the number of its
    vote records. *)
Theorem update_without_choice_loses_a_count user voteId now db v p :
  consistent db ->
  Vote_findById voteId db = Some v ->
  Vote.user v = id user ->
  proposals db !! Vote.proposal v = Some p ->
  Proposal.status p = "voting" ->
  exists db' p',
    updateVote user voteId reason_only now db = (db', Json 200 (Some v))
    /\ votes db' = votes db
    /\ proposals db' !! Vote.proposal v = Some p'
    /\ Proposal.voteCount p'
       = Proposal.voteCount_add (Vote.vote v) (-1) (Proposal.voteCount p)
    /\ tally p' = (Z.of_nat (length (votes_of (Vote.proposal v) db')) - 1)%Z.
Proof.
  intros Hc Hv Hu Hp Hst.
  destruct (Vote_findById_Some _ _ _ Hv) as [Hin Hid].
  destruct (votes_known _ Hc v Hin) as (_ & Hve & _).
  destruct (proposals_keyed _ Hc _ _ Hp) as [Hpid _].
  assert (Vote_index_free voteId (Vote.proposal v) (Vote.user v) db = true)
    as Hfree.
  { apply forallb_forall. intros w Hw. apply list_elem_of_In in Hw.
    destruct (N.eqb_spec (Vote._id w) voteId) as [|Hne]; [done|].
    cbn [orb]. apply negb_true_iff, andb_false_iff.
    destruct (N.eqb_spec (Vote.proposal w) (Vote.proposal v)) as [Hwp|];
      [|by left].
    destruct (N.eqb_spec (Vote.user w) (Vote.user v)) as [Hwu|]; [|by right].
    exfalso. apply Hne. rewrite <- Hid. f_equal.
    apply (NoDup_fmap_eq pair_of (votes db)); [apply Hc|done|done|].
    unfold pair_of. by rewrite Hwp, Hwu. }
  assert (Vote_apply reason_only v = v) as Happly by (by destruct v).
  unfold updateVote, Proposal_findById. rewrite Hv.
  replace (Vote.user v =? id user) with true
    by (symmetry; by apply N.eqb_eq).
  rewrite Hp, Hst.
  change (negb ("voting" =? "voting")%string) with false.
  cbn [negb].
  set (p' := Proposal.set_voteCount _ (Proposal.set_voteCount _ p)).
  unfold Vote_findByIdAndUpdate.
  change (Vote_findById voteId (Proposal_save p' now db))
    with (Vote_findById voteId db).
  rewrite Hv. cbn [reason_only Vote.rest_valid Vote.body_vote andb].
  change (Vote_apply _ v) with (Vote_apply reason_only v). rewrite Happly.
  change (Vote_index_free voteId ?a ?b (Proposal_save p' now db))
    with (Vote_index_free voteId a b db).
  rewrite Hfree.
  change (votes (Proposal_save p' now db)) with (votes db).
  rewrite (replace_same Vote._id voteId v (votes db)) by
    (first [apply Hc|done]).
  eexists _, (Proposal.set_updatedAt now p').
  split; [reflexivity|].
  cbn [proposals Proposal_save votes].
  split; [done|]. split; [|split].
  - subst p'. cbn [Proposal._id Proposal.set_voteCount]. rewrite Hpid.
    by rewrite lookup_insert_eq.
  - done.
  - change (tally (Proposal.set_updatedAt now ?x)) with (tally x).
    subst p'.
    change (tally (Proposal.set_voteCount ?c (Proposal.set_voteCount ?d p)))
      with (tally (Proposal.set_voteCount c p)).
    change (Proposal.voteCount_add (Vote.key (Vote.body_vote reason_only)) 1
              ?c) with c.
    change (Proposal.voteCount (Proposal.set_voteCount ?c p)) with c.
    rewrite tally_voteCount_add by done.
    rewrite (tallies _ Hc _ _ Hp). unfold votes_of. cbn [votes]. lia.
Qed.

Lemma update_without_choice_loses_a_count_witness :
  exists db' p',
    updateVote (citizen 4) 3 reason_only 30%Z (three_ballots voting_db)
    = (db', Json 200
              (Some {| Vote._id := 3; Vote.proposal := 0; Vote.user := 4;
                       Vote.vote := "no"; Vote.createdAt := 23%Z |}))
    /\ votes db' = votes (three_ballots voting_db)
    /\ proposals db' !! 0 = Some p'
    /\ length (votes_of 0 db') = 3%nat
    /\ tally p' = 2%Z.
Proof.
  pose proof (reachable_consistent _ reachable_three_ballots) as Hc.
  assert (exists p, proposals (three_ballots voting_db) !! 0 = Some p
                    /\ Proposal.status p = "voting")
    as (p & Hp & Hst)
    by (eexists; split; [vm_compute; reflexivity|reflexivity]).
  destruct (update_without_choice_loses_a_count (citizen 4) 3 30%Z
              (three_ballots voting_db)
              {| Vote._id := 3; Vote.proposal := 0; Vote.user := 4;
                 Vote.vote := "no"; Vote.createdAt := 23%Z |} p Hc)
    as (db' & p' & Hup & Hvotes & Hp' & _ & Htally);
    [by vm_compute|reflexivity|exact Hp|exact Hst|].
  assert (length (votes_of 0 db') = 3%nat) as Hlen
    by (unfold votes_of; rewrite Hvotes; by vm_compute).
  exists db', p'. split; [exact Hup|]. split; [exact Hvotes|].
  split; [exact Hp'|]. split; [exact Hlen|].
  cbn [Vote.proposal] in Htally. rewrite Htally, Hlen. reflexivity.
Defined.

End BackendSlip.
